(** * Creative_AI_launch: the prompt-assembly pipeline and the quality-retry loop

    A shallow embedding of
    - [src/workflow/multi_prompt_system.py]  (InputProcessor, LayoutIntegrator,
      the assessment, metrics, validation and translation of PromptFinalizer),
    - [utils/gpt_utils.py]                   (optimize_prompt_with_gpt4),
    - [src/workflow/langgraph_quality_workflow.py] (the LangGraph retry loop),
    followed by the properties the specification states about them (Part II)
    and by further properties of the same code (Part III).

    Python values are modelled by an inductive type of dynamically typed
    values; a Python [str] is its list of Unicode code points, so that [len]
    is [length].  Code that can raise returns [option]: [None] is "an
    exception escaped".  External collaborators (the GPT-4 endpoint, the
    environment, the prompt renderer of the pipeline) are parameters. *)

From Stdlib Require Import String Ascii DecimalString.
From Stdlib Require Import ZArith NArith Lia Bool List.
Import ListNotations.

Set Warnings "-register-all".
Set Implicit Arguments.

(* ================================================================== *)
(** * Part I.  The embedding                                            *)
(* ================================================================== *)

(** ** Python strings *)

(** A code point. *)
Definition char := N.

(** A Python [str]: the sequence of its code points. *)
Definition pystr := list char.

(** Decoding of the UTF-8 bytes of a source literal into code points:
    [acc] collects the payload bits of a multi-byte sequence, [need] counts
    the continuation bytes still expected. *)
Fixpoint utf8_go (acc : N) (need : nat) (bs : list N) : pystr :=
  match bs with
  | [] => []
  | b :: bs' =>
      match need with
      | O =>
          if (b <? 128)%N then b :: utf8_go 0%N 0 bs'
          else if (b <? 224)%N then utf8_go (b - 192)%N 1 bs'
          else if (b <? 240)%N then utf8_go (b - 224)%N 2 bs'
          else utf8_go (b - 240)%N 3 bs'
      | S k =>
          let acc' := (acc * 64 + (b - 128))%N in
          match k with
          | O => acc' :: utf8_go 0%N 0 bs'
          | S _ => utf8_go acc' k bs'
          end
      end
  end.

(** A string literal of the source, as a [pystr]. *)
Definition py (s : string) : pystr :=
  utf8_go 0%N 0 (map N_of_ascii (list_ascii_of_string s)).

Fixpoint str_eqb (a b : pystr) : bool :=
  match a, b with
  | [], [] => true
  | x :: a', y :: b' => (x =? y)%N && str_eqb a' b'
  | _, _ => false
  end.

(** [s.startswith(p)] *)
Fixpoint str_startswith (p s : pystr) : bool :=
  match p, s with
  | [], _ => true
  | x :: p', y :: s' => (x =? y)%N && str_startswith p' s'
  | _ :: _, [] => false
  end.

(** [p in s] for two strings: [p] occurs in [s] as a substring. *)
Fixpoint str_contains (p s : pystr) : bool :=
  str_startswith p s ||
  match s with
  | [] => false
  | _ :: s' => str_contains p s'
  end.

(** The scan of [s.replace(old, new)] for a non-empty [old]: left to right,
    every occurrence of [old] that does not overlap an earlier replaced one
    is replaced.  [skip] counts the characters of a matched occurrence that
    are still to be passed over. *)
Fixpoint replace_scan (old new : pystr) (skip : nat) (s : pystr) : pystr :=
  match s with
  | [] => []
  | c :: s' =>
      match skip with
      | S k => replace_scan old new k s'
      | O =>
          if str_startswith old s
          then new ++ replace_scan old new (length old - 1) s'
          else c :: replace_scan old new 0 s'
      end
  end.

(** [s.replace(old, new)]; for the empty [old] Python inserts [new] before
    every character and at the end. *)
Definition str_replace (old new s : pystr) : pystr :=
  match old with
  | [] => new ++ flat_map (fun c => c :: new) s
  | _ :: _ => replace_scan old new 0 s
  end.

(** The scan of [s.split(sep)] for a non-empty [sep]; [cur] is the piece
    being collected, reversed. *)
Fixpoint split_scan (sep : pystr) (skip : nat) (cur : pystr) (s : pystr)
  : list pystr :=
  match s with
  | [] => [rev cur]
  | c :: s' =>
      match skip with
      | S k => split_scan sep k cur s'
      | O =>
          if str_startswith sep s
          then rev cur :: split_scan sep (length sep - 1) [] s'
          else split_scan sep 0 (c :: cur) s'
      end
  end.

(** [s.split(sep)]; the empty separator raises [ValueError]. *)
Definition str_split (sep s : pystr) : option (list pystr) :=
  match sep with
  | [] => None
  | _ :: _ => Some (split_scan sep 0 [] s)
  end.

(** [str.isspace] on one code point (the Unicode white-space characters
    that [str.strip()] removes). *)
Definition is_space (c : char) : bool :=
  ((9 <=? c) && (c <=? 13) || (28 <=? c) && (c <=? 32) ||
   (c =? 133) || (c =? 160) || (c =? 5760) ||
   (8192 <=? c) && (c <=? 8202) ||
   (c =? 8232) || (c =? 8233) || (c =? 8239) || (c =? 8287) ||
   (c =? 12288))%N.

Fixpoint str_lstrip (s : pystr) : pystr :=
  match s with
  | [] => []
  | c :: s' => if is_space c then str_lstrip s' else s
  end.

Definition str_rstrip (s : pystr) : pystr := rev (str_lstrip (rev s)).

(** [s.strip()] *)
Definition str_strip (s : pystr) : pystr := str_rstrip (str_lstrip s).

(** [s[:n]] on a string or a list: a negative [n] counts from the end. *)
Definition slice_to (A : Type) (n : Z) (s : list A) : list A :=
  if (0 <=? n)%Z then firstn (Z.to_nat n) s
  else firstn (Z.to_nat (Z.of_nat (length s) + n)) s.

(** [len(s)] as a Python integer. *)
Definition len (A : Type) (l : list A) : Z := Z.of_nat (length l).

(** [str(n)] for an integer, as in an f-string. *)
Definition str_of_int (n : Z) : pystr := py (NilZero.string_of_int (Z.to_int n)).

(** *** [int(s)] on a string

    Base-10 parsing as [int] does it: surrounding white space is dropped,
    one sign is allowed, digits may be grouped by single underscores.
    [int_ascii] is that parser on ASCII text.  Two things vary with the
    interpreter and are left to it: which characters beyond the ASCII
    digits count as decimal digits (the Unicode table of the build), and
    the limit on the number of digits ([ValueError] above 4300 digits from
    Python 3.11 on).  [int_other] is what the interpreter at hand answers
    there: [py_int] consults it for every string that, stripped, holds a
    character outside ASCII or more than 4300 characters. *)
Definition is_digit (c : char) : bool := ((48 <=? c) && (c <=? 57))%N.

Fixpoint int_digits (acc : Z) (after_digit : bool) (s : pystr) : option Z :=
  match s with
  | [] => if after_digit then Some acc else None
  | c :: s' =>
      if is_digit c then int_digits (10 * acc + Z.of_N (c - 48)) true s'
      else if (c =? 95)%N && after_digit then int_digits acc false s'
      else None
  end.

Definition int_ascii (stripped_text : pystr) : option Z :=
  match stripped_text with
  | 45%N :: ds => option_map Z.opp (int_digits 0 false ds)
  | 43%N :: ds => int_digits 0 false ds
  | ds => int_digits 0 false ds
  end.

(** ASCII text of at most 4300 characters. *)
Definition plain_ascii (s : pystr) : bool :=
  forallb (fun c => (c <? 128)%N) s && (len s <=? 4300)%Z.

Section IntOfStr.

Variable int_other : pystr -> option Z.

Definition py_int (s : pystr) : option Z :=
  if plain_ascii (str_strip s) then int_ascii (str_strip s) else int_other s.

End IntOfStr.

(** ** Python values *)

(** A dictionary key: a string, or some other hashable value (which never
    equals a string). *)
Inductive pykey : Type :=
| KStr (s : pystr)
| KOther (z : Z).

(** The values that travel through the pipeline: what [yaml.safe_load] and
    the UI hand over.  A [dict] keeps its insertion order and is an
    association list; [POther] is any other object, with its truth value. *)
Inductive pyval : Type :=
| PNone
| PBool (b : bool)
| PInt (z : Z)
| PStr (s : pystr)
| PList (l : list pyval)
| PDict (d : list (pykey * pyval))
| POther (id : nat) (truth : bool).

Definition pydict := list (pykey * pyval).

(** [bool(v)] *)
Definition truthy (v : pyval) : bool :=
  match v with
  | PNone => false
  | PBool b => b
  | PInt z => negb (z =? 0)%Z
  | PStr s => match s with [] => false | _ => true end
  | PList l => match l with [] => false | _ => true end
  | PDict d => match d with [] => false | _ => true end
  | POther _ t => t
  end.

(** [isinstance(v, str)], [isinstance(v, list)], [isinstance(v, dict)] *)
Definition isinstance_str (v : pyval) : bool :=
  match v with PStr _ => true | _ => false end.
Definition isinstance_list (v : pyval) : bool :=
  match v with PList _ => true | _ => false end.
Definition isinstance_dict (v : pyval) : bool :=
  match v with PDict _ => true | _ => false end.

(** [key == 'name'] for a dictionary key and a string. *)
Definition key_is (k : pykey) (name : pystr) : bool :=
  match k with
  | KStr s => str_eqb s name
  | KOther _ => false
  end.

(** [d.get(name)] on a dictionary: [None] when the key is absent. *)
Fixpoint dict_get (d : pydict) (name : pystr) : option pyval :=
  match d with
  | [] => None
  | (k, v) :: d' => if key_is k name then Some v else dict_get d' name
  end.

(** [d.get(name, default)] *)
Definition dict_get_default (d : pydict) (name : pystr) (default : pyval)
  : pyval :=
  match dict_get d name with
  | Some v => v
  | None => default
  end.

(** [name in d] for a dictionary. *)
Definition dict_has (d : pydict) (name : pystr) : bool :=
  match dict_get d name with
  | Some _ => true
  | None => false
  end.

(** [v.get(name, default)] on an arbitrary value: only a [dict] has [get]. *)
Definition py_get (v : pyval) (name : pystr) (default : pyval)
  : option pyval :=
  match v with
  | PDict d => Some (dict_get_default d name default)
  | _ => None
  end.

(** [v == 'name'] for a value and a string. *)
Definition val_is_str (v : pyval) (name : pystr) : bool :=
  match v with
  | PStr s => str_eqb s name
  | _ => false
  end.

(** ['name' in v]: key membership in a [dict], element membership in a
    [list], substring test in a [str], [TypeError] otherwise. *)
Definition py_in (name : pystr) (v : pyval) : option bool :=
  match v with
  | PDict d => Some (dict_has d name)
  | PList l => Some (existsb (fun x => val_is_str x name) l)
  | PStr s => Some (str_contains name s)
  | _ => None
  end.

(** [v['name']]: defined on a [dict] that has the key. *)
Definition py_getitem (v : pyval) (name : pystr) : option pyval :=
  match v with
  | PDict d => dict_get d name
  | _ => None
  end.

(** Sequencing of code that can raise. *)
Definition bind (A B : Type) (m : option A) (k : A -> option B) : option B :=
  match m with
  | Some a => k a
  | None => None
  end.

Notation "x <- m ;; k" := (bind m (fun x => k))
  (at level 61, m at next level, right associativity).

(** ** More of the built-in operations *)

(** [sep.join(parts)] *)
Fixpoint str_join (sep : pystr) (parts : list pystr) : pystr :=
  match parts with
  | [] => []
  | [p] => p
  | p :: rest => p ++ sep ++ str_join sep rest
  end.

(** The scan of [s.split()] without a separator: the maximal runs of
    characters that are no white space.  [cur] is the run being collected,
    reversed. *)
Fixpoint words_scan (cur : pystr) (s : pystr) : list pystr :=
  match s with
  | [] => match cur with [] => [] | _ :: _ => [rev cur] end
  | c :: s' =>
      if is_space c then
        match cur with
        | [] => words_scan [] s'
        | _ :: _ => rev cur :: words_scan [] s'
        end
      else words_scan (c :: cur) s'
  end.

(** [s.split()] *)
Definition str_words (s : pystr) : list pystr := words_scan [] s.

(** [len(v)] on a value: strings, lists and dictionaries have a length,
    anything else raises [TypeError]. *)
Definition value_len (v : pyval) : option Z :=
  match v with
  | PStr s => Some (len s)
  | PList l => Some (len l)
  | PDict d => Some (len d)
  | _ => None
  end.

(* ------------------------------------------------------------------ *)
(** ** Stage 1: [InputProcessor]                                         *)
(* ------------------------------------------------------------------ *)

Module InputProcessor.

(** [_normalize_text(text, max_length)] *)
Definition _normalize_text (text : pyval) (max_length : Z) : pystr :=
  if negb (truthy text) || negb (isinstance_str text) then []
  else
    match text with
    | PStr s =>
        let text := str_strip s in
        if (len text >? max_length)%Z
        then slice_to (max_length - 3) text ++ py "..."
        else text
    | _ => []
    end.

(** [_normalize_benefits(benefits, max_items, max_length_per_item)] *)
Definition _normalize_benefits (benefits : pyval)
    (max_items max_length_per_item : Z) : list pystr :=
  if negb (truthy benefits) || negb (isinstance_list benefits) then []
  else
    match benefits with
    | PList l =>
        flat_map
          (fun benefit =>
             match benefit with
             | PStr b =>
                 if truthy benefit then
                   let normalized_benefit :=
                     _normalize_text (PStr (str_strip b)) max_length_per_item in
                   if truthy (PStr normalized_benefit)
                   then [normalized_benefit] else []
                 else []
             | _ => []
             end)
          (slice_to max_items l)
    | _ => []
    end.

(** The [default_colors] table of [_extract_ci_colors], in its order. *)
Definition default_colors : list (pystr * pystr) :=
  [ (py "primary", py "#005EA5");
    (py "secondary", py "#B4D9F7");
    (py "accent", py "#FFC20E");
    (py "background", py "#FFFFFF");
    (py "text", py "#000000") ].

(** The test [isinstance(color, str) and color.startswith('#') and
    len(color) in [4, 7]]. *)
Definition valid_color (color : pyval) : bool :=
  match color with
  | PStr c =>
      str_startswith (py "#") c && ((len c =? 4)%Z || (len c =? 7)%Z)
  | _ => false
  end.

(** [_extract_ci_colors(colors)]: the result is a [Dict[str, str]], built
    key by key in the order of [default_colors]. *)
Definition _extract_ci_colors (colors : pydict) : list (pystr * pystr) :=
  map
    (fun entry =>
       let '(key, default_value) := entry in
       let color := dict_get_default colors key (PStr default_value) in
       match color with
       | PStr c => if valid_color color then (key, c) else (key, default_value)
       | _ => (key, default_value)
       end)
    default_colors.

(** [_extract_ci_colors_from_streamlit(streamlit_input)].  A truthy
    [corporate_colors] that is no [dict] has no [get]: the call raises. *)
Definition _extract_ci_colors_from_streamlit (streamlit_input : pydict)
  : option (list (pystr * pystr)) :=
  let palette_result :=
    match dict_get streamlit_input (py "ci_colors_palette") with
    | Some (PDict palette) => Some (_extract_ci_colors palette)
    | _ => None
    end in
  match palette_result with
  | Some r => Some r
  | None =>
      let colors_mapping :=
        flat_map
          (fun entry =>
             let '(k, field) := entry in
             match dict_get_default streamlit_input field PNone with
             | PNone => []
             | v => [(KStr k, v)]
             end)
          [ (py "primary", py "primary_color");
            (py "secondary", py "secondary_color");
            (py "accent", py "accent_color");
            (py "background", py "background_color");
            (py "text", py "text_color") ] in
      if truthy (PDict colors_mapping) then Some (_extract_ci_colors colors_mapping)
      else
        let corporate_colors :=
          dict_get_default streamlit_input (py "corporate_colors") (PDict []) in
        if truthy corporate_colors then
          match corporate_colors with
          | PDict d => Some (_extract_ci_colors d)
          | _ => None
          end
        else Some (_extract_ci_colors [])
  end.

(** The [StructuredInput] dataclass.  The fields [timestamp] (the clock),
    [uploaded_image_name] (an attribute of the uploaded object) and the
    constant [processing_stage] are left out. *)
Record StructuredInput : Type := {
  headline : pystr;
  subline : pystr;
  company : pystr;
  location : pystr;
  stellentitel : pystr;
  position_long : pystr;
  benefits : list pystr;
  cta : pystr;
  motiv_prompt : pystr;
  visual_style : pyval;
  lighting_type : pyval;
  lighting_mood : pyval;
  framing : pyval;
  motiv_source : pyval;
  layout_id : pyval;
  ci_colors : list (pystr * pystr);
  logo_file : pyval;
  logo_placeholder : pystr;
  style_options : pyval;
  uploaded_image : pyval
}.

(** [streamlit_input.get(k, d)] and the normalised text field
    [_normalize_text(streamlit_input.get(k, d), max_length=n)]. *)
Definition field (streamlit_input : pydict) (k : string) (d : pyval) : pyval :=
  dict_get_default streamlit_input (py k) d.

Definition text_field (streamlit_input : pydict) (k : string) (d : pystr)
    (n : Z) : pystr :=
  _normalize_text (field streamlit_input k (PStr d)) n.

(** [process(streamlit_input)]; an exception is logged and raised again. *)
Definition process (streamlit_input : pydict) : option StructuredInput :=
  ci_colors <- _extract_ci_colors_from_streamlit streamlit_input ;;
  Some {|
    headline := text_field streamlit_input "headline" [] 50;
    subline := text_field streamlit_input "subline" [] 60;
    company := text_field streamlit_input "company" [] 30;
    location := text_field streamlit_input "location" [] 25;
    stellentitel := text_field streamlit_input "stellentitel" [] 50;
    position_long := text_field streamlit_input "position_long" [] 40;
    benefits :=
      _normalize_benefits (field streamlit_input "benefits" (PList [])) 5 35;
    cta := text_field streamlit_input "cta" (py "Jetzt bewerben!") 25;
    motiv_prompt := text_field streamlit_input "motiv_prompt" [] 200;
    visual_style :=
      field streamlit_input "visual_style"
        (PStr (py "professional, realistic photography"));
    lighting_type :=
      field streamlit_input "lighting_type" (PStr (py "natural, soft lighting"));
    lighting_mood :=
      field streamlit_input "lighting_mood"
        (PStr (py "warm, welcoming, professional"));
    framing := field streamlit_input "framing" (PStr (py "medium shot, waist up"));
    motiv_source :=
      field streamlit_input "motiv_source" (PStr (py "📝 Text-Beschreibung"));
    layout_id :=
      field streamlit_input "layout_id" (PStr (py "skizze1_vertical_split"));
    ci_colors := ci_colors;
    logo_file := field streamlit_input "logo_file" PNone;
    logo_placeholder :=
      text_field streamlit_input "logo_placeholder" (py "[FIRMENLOGO]") 30;
    style_options := field streamlit_input "style_options" (PDict []);
    uploaded_image := field streamlit_input "uploaded_image" PNone
  |}.

End InputProcessor.

(* ------------------------------------------------------------------ *)
(** ** Stage 2: [LayoutIntegrator]                                       *)
(* ------------------------------------------------------------------ *)

Module LayoutIntegrator.

Import InputProcessor.

(** The CI-color placeholders of the layout templates. *)
Definition ph_primary : pystr := py "{primary_color}".
Definition ph_secondary : pystr := py "{secondary_color}".
Definition ph_accent : pystr := py "{accent_color}".
Definition ph_background : pystr := py "{background_color}".

Definition placeholders : list pystr :=
  [ph_primary; ph_secondary; ph_accent; ph_background].

(** *** [_convert_banner_colors_to_generic] *)

(** The [str] branch of the inner [convert_colors]. *)
Definition convert_str (obj : pystr) : pystr :=
  if str_contains (py "background_color") obj then
    let obj := str_replace ph_secondary (py "professional dark background") obj in
    let obj := str_replace ph_primary (py "professional light background") obj in
    let obj := str_replace ph_accent (py "highlighted accent area") obj in
    obj
  else obj.

(** The inner [convert_colors(obj)].  The source updates a [dict] in place,
    entry by entry, and hands the same object back; a [list] is rebuilt.
    On a string, [convert_colors(value)] is [convert_str]. *)
Fixpoint convert_colors (obj : pyval) : pyval :=
  match obj with
  | PDict d =>
      PDict
        (map
           (fun entry =>
              match entry with
              | (key, value) =>
                  match value with
                  | PStr v =>
                      if key_is key (py "background_color") then
                        if str_contains ph_secondary v
                        then (key, PStr (py "professional dark background"))
                        else if str_contains ph_primary v
                        then (key, PStr (py "professional light background"))
                        else if str_contains ph_accent v
                        then (key, PStr (py "highlighted accent area"))
                        else (key, PStr (convert_str v))
                      else (key, PStr (convert_str v))
                  | _ => (key, convert_colors value)
                  end
              end)
           d)
  | PList l => PList (map convert_colors l)
  | PStr s => PStr (convert_str s)
  | _ => obj
  end.

(** [_convert_banner_colors_to_generic(layout_def)]: [convert_colors] on a
    deep copy. *)
Definition _convert_banner_colors_to_generic (layout_def : pyval) : pyval :=
  convert_colors layout_def.

(** *** [_resolve_layout_colors] *)

Section ReplaceColors.

(** The four colors read from [ci_colors]. *)
Variables primary secondary accent background : pystr.

(** The [color_mapping] table, in its order. *)
Definition color_mapping : list (pystr * pystr) :=
  [ (py "#000000", primary);
    (py "#333333", primary);
    (py "#777777", secondary);
    (py "#666666", secondary);
    (py "#00B5E2", primary);
    (py "#0088CC", primary);
    (py "#FFC20E", accent);
    (py "#FFB300", accent);
    (py "#EEEEEE", secondary);
    (py "#F5F5F5", secondary) ].

(** [if old in obj: obj = obj.replace(old, new)] *)
Definition replace_if_in (old new obj : pystr) : pystr :=
  if str_contains old obj then str_replace old new obj else obj.

(** The [str] branch of the inner [replace_colors]: the four placeholders
    in turn, then every hard-coded color of [color_mapping]. *)
Definition replace_str (obj : pystr) : pystr :=
  let obj := replace_if_in ph_primary primary obj in
  let obj := replace_if_in ph_secondary secondary obj in
  let obj := replace_if_in ph_accent accent obj in
  let obj := replace_if_in ph_background background obj in
  fold_left
    (fun obj entry => replace_if_in (fst entry) (snd entry) obj)
    color_mapping obj.

(** What the [dict] branch stores under a string-valued
    [background_color] key before it recurses: one placeholder is
    resolved, or else the hard-coded colors are tried, each on the
    original [value], the last hit winning. *)
Definition replace_background (value : pystr) : pystr :=
  if str_contains ph_primary value
  then str_replace ph_primary primary value
  else if str_contains ph_secondary value
  then str_replace ph_secondary secondary value
  else if str_contains ph_accent value
  then str_replace ph_accent accent value
  else if str_contains ph_background value
  then str_replace ph_background background value
  else
    fold_left
      (fun stored entry =>
         if str_contains (fst entry) value
         then str_replace (fst entry) (snd entry) value
         else stored)
      color_mapping value.

(** The inner [replace_colors(obj)].  Under a [background_color] key the
    source stores [replace_background value] and then calls
    [replace_colors] on that string, which is [replace_str]. *)
Fixpoint replace_colors (obj : pyval) : pyval :=
  match obj with
  | PDict d =>
      PDict
        (map
           (fun entry =>
              match entry with
              | (key, value) =>
                  match value with
                  | PStr v =>
                      if key_is key (py "background_color")
                      then (key, PStr (replace_str (replace_background v)))
                      else (key, PStr (replace_str v))
                  | _ => (key, replace_colors value)
                  end
              end)
           d)
  | PList l => PList (map replace_colors l)
  | PStr s => PStr (replace_str s)
  | _ => obj
  end.

End ReplaceColors.

(** [ci_colors.get(name, default)] on the [Dict[str, str]] of the input. *)
Fixpoint color_get (ci_colors : list (pystr * pystr)) (name default : pystr)
  : pystr :=
  match ci_colors with
  | [] => default
  | (k, v) :: rest => if str_eqb k name then v else color_get rest name default
  end.

(** [_resolve_layout_colors(layout_def, ci_colors)] *)
Definition _resolve_layout_colors (layout_def : pyval)
    (ci_colors : list (pystr * pystr)) : pyval :=
  let primary := color_get ci_colors (py "primary") (py "#005EA5") in
  let secondary := color_get ci_colors (py "secondary") (py "#B4D9F7") in
  let accent := color_get ci_colors (py "accent") (py "#FFC20E") in
  let background := color_get ci_colors (py "background") (py "#FFFFFF") in
  replace_colors primary secondary accent background layout_def.

(** *** [_apply_adaptive_rules] *)

Section AdaptiveRules.

(** [int] outside plain ASCII text, as the interpreter at hand has it. *)
Variable int_other : pystr -> option Z.

(** [int(trigger.split('> ')[1])]: the trigger must be a string with a
    second piece that [int] accepts. *)
Definition parse_trigger (trigger : pyval) : option Z :=
  match trigger with
  | PStr s =>
      parts <- str_split (py "> ") s ;;
      piece <- nth_error parts 1 ;;
      py_int int_other piece
  | _ => None
  end.

(** The dictionary appended for a rule that fires. *)
Definition adjustment (rule trigger : pystr) (action : pyval) : pydict :=
  [ (KStr (py "rule"), PStr rule);
    (KStr (py "trigger"), PStr trigger);
    (KStr (py "action"), action);
    (KStr (py "applied"), PBool true) ].

(** One of the two checks of [_apply_adaptive_rules]: the rule [name] of
    [adaptive_rules], its default trigger and action, the measured size and
    the text of the message around the two numbers. *)
Definition check_rule (adaptive_rules : pyval) (name : string)
    (default_trigger default_action : string) (size : Z) (message : string)
    (adjustments : list pydict) : option (list pydict) :=
  present <- py_in (py name) adaptive_rules ;;
  if present : bool then
    rule <- py_getitem adaptive_rules (py name) ;;
    trigger <- py_get rule (py "trigger") (PStr (py default_trigger)) ;;
    trigger_value <- parse_trigger trigger ;;
    if (size >? trigger_value)%Z then
      action <- py_get rule (py "action") (PStr (py default_action)) ;;
      Some (adjustments ++
            [adjustment (py name)
               (py message ++ py " (" ++ str_of_int size ++ py " > " ++
                str_of_int trigger_value ++ py ")")
               action])
    else Some adjustments
  else Some adjustments.

(** [_apply_adaptive_rules(layout_def, structured_input)] *)
Definition _apply_adaptive_rules (layout_def : pydict)
    (structured_input : StructuredInput) : option (list pydict) :=
  let adaptive_rules :=
    dict_get_default layout_def (py "adaptive_rules") (PDict []) in
  let adjustments := [] in
  adjustments <-
    check_rule adaptive_rules "long_headline" "length > 50" "reduce_font_size"
      (len (headline structured_input)) "Headline zu lang" adjustments ;;
  adjustments <-
    check_rule adaptive_rules "many_benefits" "count > 5"
      "truncate_with_ellipsis"
      (len (benefits structured_input)) "Zu viele Benefits" adjustments ;;
  Some adjustments.

End AdaptiveRules.


(** *** [_calculate_layout_metrics] *)

(** [sum(len(b) for b in benefits)] *)
Definition total_length (items : list pystr) : Z :=
  fold_left Z.add (map (fun b => len b) items) 0%Z.

(** [_calculate_layout_metrics(layout_def, structured_input)];
    [len(zones)] raises when [zones] is no container. *)
Definition _calculate_layout_metrics (layout_def : pydict)
    (structured_input : StructuredInput) : option pydict :=
  let zones := dict_get_default layout_def (py "zones") (PDict []) in
  zones_count <- value_len zones ;;
  Some
    [ (KStr (py "layout_complexity"),
       dict_get_default layout_def (py "complexity") (PStr (py "unknown")));
      (KStr (py "zones_count"), PInt zones_count);
      (KStr (py "text_elements_count"),
       PInt (len (filter (fun x => truthy (PStr x))
                    [ headline structured_input; company structured_input;
                      position_long structured_input ])));
      (KStr (py "benefits_count"), PInt (len (benefits structured_input)));
      (KStr (py "total_content_length"),
       PInt (fold_left Z.add
               [ len (headline structured_input);
                 len (company structured_input);
                 len (position_long structured_input);
                 total_length (benefits structured_input) ] 0%Z));
      (KStr (py "ci_colors_count"), PInt (len (ci_colors structured_input)));
      (KStr (py "layout_efficiency"),
       PStr (if (zones_count <=? 3)%Z then py "high"
             else if (zones_count <=? 6)%Z then py "medium"
             else py "complex")) ].

(** *** [_enhance_motiv_description] and [_determine_motiv_treatment] *)

Section Formatting.

(** The text [str(v)] of a list, a dictionary or another object. *)
Variable repr_of : pyval -> pystr.

(** The text an f-string puts for [{v}]. *)
Definition py_format (v : pyval) : pystr :=
  match v with
  | PStr s => s
  | PInt z => str_of_int z
  | PBool b => if b then py "True" else py "False"
  | PNone => py "None"
  | _ => repr_of v
  end.

(** One [if value: enhancements.append(f"label{value}")] of
    [_enhance_motiv_description]. *)
Definition append_enhancement (rules : pydict) (key label : string)
    (enhancements : list pystr) : list pystr :=
  let value := dict_get_default rules (py key) PNone in
  if truthy value then enhancements ++ [py label ++ py_format value]
  else enhancements.

(** [_enhance_motiv_description(original_prompt, integration_rules)]; rules
    that are truthy without being a dictionary have no [get]. *)
Definition _enhance_motiv_description (original_prompt : pystr)
    (integration_rules : pyval) : option pystr :=
  if negb (truthy integration_rules) then Some original_prompt
  else
    match integration_rules with
    | PDict rules =>
        let enhancements := [] in
        let enhancements :=
          append_enhancement rules "scene_focus" "Komposition: " enhancements in
        let enhancements :=
          append_enhancement rules "subject_positioning" "Positionierung: "
            enhancements in
        let enhancements :=
          append_enhancement rules "lighting_preference" "Beleuchtung: "
            enhancements in
        if truthy (PList (map PStr enhancements))
        then Some (original_prompt ++ py ". " ++ str_join (py ", ") enhancements)
        else Some original_prompt
    | _ => None
    end.

(** [_determine_motiv_treatment(layout_def, structured_input)] *)
Definition _determine_motiv_treatment (layout_def : pydict)
    (structured_input : StructuredInput) : option pydict :=
  match dict_get_default layout_def (py "motiv_integration") (PDict []) with
  | PDict motiv_integration =>
      enhanced <-
        _enhance_motiv_description (motiv_prompt structured_input)
          (dict_get_default motiv_integration
             (py "motiv_description_integration") (PDict [])) ;;
      Some
        [ (KStr (py "original_prompt"), PStr (motiv_prompt structured_input));
          (KStr (py "fill_mode"),
           dict_get_default motiv_integration (py "fill_mode") (PStr (py "cover")));
          (KStr (py "aspect_ratio"),
           dict_get_default motiv_integration (py "aspect_ratio") (PStr (py "1:1")));
          (KStr (py "positioning"),
           dict_get_default motiv_integration (py "positioning")
             (PStr (py "center_crop")));
          (KStr (py "focal_point"),
           dict_get_default motiv_integration (py "focal_point")
             (PStr (py "center")));
          (KStr (py "overlay_compatibility"),
           dict_get_default motiv_integration (py "overlay_compatibility")
             (PBool false));
          (KStr (py "text_safe_areas"),
           dict_get_default motiv_integration (py "text_safe_areas") (PList []));
          (KStr (py "contrast_requirements"),
           dict_get_default motiv_integration (py "contrast_requirements")
             (PStr (py "medium")));
          (KStr (py "enhanced_description"), PStr enhanced) ]
  | _ => None
  end.

End Formatting.

End LayoutIntegrator.

(* ------------------------------------------------------------------ *)
(** ** Stage 3: [PromptFinalizer], the quality assessment                *)
(* ------------------------------------------------------------------ *)

Module PromptFinalizer.

(** The [LayoutIntegratedData] dataclass. *)
Record LayoutIntegratedData : Type := {
  structured_input : InputProcessor.StructuredInput;
  layout_definition : pydict;
  text_placements : pydict;
  motiv_treatment : pydict;
  applied_typography : pydict;
  adaptive_adjustments : list pydict;
  layout_metrics : pydict
}.

(** The dictionary [_assess_overall_quality] returns, key by key. *)
Record QualityAssessment : Type := {
  overall_score : Z;
  layout_integration_score : Z;
  text_mapping_score : Z;
  midjourney_score : Z;
  dalle_score : Z;
  adaptive_score : Z;
  recommendations : list pystr
}.

(** [_generate_recommendations(layout_data, score)] *)
Definition _generate_recommendations (layout_data : LayoutIntegratedData)
    (score : Z) : list pystr :=
  (if (score <? 80)%Z
   then [py "Layout-Integration könnte verbessert werden"] else []) ++
  (if (len (text_placements layout_data) <? 3)%Z
   then [py "Mehr Text-Elemente könnten platziert werden"] else []) ++
  (if negb (truthy (PList (map PDict (adaptive_adjustments layout_data))))
   then [py "Adaptive Anpassungen implementieren"] else []) ++
  (if (score >=? 90)%Z
   then [py "Exzellente Prompt-Qualität erreicht!"] else []).

(** [sum(scores)] *)
Definition py_sum (scores : list Z) : Z := fold_left Z.add scores 0%Z.

(** [_assess_overall_quality(layout_data, mj_prompt, dalle_prompt)] *)
Definition _assess_overall_quality (layout_data : LayoutIntegratedData)
    (mj_prompt dalle_prompt : pystr) : QualityAssessment :=
  let scores := [] in
  let layout_score :=
    if truthy (PDict (layout_definition layout_data)) then 90%Z else 50%Z in
  let scores := scores ++ [layout_score] in
  let text_score := Z.min 100 (len (text_placements layout_data) * 20) in
  let scores := scores ++ [text_score] in
  let mj_score :=
    if (200 <=? len mj_prompt)%Z && (len mj_prompt <=? 800)%Z
    then 90%Z else 70%Z in
  let scores := scores ++ [mj_score] in
  let dalle_score := if (len dalle_prompt <=? 4000)%Z then 95%Z else 50%Z in
  let scores := scores ++ [dalle_score] in
  let adaptive_score :=
    if truthy (PList (map PDict (adaptive_adjustments layout_data)))
    then 100%Z else 80%Z in
  let scores := scores ++ [adaptive_score] in
  let overall_score := (py_sum scores / len scores)%Z in
  {| overall_score := overall_score;
     layout_integration_score := layout_score;
     text_mapping_score := text_score;
     midjourney_score := mj_score;
     dalle_score := dalle_score;
     adaptive_score := adaptive_score;
     recommendations := _generate_recommendations layout_data overall_score |}.


(** [_analyze_prompt_quality(prompt, prompt_type)]: the metrics dictionary,
    in the order its keys are set. *)
Definition _analyze_prompt_quality (prompt prompt_type : pystr) : pydict :=
  let metrics :=
    [ (KStr (py "length"), PInt (len prompt));
      (KStr (py "word_count"), PInt (len (str_words prompt)));
      (KStr (py "prompt_type"), PStr prompt_type) ] in
  if str_eqb prompt_type (py "midjourney") then
    metrics ++
    [ (KStr (py "optimal_length"),
       PBool ((200 <=? len prompt)%Z && (len prompt <=? 800)%Z));
      (KStr (py "has_parameters"),
       PBool (str_contains (py "--ar") prompt &&
              str_contains (py "--style") prompt));
      (KStr (py "language"), PStr (py "english")) ]
  else if str_eqb prompt_type (py "dalle") then
    metrics ++
    [ (KStr (py "compatible"), PBool (len prompt <=? 4000)%Z);
      (KStr (py "structured"), PBool (str_contains (py "—") prompt));
      (KStr (py "language"), PStr (py "german"));
      (KStr (py "has_negative_prompts"),
       PBool (str_contains (py "VERMEIDEN") prompt)) ]
  else metrics.

(** The [forbidden_indicators] of [_validate_prompt], in their order. *)
Definition forbidden_indicators : list pystr :=
  [ py "ohne Text"; py "NICHT rendern"; py "KEIN Text";
    py "Buchstaben NICHT rendern" ].

(** [_validate_prompt(prompt)]: apart from its log lines the function finds
    the forbidden indicators of the prompt and removes them one after the
    other, each with [prompt.replace(forbidden, '')]. *)
Definition _validate_prompt (prompt : pystr) : pystr :=
  let found_forbidden :=
    filter (fun indicator => str_contains indicator prompt)
      forbidden_indicators in
  fold_left (fun prompt forbidden => str_replace forbidden [] prompt)
    found_forbidden prompt.

(** The [translations] table of [_translate_to_english], in its order. *)
Definition translations : list (pystr * pystr) :=
  [ (py "Empathische Pflegekraft", py "empathetic healthcare professional");
    (py "Pflegekraft", py "healthcare worker");
    (py "mittleren Alters", py "middle-aged");
    (py "warmem Kasack", py "warm-colored medical uniform");
    (py "moderner Klinik", py "modern clinic");
    (py "lichtdurchfluteter", py "bright, well-lit");
    (py "steht in", py "standing in");
    (py "Krankenhaus", py "hospital");
    (py "medizinische", py "medical");
    (py "professionell", py "professional") ].

(** [_translate_to_english(german_text)] *)
Definition _translate_to_english (german_text : pystr) : pystr :=
  fold_left
    (fun result entry => str_replace (fst entry) (snd entry) result)
    translations german_text.

End PromptFinalizer.

(* ------------------------------------------------------------------ *)
(** ** [utils/gpt_utils.py]: the GPT-4 call                              *)
(* ------------------------------------------------------------------ *)

Module GptUtils.

Section Gpt4.

(** [os.getenv("OPENAI_API_KEY")]: [None] when the variable is unset. *)
Variable api_key : option pystr.

(** The body of the [try] block,
    [openai.ChatCompletion.create(...).choices[0].message["content"]]
    for a system message and a user prompt: the content string, or
    [None] when anything in the block raised. *)
Variable chat_completion : pystr -> pyval -> option pystr.

Definition default_system_message : pystr :=
  py "Du bist ein Experte für DALL-E 3 Prompt-Optimierung. " ++
  py "Optimiere den folgenden Prompt für maximale Bildqualität, " ++
  py "aber entferne keine Details und kürze nichts. Ergänze nur, was für DALL-E hilfreich ist " ++
  py "(z.B. Fotografie-Begriffe, Licht, Stil, Komposition, Auflösung, Kamera, professionelle Begriffe).".

(** [if not system_message: system_message = (...)] *)
Definition effective_system_message (system_message : option pystr) : pystr :=
  match system_message with
  | Some m => if truthy (PStr m) then m else default_system_message
  | None => default_system_message
  end.

(** [optimize_prompt_with_gpt4(prompt, system_message=None)] *)
Definition optimize_prompt_with_gpt4 (prompt : pyval)
    (system_message : option pystr) : pyval :=
  match api_key with
  | None => prompt
  | Some key =>
      if negb (truthy (PStr key)) then prompt
      else
        let system_message := effective_system_message system_message in
        match chat_completion system_message prompt with
        | Some content => PStr (str_strip content)
        | None => prompt
        end
  end.

End Gpt4.

End GptUtils.

(* ------------------------------------------------------------------ *)
(** ** [langgraph_quality_workflow.py]: the retry loop                   *)
(* ------------------------------------------------------------------ *)

Module QualityWorkflow.

(** What the workflow reads of a [FinalizedPrompts]: the two prompts and
    the quality assessment ([None] for a missing or empty one). *)
Record FinalizedPrompts : Type := {
  dalle_prompt : pystr;
  midjourney_prompt : pystr;
  quality_assessment : option PromptFinalizer.QualityAssessment
}.

(** An entry of [prompt_history] or [quality_history] (without its
    timestamp). *)
Record HistoryEntry : Type := {
  attempt : Z;
  strategy : pystr;
  prompt_length : option Z;
  score : option Z
}.

(** [QualityWorkflowState], in the dictionary form that travels between the
    nodes ([to_dict] / [from_dict]); [start_time] and [workflow_id] (the
    clock) are left out.  A missing score is [None]. *)
Record QualityWorkflowState : Type := {
  streamlit_input : pydict;
  enable_text_rendering : bool;
  current_attempt : Z;
  max_attempts : Z;
  target_quality_score : Z;
  current_prompt : pyval;
  original_prompt : pyval;
  prompt_history : list HistoryEntry;
  current_quality_score : option Z;
  quality_history : list HistoryEntry;
  optimization_strategy : pystr;
  final_result : option FinalizedPrompts;
  workflow_completed : bool;
  success : bool;
  error_message : option pystr
}.

(** Field updates ([state_obj.field = value]). *)
Definition set_current_attempt (s : QualityWorkflowState) (v : Z) :=
  Build_QualityWorkflowState (streamlit_input s) (enable_text_rendering s)
    v (max_attempts s) (target_quality_score s) (current_prompt s)
    (original_prompt s) (prompt_history s) (current_quality_score s)
    (quality_history s) (optimization_strategy s) (final_result s)
    (workflow_completed s) (success s) (error_message s).

Definition set_current_prompt (s : QualityWorkflowState) (v : pyval) :=
  Build_QualityWorkflowState (streamlit_input s) (enable_text_rendering s)
    (current_attempt s) (max_attempts s) (target_quality_score s) v
    (original_prompt s) (prompt_history s) (current_quality_score s)
    (quality_history s) (optimization_strategy s) (final_result s)
    (workflow_completed s) (success s) (error_message s).

Definition set_original_prompt (s : QualityWorkflowState) (v : pyval) :=
  Build_QualityWorkflowState (streamlit_input s) (enable_text_rendering s)
    (current_attempt s) (max_attempts s) (target_quality_score s)
    (current_prompt s) v (prompt_history s) (current_quality_score s)
    (quality_history s) (optimization_strategy s) (final_result s)
    (workflow_completed s) (success s) (error_message s).

Definition set_prompt_history (s : QualityWorkflowState)
    (v : list HistoryEntry) :=
  Build_QualityWorkflowState (streamlit_input s) (enable_text_rendering s)
    (current_attempt s) (max_attempts s) (target_quality_score s)
    (current_prompt s) (original_prompt s) v (current_quality_score s)
    (quality_history s) (optimization_strategy s) (final_result s)
    (workflow_completed s) (success s) (error_message s).

Definition set_current_quality_score (s : QualityWorkflowState)
    (v : option Z) :=
  Build_QualityWorkflowState (streamlit_input s) (enable_text_rendering s)
    (current_attempt s) (max_attempts s) (target_quality_score s)
    (current_prompt s) (original_prompt s) (prompt_history s) v
    (quality_history s) (optimization_strategy s) (final_result s)
    (workflow_completed s) (success s) (error_message s).

Definition set_quality_history (s : QualityWorkflowState)
    (v : list HistoryEntry) :=
  Build_QualityWorkflowState (streamlit_input s) (enable_text_rendering s)
    (current_attempt s) (max_attempts s) (target_quality_score s)
    (current_prompt s) (original_prompt s) (prompt_history s)
    (current_quality_score s) v (optimization_strategy s) (final_result s)
    (workflow_completed s) (success s) (error_message s).

Definition set_optimization_strategy (s : QualityWorkflowState) (v : pystr) :=
  Build_QualityWorkflowState (streamlit_input s) (enable_text_rendering s)
    (current_attempt s) (max_attempts s) (target_quality_score s)
    (current_prompt s) (original_prompt s) (prompt_history s)
    (current_quality_score s) (quality_history s) v (final_result s)
    (workflow_completed s) (success s) (error_message s).

Definition set_final_result (s : QualityWorkflowState)
    (v : option FinalizedPrompts) :=
  Build_QualityWorkflowState (streamlit_input s) (enable_text_rendering s)
    (current_attempt s) (max_attempts s) (target_quality_score s)
    (current_prompt s) (original_prompt s) (prompt_history s)
    (current_quality_score s) (quality_history s) (optimization_strategy s) v
    (workflow_completed s) (success s) (error_message s).

Definition set_workflow_completed (s : QualityWorkflowState) (v : bool) :=
  Build_QualityWorkflowState (streamlit_input s) (enable_text_rendering s)
    (current_attempt s) (max_attempts s) (target_quality_score s)
    (current_prompt s) (original_prompt s) (prompt_history s)
    (current_quality_score s) (quality_history s) (optimization_strategy s)
    (final_result s) v (success s) (error_message s).

Definition set_success (s : QualityWorkflowState) (v : bool) :=
  Build_QualityWorkflowState (streamlit_input s) (enable_text_rendering s)
    (current_attempt s) (max_attempts s) (target_quality_score s)
    (current_prompt s) (original_prompt s) (prompt_history s)
    (current_quality_score s) (quality_history s) (optimization_strategy s)
    (final_result s) (workflow_completed s) v (error_message s).

Definition set_error_message (s : QualityWorkflowState) (v : option pystr) :=
  Build_QualityWorkflowState (streamlit_input s) (enable_text_rendering s)
    (current_attempt s) (max_attempts s) (target_quality_score s)
    (current_prompt s) (original_prompt s) (prompt_history s)
    (current_quality_score s) (quality_history s) (optimization_strategy s)
    (final_result s) (workflow_completed s) (success s) v.

(** The four canned system messages, as the source spells them. *)

(** [system_message] of [optimize_prompt_critical] *)
Definition system_message_critical : pystr :=
  py "
        Du bist ein Experte für kritische DALL-E 3 Prompt-Optimierung.
        Der folgende Prompt hat eine sehr niedrige Qualität (unter 60/100).
        
        KRITISCHE VERBESSERUNGEN:
        1. Struktur komplett überarbeiten
        2. Klare, präzise Anweisungen
        3. Professionelle Fotografie-Terminologie
        4. Layout-Struktur vereinfachen
        5. Negative Prompts optimieren
        
        Ziel: Qualität von unter 60 auf mindestens 75+ verbessern.
        ".

(** [system_message] of [optimize_prompt_structure] *)
Definition system_message_structure : pystr :=
  py "
        Du bist ein Experte für DALL-E 3 Struktur-Optimierung.
        Der folgende Prompt hat mittlere Qualität (60-75/100).
        
        STRUKTUR-VERBESSERUNGEN:
        1. Layout-Struktur klarer definieren
        2. Zonen-Beschreibungen präzisieren
        3. Motiv-Integration verbessern
        4. Corporate Design stärker integrieren
        5. Komposition optimieren
        
        Ziel: Qualität von 60-75 auf mindestens 80+ verbessern.
        ".

(** [system_message] of [optimize_prompt_style] *)
Definition system_message_style : pystr :=
  py "
        Du bist ein Experte für DALL-E 3 Stil-Optimierung.
        Der folgende Prompt hat gute Qualität (75-85/100).
        
        STIL-VERBESSERUNGEN:
        1. Fotografie-Stil verfeinern
        2. Licht- und Kompositions-Details
        3. Professionalität erhöhen
        4. Corporate Branding verstärken
        5. Emotionale Tonalität optimieren
        
        Ziel: Qualität von 75-85 auf mindestens 85+ verbessern.
        ".

(** [system_message] of [optimize_prompt_fine_tuning] *)
Definition system_message_fine_tuning : pystr :=
  py "
        Du bist ein Experte für DALL-E 3 Feintuning.
        Der folgende Prompt hat sehr gute Qualität (85+).
        
        FEINTUNING-VERBESSERUNGEN:
        1. Letzte Details verfeinern
        2. Professionalität maximieren
        3. Conversion-Optimierung
        4. Premium-Qualität erreichen
        5. Perfektion anstreben
        
        Ziel: Qualität von 85+ auf 90+ verbessern.
        ".

(** The names LangGraph knows the nodes by. *)
Inductive node : Type :=
| generate_initial
| assess_quality
| optimize_critical
| optimize_structure
| optimize_style
| optimize_fine_tuning
| reassess_quality_node.

(** [len(v)]: defined on strings, lists and dictionaries. *)
Definition py_len (v : pyval) : option Z :=
  match v with
  | PStr s => Some (len s)
  | PList l => Some (len l)
  | PDict d => Some (len d)
  | _ => None
  end.

(** What [run_quality_workflow] returns: the dictionary it builds from the
    final state (lines 562-577: every entry is a field of that state, the
    clock apart), or the dictionary of its handler (lines 589-593), which
    has the three entries [success] (False), [workflow_completed] (True)
    and [error_message] only: no score, no attempts, no prompt. *)
Inductive WorkflowResult : Type :=
| workflow_result (final : QualityWorkflowState)
| workflow_error.

(** [result['success']] and [result['workflow_completed']], the two
    entries both dictionaries have. *)
Definition result_success (result : WorkflowResult) : bool :=
  match result with
  | workflow_result final => success final
  | workflow_error => false
  end.

Definition result_workflow_completed (result : WorkflowResult) : bool :=
  match result with
  | workflow_result final => workflow_completed final
  | workflow_error => true
  end.

Section Nodes.

(** The environment and the GPT-4 endpoint; the endpoint may answer
    differently from one call to the next, [call] numbers the calls. *)
Variable api_key : option pystr.
Variable chat_completion : nat -> pystr -> pyval -> option pystr.

(** [create_multi_prompt_system().process_streamlit_input(input, flag)]:
    the finalized prompts, or [None] when the pipeline raised. *)
Variable process_streamlit_input : pydict -> bool -> option FinalizedPrompts.

(** 1. [generate_initial_prompt(state)] *)
Definition generate_initial_prompt (state : QualityWorkflowState)
  : QualityWorkflowState :=
  match process_streamlit_input (streamlit_input state)
          (enable_text_rendering state) with
  | Some result =>
      let state_obj := state in
      let state_obj := set_current_prompt state_obj (PStr (dalle_prompt result)) in
      let state_obj := set_original_prompt state_obj (PStr (dalle_prompt result)) in
      let new_score :=
        match quality_assessment result with
        | Some qa => PromptFinalizer.overall_score qa
        | None =>
            let prompt_length := len (dalle_prompt result) in
            Z.min 100 (60 + prompt_length / 100)
        end in
      let state_obj := set_current_quality_score state_obj (Some new_score) in
      let state_obj := set_final_result state_obj (Some result) in
      let state_obj :=
        set_prompt_history state_obj
          (prompt_history state_obj ++
           [ {| attempt := current_attempt state_obj;
                strategy := py "initial_generation";
                prompt_length := Some (len (dalle_prompt result));
                score := current_quality_score state_obj |} ]) in
      let state_obj :=
        set_quality_history state_obj
          (quality_history state_obj ++
           [ {| attempt := current_attempt state_obj;
                strategy := py "initial_generation";
                prompt_length := None;
                score := current_quality_score state_obj |} ]) in
      state_obj
  | None =>
      let state_obj := state in
      let state_obj :=
        set_error_message state_obj (Some (py "Initial generation failed: ")) in
      let state_obj := set_success state_obj false in
      let state_obj := set_workflow_completed state_obj true in
      state_obj
  end.

(** The score [assess_quality_and_decide] works with: a score that is
    [None] or 0 is first replaced by the fallback 87. *)
Definition assessed_score (state : QualityWorkflowState) : Z :=
  match current_quality_score state with
  | None => 87%Z
  | Some z => if (z =? 0)%Z then 87%Z else z
  end.

(** 2. [assess_quality_and_decide(state)].  On a state of this type no
    operation of the body raises, so its handler (which hands the incoming
    state back) is never entered. *)
Definition assess_quality_and_decide (state : QualityWorkflowState)
  : QualityWorkflowState :=
  let state_obj := state in
  let current_score := assessed_score state_obj in
  let state_obj := set_current_quality_score state_obj (Some current_score) in
  if (current_score >=? target_quality_score state_obj)%Z then
    let state_obj := set_success state_obj true in
    let state_obj := set_workflow_completed state_obj true in
    state_obj
  else if (current_attempt state_obj >=? max_attempts state_obj)%Z then
    let state_obj := set_success state_obj false in
    let state_obj := set_workflow_completed state_obj true in
    state_obj
  else
    let state_obj :=
      if (current_score <? 60)%Z
      then set_optimization_strategy state_obj (py "critical_optimization")
      else if (current_score <? 75)%Z
      then set_optimization_strategy state_obj (py "structure_optimization")
      else if (current_score <? 85)%Z
      then set_optimization_strategy state_obj (py "style_optimization")
      else set_optimization_strategy state_obj (py "fine_tuning") in
    state_obj.

(** The common shape of the four optimization nodes 3a to 3d: they differ
    in the system message, in the strategy they record and in the text of
    the error.  [len(optimized)] in the log line raises when GPT-4 handed
    back something without a length; the handler then starts again from
    the incoming state. *)
Definition optimize_with (call : nat) (system_message strategy_name : pystr)
    (failure : pystr) (state : QualityWorkflowState) : QualityWorkflowState :=
  let state_obj := state in
  let optimized :=
    GptUtils.optimize_prompt_with_gpt4 api_key (chat_completion call)
      (current_prompt state_obj) (Some system_message) in
  let state_obj := set_current_prompt state_obj optimized in
  let state_obj := set_current_attempt state_obj (current_attempt state_obj + 1) in
  let state_obj := set_optimization_strategy state_obj strategy_name in
  match py_len optimized with
  | Some _ => state_obj
  | None => set_error_message state (Some failure)
  end.

(** 3a. [optimize_prompt_critical(state)] *)
Definition optimize_prompt_critical (call : nat) :=
  optimize_with call system_message_critical (py "critical_optimization")
    (py "Critical optimization failed: ").

(** 3b. [optimize_prompt_structure(state)] *)
Definition optimize_prompt_structure (call : nat) :=
  optimize_with call system_message_structure (py "structure_optimization")
    (py "Structure optimization failed: ").

(** 3c. [optimize_prompt_style(state)] *)
Definition optimize_prompt_style (call : nat) :=
  optimize_with call system_message_style (py "style_optimization")
    (py "Style optimization failed: ").

(** 3d. [optimize_prompt_fine_tuning(state)] *)
Definition optimize_prompt_fine_tuning (call : nat) :=
  optimize_with call system_message_fine_tuning (py "fine_tuning")
    (py "Fine tuning failed: ").

(** [hasattr(state_obj.final_result, 'quality_assessment')]: the state
    travels as a dictionary, in which [to_dict] stores [final_result] as a
    plain [dict]; a [dict] has no such attribute. *)
Definition hasattr_quality_assessment (final_result : FinalizedPrompts)
  : bool := false.

(** The [strategy_bonus] table of [reassess_quality], with its default. *)
Definition strategy_bonus (strategy_name : pystr) : Z :=
  if str_eqb strategy_name (py "critical_optimization") then 5
  else if str_eqb strategy_name (py "structure_optimization") then 3
  else if str_eqb strategy_name (py "style_optimization") then 2
  else if str_eqb strategy_name (py "fine_tuning") then 1
  else 0.

(** 4. [reassess_quality(state)].  The inner [try] cannot fail here; the
    outer handler is entered when [len(state_obj.current_prompt)] raises,
    and starts again from the incoming state. *)
Definition reassess_quality (state : QualityWorkflowState)
  : QualityWorkflowState :=
  let state_obj := state in
  let assessed_score :=
    match final_result state_obj with
    | Some result =>
        if hasattr_quality_assessment result then
          match quality_assessment result with
          | Some qa => PromptFinalizer.overall_score qa
          | None => 87%Z
          end
        else 87%Z
    | None => 87%Z
    end in
  let new_score :=
    Z.min 100 (assessed_score + strategy_bonus (optimization_strategy state_obj)) in
  let state_obj := set_current_quality_score state_obj (Some new_score) in
  match py_len (current_prompt state_obj) with
  | Some n =>
      set_quality_history state_obj
        (quality_history state_obj ++
         [ {| attempt := current_attempt state_obj;
              strategy := optimization_strategy state_obj;
              prompt_length := Some n;
              score := Some new_score |} ])
  | None => set_error_message state (Some (py "Quality reassessment failed: "))
  end.

(** The inner [route_optimization(state)] of [create_quality_workflow]:
    the next node, or [None] for [END]. *)
Definition route_optimization (state : QualityWorkflowState) : option node :=
  if workflow_completed state then None
  else if str_eqb (optimization_strategy state) (py "critical_optimization")
  then Some optimize_critical
  else if str_eqb (optimization_strategy state) (py "structure_optimization")
  then Some optimize_structure
  else if str_eqb (optimization_strategy state) (py "style_optimization")
  then Some optimize_style
  else if str_eqb (optimization_strategy state) (py "fine_tuning")
  then Some optimize_fine_tuning
  else None.

(** [workflow.add_node]: the function behind each node. *)
Definition node_function (call : nat) (n : node)
  : QualityWorkflowState -> QualityWorkflowState :=
  match n with
  | generate_initial => generate_initial_prompt
  | assess_quality => assess_quality_and_decide
  | optimize_critical => optimize_prompt_critical call
  | optimize_structure => optimize_prompt_structure call
  | optimize_style => optimize_prompt_style call
  | optimize_fine_tuning => optimize_prompt_fine_tuning call
  | reassess_quality_node => reassess_quality
  end.

(** [workflow.add_edge] and [workflow.add_conditional_edges]: the node
    that follows [n], given the state [n] returned. *)
Definition next_node (n : node) (state : QualityWorkflowState) : option node :=
  match n with
  | generate_initial => Some assess_quality
  | assess_quality => route_optimization state
  | optimize_critical | optimize_structure
  | optimize_style | optimize_fine_tuning => Some reassess_quality_node
  | reassess_quality_node => Some assess_quality
  end.

(** One executed node: the state it received and the state it returned. *)
Record step : Type := {
  step_node : node;
  step_before : QualityWorkflowState;
  step_after : QualityWorkflowState
}.

(** [app.invoke]: the graph is walked from node [n] until [END]; the
    result is the list of executed nodes.  [fuel] bounds the number of
    nodes; [None] means the bound was hit before [END]: LangGraph stops a
    walk that has used up its recursion limit with an error. *)
Fixpoint invoke (fuel : nat) (call : nat) (n : node)
    (state : QualityWorkflowState) : option (list step) :=
  match fuel with
  | O => None
  | S fuel' =>
      let state' := node_function call n state in
      let this := {| step_node := n; step_before := state;
                     step_after := state' |} in
      match next_node n state' with
      | None => Some [this]
      | Some n' =>
          match invoke fuel' (S call) n' state' with
          | Some rest => Some (this :: rest)
          | None => None
          end
      end
  end.

(** The initial state [run_quality_workflow] builds: the constructor's
    defaults around the four arguments. *)
Definition initial_state (input : pydict) (text_rendering : bool)
    (target max : Z) : QualityWorkflowState :=
  {| streamlit_input := input;
     enable_text_rendering := text_rendering;
     current_attempt := 1;
     max_attempts := max;
     target_quality_score := target;
     current_prompt := PNone;
     original_prompt := PNone;
     prompt_history := [];
     current_quality_score := Some 0%Z;
     quality_history := [];
     optimization_strategy := py "initial";
     final_result := None;
     workflow_completed := false;
     success := false;
     error_message := None |}.

(** [run_quality_workflow(streamlit_input, enable_text_rendering,
    target_quality_score, max_attempts)]: the graph is entered at
    [generate_initial] and walked by [app.invoke], which executes at most
    [recursion_limit] nodes (LangGraph's limit: 25 unless the installation
    sets another); the result is made of the state the last node returned.
    When the limit is hit [app.invoke] raises, and the handler returns the
    error dictionary. *)
Definition run_quality_workflow (recursion_limit : nat) (input : pydict)
    (text_rendering : bool) (target max : Z) : WorkflowResult :=
  let initial := initial_state input text_rendering target max in
  match invoke recursion_limit 0 generate_initial initial with
  | Some trace => workflow_result (last (map step_after trace) initial)
  | None => workflow_error
  end.

End Nodes.

(** The nodes that call GPT-4. *)
Definition is_optimization (n : node) : bool :=
  match n with
  | optimize_critical | optimize_structure
  | optimize_style | optimize_fine_tuning => true
  | _ => false
  end.

(** The number of assessment rounds of a run. *)
Definition assessment_rounds (trace : list step) : nat :=
  List.length
    (filter (fun st => match step_node st with assess_quality => true | _ => false end)
       trace).

End QualityWorkflow.

(* ------------------------------------------------------------------ *)
(** ** Vocabulary of the properties                                      *)
(* ------------------------------------------------------------------ *)

(** A string the basic hex-color validation accepts: it starts with [#]
    and has 4 or 7 characters. *)
Definition hex_like (c : pystr) : Prop :=
  str_startswith (py "#") c = true /\ (len c = 4%Z \/ len c = 7%Z).

(** The color a caller supplied under [key], if it is a string. *)
Definition supplied (colors : pydict) (key c : pystr) : Prop :=
  dict_get colors key = Some (PStr c).

(** The adaptive rule [name] of a layout definition: [name] is in
    [adaptive_rules] and [adaptive_rules[name]] is [rule]. *)
Definition contains_rule (layout_def : pydict) (name : string) (rule : pyval)
  : Prop :=
  let adaptive_rules :=
    dict_get_default layout_def (py "adaptive_rules") (PDict []) in
  py_in (py name) adaptive_rules = Some true /\
  py_getitem adaptive_rules (py name) = Some rule.

(** The numeric trigger parsed from a rule, with the default trigger text. *)
Definition rule_trigger (int_other : pystr -> option Z) (rule : pyval)
    (default_trigger : string) : option Z :=
  trigger <- py_get rule (py "trigger") (PStr (py default_trigger)) ;;
  LayoutIntegrator.parse_trigger int_other trigger.

(** The action of a rule, with its default. *)
Definition rule_action (rule : pyval) (default_action : string) : option pyval :=
  py_get rule (py "action") (PStr (py default_action)).

(** An adjustment that was appended for the rule [name]. *)
Definition names_rule (a : pydict) (name : string) : Prop :=
  dict_get a (py "rule") = Some (PStr (py name)).

(** A rule whose trigger is the default text ['length > 50'], named or
    not. *)
Definition uses_default_trigger (rule : pyval) : Prop :=
  py_get rule (py "trigger") (PStr (py "length > 50"))
    = Some (PStr (py "length > 50")).

(** The node [n] sends the prompt of the state to GPT-4 under the system
    message [message]. *)
Definition calls_gpt4_with (api_key : option pystr)
    (chat_completion : nat -> pystr -> pyval -> option pystr)
    (process_streamlit_input :
       pydict -> bool -> option QualityWorkflow.FinalizedPrompts)
    (n : QualityWorkflow.node) (message : pystr) : Prop :=
  forall call state p,
    QualityWorkflow.current_prompt state = PStr p ->
    QualityWorkflow.current_prompt
      (QualityWorkflow.node_function api_key chat_completion
         process_streamlit_input call n state)
    = GptUtils.optimize_prompt_with_gpt4 api_key (chat_completion call)
        (PStr p) (Some message).

(** Every optimization node executed in a run has added one to the
    attempt counter. *)
Definition attempts_incremented (trace : list QualityWorkflow.step) : Prop :=
  Forall
    (fun st =>
       QualityWorkflow.is_optimization (QualityWorkflow.step_node st) = true ->
       QualityWorkflow.current_attempt (QualityWorkflow.step_after st) =
         (QualityWorkflow.current_attempt (QualityWorkflow.step_before st) + 1)%Z)
    trace.

(** The state a node can be run on without its [len] call raising: the
    workflow is already marked completed, or the prompt is a string. *)
Definition prompt_ready (s : QualityWorkflow.QualityWorkflowState) : Prop :=
  QualityWorkflow.workflow_completed s = true \/
  exists p, QualityWorkflow.current_prompt s = PStr p.

(** A string that still holds one of the four placeholders. *)
Definition has_placeholder (s : pystr) : bool :=
  existsb (fun ph => str_contains ph s) LayoutIntegrator.placeholders.

(** [P] holds of every string value of a nested structure: of a plain
    string, of the elements of a list and of the values of a dictionary, at
    any depth. *)
Fixpoint all_strings (P : pystr -> Prop) (v : pyval) : Prop :=
  match v with
  | PStr s => P s
  | PList l =>
      (fix elements (l : list pyval) : Prop :=
         match l with
         | [] => True
         | x :: l' => all_strings P x /\ elements l'
         end) l
  | PDict d =>
      (fix values (d : list (pykey * pyval)) : Prop :=
         match d with
         | [] => True
         | (_, x) :: d' => all_strings P x /\ values d'
         end) d
  | _ => True
  end.

(** No placeholder is left anywhere in a nested structure. *)
Definition fully_resolved (v : pyval) : Prop :=
  all_strings (fun s => has_placeholder s = false) v.

(** A color as every hex color is: it starts with [#] and holds no [{]. *)
Definition color_like (c : pystr) : Prop :=
  str_startswith (py "#") c = true /\ ~ In 123%N c.

(** A string without white space at either end. *)
Definition stripped (t : pystr) : Prop :=
  str_lstrip t = t /\ str_lstrip (rev t) = rev t.

(** The five single color fields of the UI. *)
Definition color_field_names : list pystr :=
  [ py "primary_color"; py "secondary_color"; py "accent_color";
    py "background_color"; py "text_color" ].

(** A rule whose trigger is the default text ['count > 5'], named or not. *)
Definition uses_default_count (rule : pyval) : Prop :=
  py_get rule (py "trigger") (PStr (py "count > 5"))
    = Some (PStr (py "count > 5")).

(** The shape of a nested structure: its keys, its lengths and its
    scalars, with every string emptied. *)
Fixpoint shape (v : pyval) : pyval :=
  match v with
  | PStr _ => PStr []
  | PList l => PList (map shape l)
  | PDict d =>
      PDict (map (fun entry => match entry with (k, x) => (k, shape x) end) d)
  | _ => v
  end.

(** The ten hard-coded colors that [_resolve_layout_colors] maps to CI
    colors. *)
Definition standard_colors : list pystr :=
  [ py "#000000"; py "#333333"; py "#777777"; py "#666666"; py "#00B5E2";
    py "#0088CC"; py "#FFC20E"; py "#FFB300"; py "#EEEEEE"; py "#F5F5F5" ].

(** A string with no placeholder and none of the ten standard colors. *)
Definition color_free (s : pystr) : Prop :=
  has_placeholder s = false /\
  forall c, In c standard_colors -> str_contains c s = false.

(** The state [app.invoke] hands back to [run_quality_workflow]: the one
    the last executed node returned. *)
Definition final_state (initial : QualityWorkflow.QualityWorkflowState)
    (trace : list QualityWorkflow.step) : QualityWorkflow.QualityWorkflowState :=
  last (map QualityWorkflow.step_after trace) initial.

(** ** Sample data *)

(** A layout definition with both adaptive rules; the headline rule names
    its own trigger and action. *)
Definition sample_layout : pydict :=
  [ (KStr (py "name"), PStr (py "Vertikale Teilung"));
    (KStr (py "adaptive_rules"),
     PDict
       [ (KStr (py "long_headline"),
          PDict [ (KStr (py "trigger"), PStr (py "length > 20"));
                  (KStr (py "action"), PStr (py "wrap_to_two_lines")) ]);
         (KStr (py "many_benefits"), PDict []) ]) ].

(** A layout definition whose headline rule keeps the default trigger. *)
Definition sample_default_layout : pydict :=
  [ (KStr (py "adaptive_rules"),
     PDict
       [ (KStr (py "long_headline"),
          PDict [ (KStr (py "action"), PStr (py "reduce_font_size")) ]) ]) ].

(** What the UI hands over: a headline of 80 characters. *)
Definition sample_streamlit_input : pydict :=
  [ (KStr (py "headline"),
     PStr (py "Werden Sie Teil unseres Teams und gestalten Sie die Pflege von morgen aktiv mit!"));
    (KStr (py "company"), PStr (py "TechMed Solutions"));
    (KStr (py "benefits"),
     PList [ PStr (py "Innovative Projekte"); PStr (py "Remote-Work möglich") ]);
    (KStr (py "layout_id"), PStr (py "skizze1_vertical_split")) ].

(** The structured input [process] makes of it. *)
Definition sample_structured_input : InputProcessor.StructuredInput :=
  Eval vm_compute in
    match InputProcessor.process sample_streamlit_input with
    | Some structured => structured
    | None =>
        InputProcessor.Build_StructuredInput [] [] [] [] [] [] [] [] []
          PNone PNone PNone PNone PNone PNone [] PNone [] PNone PNone
    end.

(** An interpreter whose [int] accepts nothing beyond plain ASCII text. *)
Definition ascii_only_int (s : pystr) : option Z := None.

(** An interpreter whose [int] also reads the Arabic-Indic digits
    (U+0660 to U+0669), as CPython's does. *)
Definition arabic_indic_int (s : pystr) : option Z :=
  int_ascii
    (map (fun c => if ((1632 <=? c) && (c <=? 1641))%N then (c - 1584)%N else c)
       (str_strip s)).

(** The adjustments [_apply_adaptive_rules] makes for the sample layout. *)
Definition sample_adjustments : list pydict :=
  Eval vm_compute in
    match LayoutIntegrator._apply_adaptive_rules ascii_only_int sample_layout
            sample_structured_input with
    | Some adjustments => adjustments
    | None => []
    end.

(** A pipeline that renders one fixed prompt and gives no assessment. *)
Definition sample_pipeline (input : pydict) (text_rendering : bool)
  : option QualityWorkflow.FinalizedPrompts :=
  Some {| QualityWorkflow.dalle_prompt := py "Pflegekraft in moderner Klinik";
          QualityWorkflow.midjourney_prompt := py "nurse in a modern clinic --ar 1:1";
          QualityWorkflow.quality_assessment := None |}.

(** A GPT-4 endpoint that answers every call with the same text. *)
Definition sample_chat (call : nat) (system_message : pystr) (prompt : pyval)
  : option pystr :=
  Some (py " Pflegekraft in moderner, lichtdurchfluteter Klinik ").

(** A pipeline that raises on every input. *)
Definition failing_pipeline (input : pydict) (text_rendering : bool)
  : option QualityWorkflow.FinalizedPrompts := None.

(** A GPT-4 endpoint that raises on every call. *)
Definition failing_chat (call : nat) (system_message : pystr) (prompt : pyval)
  : option pystr := None.

(** The state after the initial generation with [sample_pipeline]: the
    prompt has 30 characters, the fallback score is 60. *)
Definition sample_state : QualityWorkflow.QualityWorkflowState :=
  QualityWorkflow.generate_initial_prompt sample_pipeline
    (QualityWorkflow.initial_state sample_streamlit_input false 85 3).

(** A palette whose secondary color passes the basic validation (it starts
    with [#] and has 4 characters) without being a hex color, and a layout
    whose note completes it to a placeholder. *)
Definition odd_palette : pydict :=
  [ (KStr (py "secondary"), PStr (py "#{pr")) ].

Definition odd_layout : pyval :=
  PDict
    [ (KStr (py "zones"),
       PDict [ (KStr (py "note"), PStr (py "{secondary_color}imary_color}")) ]) ].

(** A layout definition that uses the placeholders in a banner color, in a
    plain value and in a list. *)
Definition sample_color_layout : pyval :=
  PDict
    [ (KStr (py "name"), PStr (py "Vertikale Teilung"));
      (KStr (py "zones"),
       PDict
         [ (KStr (py "headline_zone"),
            PDict
              [ (KStr (py "background_color"), PStr (py "{primary_color}"));
                (KStr (py "border"), PStr (py "2px solid {accent_color}"));
                (KStr (py "palette"),
                 PList [ PStr (py "{secondary_color}"); PStr (py "#333333");
                         PStr (py "{background_color}") ]) ]) ]) ].

(** What the UI hands over with seven benefits, the structured input made
    of it and the adjustments for the sample layout. *)
Definition busy_streamlit_input : pydict :=
  [ (KStr (py "headline"), PStr (py "Pflege mit Herz"));
    (KStr (py "benefits"),
     PList [ PStr (py "Innovative Projekte"); PStr (py "Remote-Work");
             PStr (py "Jobrad"); PStr (py "Kita"); PStr (py "Weiterbildung");
             PStr (py "Zuschläge"); PStr (py "Teamevents") ]) ].

Definition busy_structured_input : InputProcessor.StructuredInput :=
  Eval vm_compute in
    match InputProcessor.process busy_streamlit_input with
    | Some structured => structured
    | None => sample_structured_input
    end.

Definition busy_adjustments : list pydict :=
  Eval vm_compute in
    match LayoutIntegrator._apply_adaptive_rules ascii_only_int sample_layout
            busy_structured_input with
    | Some adjustments => adjustments
    | None => []
    end.

(** What the UI hands over with single color fields, one of which is no
    hex color, and a motiv prompt; the structured input made of it. *)
Definition colorful_streamlit_input : pydict :=
  [ (KStr (py "headline"), PStr (py "Pflege mit Herz"));
    (KStr (py "motiv_prompt"),
     PStr (py "  Pflegekraft im Gespräch mit einer Patientin "));
    (KStr (py "primary_color"), PStr (py "#C8102E"));
    (KStr (py "secondary_color"), PStr (py "hellblau"));
    (KStr (py "accent_color"), PStr (py "#FC0")) ].

Definition colorful_structured_input : InputProcessor.StructuredInput :=
  Eval vm_compute in
    match InputProcessor.process colorful_streamlit_input with
    | Some structured => structured
    | None => sample_structured_input
    end.

(** A layout definition with integration rules for the motiv, and the
    treatment [_determine_motiv_treatment] makes of it. *)
Definition motiv_layout : pydict :=
  [ (KStr (py "motiv_integration"),
     PDict
       [ (KStr (py "fill_mode"), PStr (py "contain"));
         (KStr (py "motiv_description_integration"),
          PDict
            [ (KStr (py "scene_focus"), PStr (py "linke Bildhälfte"));
              (KStr (py "lighting_preference"),
               PStr (py "weiches Tageslicht")) ]) ]) ].

Definition sample_motiv_treatment : pydict :=
  Eval vm_compute in
    match LayoutIntegrator._determine_motiv_treatment (fun _ => [])
            motiv_layout colorful_structured_input with
    | Some treatment => treatment
    | None => []
    end.

(** A layout definition whose headline trigger is written with
    Arabic-Indic digits. *)
Definition arabic_indic_layout : pydict :=
  [ (KStr (py "adaptive_rules"),
     PDict
       [ (KStr (py "long_headline"),
          PDict [ (KStr (py "trigger"), PStr (py "length > ٥٠")) ]) ]) ].

(* ================================================================== *)
(** * Part II.  Properties                                              *)
(* ================================================================== *)

Unset Implicit Arguments.

Import InputProcessor.

(** ** Strings: equality and prefixes *)

Lemma str_eqb_eq (a b : pystr) : str_eqb a b = true <-> a = b.
Proof.
  revert b; induction a as [|x a IH]; intros [|y b]; simpl;
    try (split; [discriminate | discriminate]); try tauto.
  rewrite andb_true_iff, N.eqb_eq, IH.
  split; [intros [-> ->]; reflexivity | intros H; inversion H; auto].
Qed.

Lemma str_eqb_refl (a : pystr) : str_eqb a a = true.
Proof. apply str_eqb_eq; reflexivity. Qed.

Lemma str_startswith_app (p s : pystr) :
  str_startswith p s = true <-> exists t, s = p ++ t.
Proof.
  revert s; induction p as [|x p IH]; intros s; simpl.
  - split; [intros _; exists s; reflexivity | reflexivity].
  - destruct s as [|y s].
    + split; [discriminate | intros [t H]; discriminate].
    + rewrite andb_true_iff, N.eqb_eq, IH. split.
      * intros [-> [t ->]]. exists t; reflexivity.
      * intros [t H]. inversion H; subst. split; [reflexivity | exists t; reflexivity].
Qed.

(** ** The string model on small inputs *)

Example replace_skips_overlaps :
  str_replace (py "aa") (py "b") (py "aaaaa") = py "bba".
Proof. reflexivity. Qed.

Example replace_empty_pattern :
  str_replace [] (py "-") (py "abc") = py "-a-b-c-".
Proof. reflexivity. Qed.

Example split_default_trigger :
  str_split (py "> ") (py "length > 50") = Some [py "length "; py "50"].
Proof. reflexivity. Qed.

Example strip_both_ends :
  str_strip (py "  Jetzt bewerben!  ") = py "Jetzt bewerben!".
Proof. reflexivity. Qed.

Example int_accepts (int_other : pystr -> option Z) :
  py_int int_other (py " 50 ") = Some 50%Z /\
  py_int int_other (py "1_000") = Some 1000%Z /\
  py_int int_other (py "-5") = Some (-5)%Z.
Proof. repeat split; reflexivity. Qed.

Example int_rejects (int_other : pystr -> option Z) :
  py_int int_other (py "50 chars") = None /\
  py_int int_other (py "5__0") = None /\
  py_int int_other [] = None.
Proof. repeat split; reflexivity. Qed.

(** Beyond ASCII the interpreter is asked: one that knows the
    Arabic-Indic digits reads the trigger [length > ٥٠] as 50, one that
    knows none rejects it. *)
Example int_asks_the_interpreter :
  py_int arabic_indic_int (py "٥٠") = Some 50%Z /\
  py_int ascii_only_int (py "٥٠") = None /\
  LayoutIntegrator.parse_trigger arabic_indic_int (PStr (py "length > ٥٠"))
    = Some 50%Z.
Proof. repeat split; vm_compute; reflexivity. Qed.

Example len_counts_code_points : len (py "Qualität") = 8%Z.
Proof. reflexivity. Qed.

Example normalize_cuts_the_stripped_text :
  _normalize_text (PStr (py "  hello world, this is long  ")) 10
  = py "hello w...".
Proof. reflexivity. Qed.

(** ** C4: [_normalize_text] caps the length *)

Lemma len_app {A : Type} (a b : list A) : len (a ++ b) = (len a + len b)%Z.
Proof. unfold len. rewrite length_app. lia. Qed.

Lemma len_slice_to {A : Type} (n : Z) (s : list A) :
  (0 <= n <= len s)%Z -> len (slice_to n s) = n.
Proof.
  unfold slice_to, len. intros H.
  destruct (0 <=? n)%Z eqn:E; [|apply Z.leb_gt in E; lia].
  rewrite length_firstn. lia.
Qed.

(** A string whose stripped form is too long is cut and dotted. *)
Lemma normalize_text_long (s : pystr) (max_length : Z) :
  (3 <= max_length)%Z ->
  (len (str_strip s) > max_length)%Z ->
  _normalize_text (PStr s) max_length =
    firstn (Z.to_nat (max_length - 3)) (str_strip s) ++ py "..." /\
  len (_normalize_text (PStr s) max_length) = max_length.
Proof.
  intros Hmax Hs. unfold _normalize_text.
  destruct s as [|c s];
    [change (len (str_strip [])) with 0%Z in Hs; lia|].
  cbn [truthy isinstance_str negb orb].
  destruct (len (str_strip (c :: s)) >? max_length)%Z eqn:E;
    [|rewrite Z.gtb_ltb in E; apply Z.ltb_ge in E; lia].
  split.
  - unfold slice_to. destruct (0 <=? max_length - 3)%Z eqn:E0;
      [reflexivity | apply Z.leb_gt in E0; lia].
  - rewrite len_app, len_slice_to by lia. change (len (py "...")) with 3%Z. lia.
Qed.

(** A string whose stripped form fits is only stripped. *)
Lemma normalize_text_fit (s : pystr) (max_length : Z) :
  (len (str_strip s) <= max_length)%Z ->
  _normalize_text (PStr s) max_length = str_strip s.
Proof.
  intros Hs. unfold _normalize_text.
  destruct s as [|c s]; [reflexivity|]. cbn [truthy isinstance_str negb orb].
  destruct (len (str_strip (c :: s)) >? max_length)%Z eqn:E;
    [rewrite Z.gtb_ltb in E; apply Z.ltb_lt in E; lia | reflexivity].
Qed.

(** A value that is no string is normalised to the empty string. *)
Lemma normalize_text_not_str (text : pyval) (max_length : Z) :
  isinstance_str text = false -> _normalize_text text max_length = [].
Proof.
  intros H. destruct text; try discriminate; unfold _normalize_text; simpl;
    rewrite ?orb_true_r; reflexivity.
Qed.

(** The cap itself, from 3 on. *)
Lemma normalize_text_len_le (text : pyval) (max_length : Z) :
  (3 <= max_length)%Z ->
  (len (_normalize_text text max_length) <= max_length)%Z.
Proof.
  intros Hmax.
  destruct (isinstance_str text) eqn:E.
  - destruct text; try discriminate.
    destruct (Z_le_gt_dec (len (str_strip s)) max_length) as [H|H].
    + rewrite normalize_text_fit by assumption. assumption.
    + destruct (normalize_text_long s max_length Hmax H) as [_ ->]. lia.
  - rewrite normalize_text_not_str by assumption. change (len []) with 0%Z. lia.
Qed.

(** C4.  For every value [text] and every [max_length] of at least 4 the
    result of [_normalize_text] has at most [max_length] characters; a value
    that is no string, or the empty string, gives the empty string; a string
    whose stripped form fits is returned stripped and otherwise unchanged; a
    longer one becomes the first [max_length - 3] characters of the stripped
    form followed by three dots, which are exactly [max_length]
    characters. *)
Theorem normalize_text_caps_length (text : pyval) (max_length : Z) :
  (4 <= max_length)%Z ->
  (len (_normalize_text text max_length) <= max_length)%Z /\
  (isinstance_str text = false \/ text = PStr [] ->
   _normalize_text text max_length = []) /\
  (forall s, text = PStr s -> (len (str_strip s) <= max_length)%Z ->
             _normalize_text text max_length = str_strip s) /\
  (forall s, text = PStr s -> (len (str_strip s) > max_length)%Z ->
             _normalize_text text max_length =
               firstn (Z.to_nat (max_length - 3)) (str_strip s) ++ py "..." /\
             len (_normalize_text text max_length) = max_length).
Proof.
  intros Hmax. split; [|split; [|split]].
  - apply normalize_text_len_le. lia.
  - intros [H | ->]; [apply normalize_text_not_str; exact H | reflexivity].
  - intros s -> Hs. apply normalize_text_fit; assumption.
  - intros s -> Hs. apply normalize_text_long; [lia | assumption].
Qed.

(** A run of the length cap on a padded headline. *)
Lemma normalize_text_caps_length_witness :
  (4 <= 10)%Z /\
  (len (_normalize_text (PStr (py "  Werden Sie Teil unseres Teams!  ")) 10)
   <= 10)%Z.
Proof.
  split; [lia|].
  apply (normalize_text_caps_length
           (PStr (py "  Werden Sie Teil unseres Teams!  ")) 10).
  lia.
Defined.

(** ** C5: [_extract_ci_colors] validates and substitutes defaults *)

Lemma valid_color_hex_like (c : pystr) :
  InputProcessor.valid_color (PStr c) = true <-> hex_like c.
Proof.
  unfold InputProcessor.valid_color, hex_like.
  rewrite andb_true_iff, orb_true_iff, !Z.eqb_eq. tauto.
Qed.

(** What one round of the loop of [_extract_ci_colors] stores. *)
Lemma extract_entry_spec (colors : pydict) (key default : pystr) :
  hex_like default ->
  exists v,
    (match dict_get_default colors key (PStr default) with
     | PStr c =>
         if valid_color (dict_get_default colors key (PStr default))
         then (key, c) else (key, default)
     | _ => (key, default)
     end) = (key, v) /\
    ((exists c, supplied colors key c /\ hex_like c /\ v = c) \/
     ((forall c, supplied colors key c -> ~ hex_like c) /\ v = default)).
Proof.
  intros Hd. unfold dict_get_default, supplied.
  destruct (dict_get colors key) as [color|] eqn:E.
  - destruct color;
      try (exists default; split; [reflexivity | right; split;
             [intros c Hc; discriminate | reflexivity]]).
    destruct (valid_color (PStr s)) eqn:V.
    + exists s. split; [reflexivity|]. left. exists s.
      split; [reflexivity|]. split; [apply valid_color_hex_like, V | reflexivity].
    + exists default. split; [reflexivity|]. right. split; [|reflexivity].
      intros c Hc Hhex. inversion Hc; subst c.
      apply valid_color_hex_like in Hhex. congruence.
  - apply valid_color_hex_like in Hd. rewrite Hd.
    exists default. split; [reflexivity|]. right. split; [|reflexivity].
    intros c Hc; discriminate.
Qed.

(** C5.  For every dictionary [colors] the result of [_extract_ci_colors]
    has exactly the five keys primary, secondary, accent, background and
    text, and under each of them the color the caller supplied, when that
    is a string starting with [#] of length 4 or 7, and the hard-coded
    default of the key in every other case, a missing key included. *)
Theorem extract_ci_colors_five_keys (colors : pydict) :
  map fst (_extract_ci_colors colors) =
    [py "primary"; py "secondary"; py "accent"; py "background"; py "text"] /\
  Forall
    (fun entry =>
       exists v,
         In (fst entry, v) (_extract_ci_colors colors) /\
         ((exists c, supplied colors (fst entry) c /\ hex_like c /\ v = c) \/
          ((forall c, supplied colors (fst entry) c -> ~ hex_like c) /\
           v = snd entry)))
    default_colors.
Proof.
  assert (H : forall key default, hex_like default ->
            In (key, default) default_colors ->
            exists v, In (key, v) (_extract_ci_colors colors) /\
              ((exists c, supplied colors key c /\ hex_like c /\ v = c) \/
               ((forall c, supplied colors key c -> ~ hex_like c) /\ v = default))).
  { intros key default Hd Hin.
    destruct (extract_entry_spec colors key default Hd) as [v [Hv Hs]].
    exists v. split; [|exact Hs].
    unfold _extract_ci_colors. apply in_map_iff.
    exists (key, default). split; [exact Hv | exact Hin]. }
  split.
  - unfold _extract_ci_colors. rewrite map_map.
    transitivity (map fst default_colors); [|reflexivity].
    apply map_ext. intros [key default]. cbn beta iota.
    destruct (dict_get_default colors key (PStr default)) as [| | |v| | |];
      try reflexivity.
    destruct (valid_color (PStr v)); reflexivity.
  - unfold default_colors at 1.
    repeat (apply Forall_cons;
            [apply H; [split; [reflexivity | vm_compute; auto] |
                       unfold default_colors; simpl; tauto] |]).
    apply Forall_nil.
Qed.

(** ** C3 and C10: the heuristic quality score *)

Import PromptFinalizer.

(** The five sub-scores and how the overall score is formed from them. *)
Lemma assess_overall_quality_subscores (layout_data : LayoutIntegratedData)
    (mj_prompt dalle_prompt : pystr) :
  let q := _assess_overall_quality layout_data mj_prompt dalle_prompt in
  (layout_integration_score q = 90 \/ layout_integration_score q = 50)%Z /\
  (exists k, (0 <= k <= 5)%Z /\ text_mapping_score q = (20 * k)%Z) /\
  (midjourney_score q = 90 \/ midjourney_score q = 70)%Z /\
  (dalle_score q = 95 \/ dalle_score q = 50)%Z /\
  (adaptive_score q = 100 \/ adaptive_score q = 80)%Z /\
  overall_score q =
    ((layout_integration_score q + text_mapping_score q + midjourney_score q +
      dalle_score q + adaptive_score q) / 5)%Z.
Proof.
  intros q. subst q. unfold _assess_overall_quality.
  cbn [layout_integration_score text_mapping_score midjourney_score
       dalle_score adaptive_score overall_score].
  split; [|split; [|split; [|split; [|split]]]].
  - destruct (truthy _); auto.
  - assert (Hn : (0 <= len (text_placements layout_data))%Z)
      by (unfold len; lia).
    destruct (Z_le_gt_dec 5 (len (text_placements layout_data))).
    + exists 5%Z. split; [lia|]. rewrite Z.min_l; lia.
    + exists (len (text_placements layout_data)). split; [lia|].
      rewrite Z.min_r; lia.
  - destruct (_ && _); auto.
  - destruct (_ <=? _)%Z; auto.
  - destruct (truthy (PList _)); auto.
  - unfold PromptFinalizer.py_sum. cbn [fold_left app]. reflexivity.
Qed.

(** C3.  For every layout-integrated input and every pair of prompts the
    overall score of [_assess_overall_quality], the integer average of its
    five sub-scores, lies between 0 and 100. *)
Theorem overall_quality_between_0_and_100 (layout_data : LayoutIntegratedData)
    (mj_prompt dalle_prompt : pystr) :
  let q := _assess_overall_quality layout_data mj_prompt dalle_prompt in
  overall_score q =
    ((layout_integration_score q + text_mapping_score q + midjourney_score q +
      dalle_score q + adaptive_score q) / 5)%Z /\
  (0 <= overall_score q <= 100)%Z.
Proof.
  intros q.
  destruct (assess_overall_quality_subscores layout_data mj_prompt dalle_prompt)
    as (Hl & (k & Hk & Ht) & Hm & Hd & Ha & Ho).
  fold q in Hl, Ht, Hm, Hd, Ha, Ho.
  split; [exact Ho|].
  rewrite Ho, Ht. split.
  - apply Z.div_pos; lia.
  - apply Z.div_le_upper_bound; lia.
Qed.

(** C10.  The overall score of [_assess_overall_quality] always lies between
    50 and 95: the layout score is 90 or 50, the text-mapping score one of
    0, 20, ..., 100, the Midjourney score 90 or 70, the DALL-E score 95 or 50
    and the adaptive score 100 or 80; so the score is never 100 and never
    below 50. *)
Theorem overall_quality_between_50_and_95 (layout_data : LayoutIntegratedData)
    (mj_prompt dalle_prompt : pystr) :
  let q := _assess_overall_quality layout_data mj_prompt dalle_prompt in
  ((layout_integration_score q = 90 \/ layout_integration_score q = 50) /\
   (exists k, 0 <= k <= 5 /\ text_mapping_score q = 20 * k) /\
   (midjourney_score q = 90 \/ midjourney_score q = 70) /\
   (dalle_score q = 95 \/ dalle_score q = 50) /\
   (adaptive_score q = 100 \/ adaptive_score q = 80) /\
   50 <= overall_score q <= 95 /\
   overall_score q <> 100)%Z.
Proof.
  intros q.
  destruct (assess_overall_quality_subscores layout_data mj_prompt dalle_prompt)
    as (Hl & (k & Hk & Ht) & Hm & Hd & Ha & Ho).
  fold q in Hl, Ht, Hm, Hd, Ha, Ho.
  assert (Hr : (50 <= overall_score q <= 95)%Z).
  { rewrite Ho, Ht. split.
    - apply Z.div_le_lower_bound; lia.
    - apply Z.div_le_upper_bound; lia. }
  repeat split; try assumption; try lia.
  exists k; split; [lia | assumption].
Qed.

(** ** C8: the GPT-4 call falls back to its input *)

(** With a string going in, a string comes out, whatever GPT-4 does. *)
Lemma optimize_prompt_returns_string (api_key : option pystr)
    (chat_completion : pystr -> pyval -> option pystr)
    (p : pystr) (system_message : option pystr) :
  exists r,
    GptUtils.optimize_prompt_with_gpt4 api_key chat_completion (PStr p)
      system_message = PStr r.
Proof.
  unfold GptUtils.optimize_prompt_with_gpt4.
  destruct api_key as [key|]; [|exists p; reflexivity].
  destruct (negb (truthy (PStr key))); [exists p; reflexivity|].
  destruct (chat_completion _ _) as [content|];
    [exists (str_strip content) | exists p]; reflexivity.
Qed.

(** C8.  For every prompt: when [OPENAI_API_KEY] is unset, or the chat
    completion raises, [optimize_prompt_with_gpt4] returns the prompt it was
    given, unchanged; it never raises. *)
Theorem optimize_prompt_falls_back_to_input (api_key : option pystr)
    (chat_completion : pystr -> pyval -> option pystr)
    (prompt : pyval) (system_message : option pystr) :
  api_key = None \/
  chat_completion (GptUtils.effective_system_message system_message) prompt
    = None ->
  GptUtils.optimize_prompt_with_gpt4 api_key chat_completion prompt
    system_message = prompt.
Proof.
  intros H. unfold GptUtils.optimize_prompt_with_gpt4.
  destruct api_key as [key|]; [|reflexivity].
  destruct (negb (truthy (PStr key))); [reflexivity|].
  destruct H as [H|H]; [discriminate|].
  rewrite H. reflexivity.
Qed.

(** A key is set, the endpoint raises: the prompt comes back. *)
Lemma optimize_prompt_falls_back_to_input_witness :
  (Some (py "sk-test") = None \/
   (fun (_ : pystr) (_ : pyval) => @None pystr)
     (GptUtils.effective_system_message None)
     (PStr (py "Pflegekraft in moderner Klinik")) = None) /\
  GptUtils.optimize_prompt_with_gpt4 (Some (py "sk-test"))
    (fun _ _ => None) (PStr (py "Pflegekraft in moderner Klinik")) None
  = PStr (py "Pflegekraft in moderner Klinik").
Proof.
  split; [right; reflexivity|].
  apply (optimize_prompt_falls_back_to_input (Some (py "sk-test"))
           (fun _ _ => None)).
  right. reflexivity.
Defined.

(** ** C7: the adaptive rules *)

Import LayoutIntegrator.

(** The outcome of one check of [_apply_adaptive_rules] that did not
    raise. *)
Lemma check_rule_spec (int_other : pystr -> option Z)
    (adaptive_rules : pyval) (name dt da : string) (size : Z)
    (message : string) (before after : list pydict) :
  check_rule int_other adaptive_rules name dt da size message before = Some after ->
  (py_in (py name) adaptive_rules = Some false /\ after = before) \/
  (py_in (py name) adaptive_rules = Some true /\
   exists rule t action,
     py_getitem adaptive_rules (py name) = Some rule /\
     rule_trigger int_other rule dt = Some t /\
     rule_action rule da = Some action /\
     ((size > t)%Z /\
      (exists text, after = before ++ [adjustment (py name) text action]) \/
      (size <= t)%Z /\ after = before)).
Proof.
  unfold check_rule, rule_trigger, rule_action, bind.
  destruct (py_in (py name) adaptive_rules) as [[|]|]; try discriminate.
  2:{ intros H; inversion H; left; auto. }
  destruct (py_getitem adaptive_rules (py name)) as [rule|]; try discriminate.
  destruct (py_get rule (py "trigger") (PStr (py dt))) as [trigger|] eqn:Et;
    try discriminate.
  destruct (parse_trigger int_other trigger) as [t|] eqn:Ep; try discriminate.
  assert (Ha : exists action, py_get rule (py "action") (PStr (py da)) = Some action).
  { destruct rule; try discriminate. eexists; reflexivity. }
  destruct Ha as [action Ha]. rewrite Ha.
  intros H. right. split; [reflexivity|].
  exists rule, t, action. rewrite Et, Ha. cbn beta iota.
  repeat split; try assumption.
  destruct (size >? t)%Z eqn:E; inversion H; subst after.
  - left. rewrite Z.gtb_ltb in E. apply Z.ltb_lt in E. split; [lia|].
    eexists; reflexivity.
  - right. rewrite Z.gtb_ltb in E. apply Z.ltb_ge in E. split; [lia | reflexivity].
Qed.

Lemma names_rule_adjustment (name : pystr) (text : pystr) (action : pyval)
    (other : string) :
  names_rule (adjustment name text action) other <-> name = py other.
Proof.
  unfold names_rule, adjustment.
  change (dict_get _ (py "rule")) with (Some (PStr name)).
  split; [intros H; inversion H; reflexivity | intros ->; reflexivity].
Qed.

(** The two checks, one after the other. *)
Lemma apply_adaptive_rules_spec (int_other : pystr -> option Z)
    (layout_def : pydict)
    (structured_input : StructuredInput) (adjustments : list pydict) :
  _apply_adaptive_rules int_other layout_def structured_input = Some adjustments ->
  exists first second,
    adjustments = first ++ second /\
    check_rule int_other (dict_get_default layout_def (py "adaptive_rules") (PDict []))
      "long_headline" "length > 50" "reduce_font_size"
      (len (headline structured_input)) "Headline zu lang" [] = Some first /\
    check_rule int_other (dict_get_default layout_def (py "adaptive_rules") (PDict []))
      "many_benefits" "count > 5" "truncate_with_ellipsis"
      (len (benefits structured_input)) "Zu viele Benefits" first
      = Some (first ++ second) /\
    (forall a, In a first -> names_rule a "long_headline") /\
    (forall a, In a second -> names_rule a "many_benefits").
Proof.
  unfold _apply_adaptive_rules.
  set (rules := dict_get_default layout_def (py "adaptive_rules") (PDict [])).
  unfold bind at 1.
  destruct (check_rule int_other rules "long_headline" _ _ _ _ []) as [first|] eqn:E1;
    [|discriminate].
  unfold bind.
  destruct (check_rule int_other rules "many_benefits" _ _ _ _ first) as [after|] eqn:E2;
    [|discriminate].
  intros H; inversion H; subst after.
  assert (H1 : forall a, In a first -> names_rule a "long_headline").
  { apply check_rule_spec in E1.
    destruct E1 as [[_ ->] | [_ (rule & t & action & _ & _ & _ & [[_ [text ->]] | [_ ->]])]].
    - intros a [].
    - intros a [<- | []]. apply names_rule_adjustment. reflexivity.
    - intros a []. }
  pose proof (check_rule_spec _ _ _ _ _ _ _ _ _ E2) as S2.
  destruct S2 as [[_ ->] | [_ (rule & t & action & _ & _ & _ & [[_ [text ->]] | [_ ->]])]].
  - exists first, []. rewrite app_nil_r.
    repeat split; auto. intros a [].
  - exists first, [adjustment (py "many_benefits") text action].
    repeat split; auto.
    intros a [<- | []]. apply names_rule_adjustment. reflexivity.
  - exists first, []. rewrite app_nil_r.
    repeat split; auto. intros a [].
Qed.

Lemma check_rule_present (int_other : pystr -> option Z)
    (adaptive_rules : pyval) (name dt da : string)
    (size : Z) (message : string) (before after : list pydict) (rule : pyval) :
  check_rule int_other adaptive_rules name dt da size message before = Some after ->
  py_in (py name) adaptive_rules = Some true ->
  py_getitem adaptive_rules (py name) = Some rule ->
  exists t action,
    rule_trigger int_other rule dt = Some t /\
    rule_action rule da = Some action /\
    ((size > t)%Z /\
     (exists text, after = before ++ [adjustment (py name) text action]) \/
     (size <= t)%Z /\ after = before).
Proof.
  intros H Hin Hget. apply check_rule_spec in H.
  destruct H as [[H _] | [_ (rule' & t & action & Hr & H)]]; [congruence|].
  assert (rule' = rule) by congruence. subst rule'.
  exists t, action. exact H.
Qed.

Lemma names_rule_functional (a : pydict) (name other : string) :
  names_rule a name -> names_rule a other -> py name = py other.
Proof. unfold names_rule. intros H1 H2. congruence. Qed.

Lemma action_of_adjustment (name text : pystr) (action : pyval) :
  dict_get (adjustment name text action) (py "action") = Some action /\
  dict_get (adjustment name text action) (py "applied") = Some (PBool true).
Proof. split; reflexivity. Qed.



(** C7.  Let [_apply_adaptive_rules] return its list of adjustments.  If the
    layout definition contains a [long_headline] rule, then the trigger of
    the rule parses to a number [t] (50 when the rule names no trigger) and
    an adjustment for [long_headline] is in the list if and only if the
    headline has more than [t] characters; that adjustment carries the
    action of the rule ([reduce_font_size] unless the rule names one).
    Likewise for [many_benefits], the number of benefits and its trigger
    count.  The number is the one [int] reads: this holds whatever the
    interpreter's [int] does with text beyond plain ASCII ([int_other]). *)
Theorem adaptive_rule_fires_iff_exceeded (int_other : pystr -> option Z)
    (layout_def : pydict)
    (structured_input : StructuredInput) (adjustments : list pydict) :
  _apply_adaptive_rules int_other layout_def structured_input = Some adjustments ->
  (forall rule, contains_rule layout_def "long_headline" rule ->
     exists t action,
       rule_trigger int_other rule "length > 50" = Some t /\
       rule_action rule "reduce_font_size" = Some action /\
       ((exists a, In a adjustments /\ names_rule a "long_headline") <->
        (len (headline structured_input) > t)%Z) /\
       (forall a, In a adjustments -> names_rule a "long_headline" ->
                  dict_get a (py "action") = Some action /\
                  dict_get a (py "applied") = Some (PBool true))) /\
  (forall rule, contains_rule layout_def "many_benefits" rule ->
     exists t action,
       rule_trigger int_other rule "count > 5" = Some t /\
       rule_action rule "truncate_with_ellipsis" = Some action /\
       ((exists a, In a adjustments /\ names_rule a "many_benefits") <->
        (len (benefits structured_input) > t)%Z) /\
       (forall a, In a adjustments -> names_rule a "many_benefits" ->
                  dict_get a (py "action") = Some action /\
                  dict_get a (py "applied") = Some (PBool true))) /\
  (forall d, dict_get d (py "trigger") = None ->
     rule_trigger int_other (PDict d) "length > 50" = Some 50%Z /\
     rule_trigger int_other (PDict d) "count > 5" = Some 5%Z) /\
  (forall d, dict_get d (py "action") = None ->
     rule_action (PDict d) "reduce_font_size"
       = Some (PStr (py "reduce_font_size")) /\
     rule_action (PDict d) "truncate_with_ellipsis"
       = Some (PStr (py "truncate_with_ellipsis"))).
Proof.
  intros H.
  destruct (apply_adaptive_rules_spec _ _ _ _ H)
    as (first & second & -> & E1 & E2 & N1 & N2).
  assert (Hdiff : py "long_headline" <> py "many_benefits") by discriminate.
  split; [|split; [|split]].
  - intros rule [Hin Hget].
    destruct (check_rule_present _ _ _ _ _ _ _ _ _ _ E1 Hin Hget)
      as (t & action & Ht & Ha & Hcase).
    exists t, action. split; [exact Ht|]. split; [exact Ha|].
    assert (Hfirst : forall a, In a (first ++ second) ->
              names_rule a "long_headline" -> In a first).
    { intros a Hi Hn. apply in_app_or in Hi. destruct Hi as [Hi|Hi]; [exact Hi|].
      exfalso. apply Hdiff. apply (names_rule_functional a); auto. }
    destruct Hcase as [[Hgt [text Hf]] | [Hle Hf]]; cbn [app] in Hf; subst first.
    + split.
      * split; [intros _; exact Hgt|]. intros _.
        eexists. split; [left; reflexivity | apply names_rule_adjustment; reflexivity].
      * intros a Hi Hn. destruct (Hfirst a Hi Hn) as [<- | []].
        apply action_of_adjustment.
    + split.
      * split; [|lia]. intros [a [Hi Hn]]. destruct (Hfirst a Hi Hn).
      * intros a Hi Hn. destruct (Hfirst a Hi Hn).
  - intros rule [Hin Hget].
    destruct (check_rule_present _ _ _ _ _ _ _ _ _ _ E2 Hin Hget)
      as (t & action & Ht & Ha & Hcase).
    exists t, action. split; [exact Ht|]. split; [exact Ha|].
    assert (Hsecond : forall a, In a (first ++ second) ->
              names_rule a "many_benefits" -> In a second).
    { intros a Hi Hn. apply in_app_or in Hi. destruct Hi as [Hi|Hi]; [|exact Hi].
      exfalso. apply Hdiff. apply (names_rule_functional a); auto. }
    destruct Hcase as [[Hgt [text Hf]] | [Hle Hf]].
    + apply app_inv_head in Hf. subst second. split.
      * split; [intros _; exact Hgt|]. intros _.
        eexists. split; [apply in_or_app; right; left; reflexivity |
                         apply names_rule_adjustment; reflexivity].
      * intros a Hi Hn. destruct (Hsecond a Hi Hn) as [<- | []].
        apply action_of_adjustment.
    + rewrite <- (app_nil_r first) in Hf at 2. apply app_inv_head in Hf.
      subst second. split.
      * split; [|lia]. intros [a [Hi Hn]]. destruct (Hsecond a Hi Hn).
      * intros a Hi Hn. destruct (Hsecond a Hi Hn).
  - intros d Hd. unfold rule_trigger, py_get, dict_get_default, bind.
    rewrite Hd. split; reflexivity.
  - intros d Hd. unfold rule_action, py_get, dict_get_default.
    rewrite Hd. split; reflexivity.
Qed.

(** The sample layout: the headline of 50 characters exceeds the trigger 20
    the rule names. *)
Lemma adaptive_rule_fires_iff_exceeded_witness :
  _apply_adaptive_rules ascii_only_int sample_layout sample_structured_input
    = Some sample_adjustments /\
  exists t action,
    rule_trigger ascii_only_int
      (PDict [ (KStr (py "trigger"), PStr (py "length > 20"));
               (KStr (py "action"), PStr (py "wrap_to_two_lines")) ])
      "length > 50" = Some t /\
    rule_action
      (PDict [ (KStr (py "trigger"), PStr (py "length > 20"));
               (KStr (py "action"), PStr (py "wrap_to_two_lines")) ])
      "reduce_font_size" = Some action /\
    ((exists a, In a sample_adjustments /\ names_rule a "long_headline") <->
     (len (headline sample_structured_input) > t)%Z) /\
    (forall a, In a sample_adjustments -> names_rule a "long_headline" ->
               dict_get a (py "action") = Some action /\
               dict_get a (py "applied") = Some (PBool true)).
Proof.
  split; [vm_compute; reflexivity|].
  apply (proj1 (adaptive_rule_fires_iff_exceeded ascii_only_int sample_layout
                  sample_structured_input sample_adjustments
                  ltac:(vm_compute; reflexivity))).
  split; vm_compute; reflexivity.
Defined.

(** ** C9: the default headline rule after [InputProcessor.process] *)

Lemma process_headline_le_50 (streamlit_input : pydict)
    (structured_input : StructuredInput) :
  process streamlit_input = Some structured_input ->
  (len (headline structured_input) <= 50)%Z.
Proof.
  unfold process, bind.
  destruct (_extract_ci_colors_from_streamlit streamlit_input); [|discriminate].
  intros H; inversion H; subst structured_input; cbn [headline].
  unfold text_field. apply normalize_text_len_le. lia.
Qed.

(** C9.  For every input of the UI that [InputProcessor.process] turns into
    a [StructuredInput], the headline has at most 50 characters; so with a
    layout whose [long_headline] rule uses the default trigger
    ['length > 50'], no [long_headline] adjustment is among those that
    [_apply_adaptive_rules] returns. *)
Theorem default_long_headline_rule_never_fires (int_other : pystr -> option Z)
    (streamlit_input : pydict)
    (structured_input : StructuredInput) (layout_def : pydict)
    (adjustments : list pydict) :
  process streamlit_input = Some structured_input ->
  (forall rule, contains_rule layout_def "long_headline" rule ->
                uses_default_trigger rule) ->
  _apply_adaptive_rules int_other layout_def structured_input = Some adjustments ->
  (len (headline structured_input) <= 50)%Z /\
  ~ (exists a, In a adjustments /\ names_rule a "long_headline").
Proof.
  intros Hp Hdef Ha.
  pose proof (process_headline_le_50 _ _ Hp) as Hlen.
  split; [exact Hlen|].
  destruct (apply_adaptive_rules_spec _ _ _ _ Ha)
    as (first & second & -> & E1 & _ & _ & N2).
  intros [a [Hi Hn]].
  apply in_app_or in Hi. destruct Hi as [Hi|Hi].
  - apply check_rule_spec in E1.
    destruct E1 as [[_ ->] | [Hin (rule & t & action & Hget & Ht & _ & Hcase)]];
      [destruct Hi|].
    destruct Hcase as [[Hgt _] | [_ ->]]; [|destruct Hi].
    specialize (Hdef rule (conj Hin Hget)).
    unfold uses_default_trigger in Hdef. unfold rule_trigger, bind in Ht.
    rewrite Hdef in Ht. vm_compute in Ht. inversion Ht; subst t. lia.
  - assert (py "long_headline" = py "many_benefits")
      by (apply (names_rule_functional a); auto).
    discriminate.
Qed.

(** The sample headline of 80 characters, cut to 50, against the default
    rule. *)
Lemma default_long_headline_rule_never_fires_witness :
  process sample_streamlit_input = Some sample_structured_input /\
  _apply_adaptive_rules ascii_only_int sample_default_layout sample_structured_input = Some [] /\
  (len (headline sample_structured_input) <= 50)%Z /\
  ~ (exists a, In a (@nil pydict) /\ names_rule a "long_headline").
Proof.
  split; [vm_compute; reflexivity|]. split; [vm_compute; reflexivity|].
  apply (default_long_headline_rule_never_fires ascii_only_int
           sample_streamlit_input
           sample_structured_input sample_default_layout []).
  - vm_compute; reflexivity.
  - intros rule [_ Hget]. vm_compute in Hget. inversion Hget; subst rule.
    vm_compute. reflexivity.
  - vm_compute; reflexivity.
Defined.

(** ** The quality workflow: what each node does to the state *)

Import QualityWorkflow.

(** The fields the decision node leaves alone, and the score it stores. *)
Lemma assess_fields (s : QualityWorkflowState) :
  max_attempts (assess_quality_and_decide s) = max_attempts s /\
  target_quality_score (assess_quality_and_decide s) = target_quality_score s /\
  current_attempt (assess_quality_and_decide s) = current_attempt s /\
  current_prompt (assess_quality_and_decide s) = current_prompt s /\
  current_quality_score (assess_quality_and_decide s) = Some (assessed_score s).
Proof.
  unfold assess_quality_and_decide.
  destruct (assessed_score s >=? target_quality_score _)%Z;
    [cbn; auto 6|].
  destruct (current_attempt _ >=? max_attempts _)%Z; [cbn; auto 6|].
  destruct (assessed_score s <? 60)%Z; [cbn; auto 6|].
  destruct (assessed_score s <? 75)%Z; [cbn; auto 6|].
  destruct (assessed_score s <? 85)%Z; cbn; auto 6.
Qed.

(** The decision node leaves the workflow open exactly when it was open,
    the assessed score is below the target and attempts remain. *)
Lemma assess_open_iff (s : QualityWorkflowState) :
  workflow_completed (assess_quality_and_decide s) = false <->
  workflow_completed s = false /\
  (assessed_score s < target_quality_score s)%Z /\
  (current_attempt s < max_attempts s)%Z.
Proof.
  unfold assess_quality_and_decide. cbn [target_quality_score
    current_attempt max_attempts set_current_quality_score].
  destruct (assessed_score s >=? target_quality_score s)%Z eqn:E1.
  { cbn. apply Z.geb_le in E1. split; [discriminate | lia]. }
  destruct (current_attempt s >=? max_attempts s)%Z eqn:E2.
  { cbn. apply Z.geb_le in E2. split; [discriminate | lia]. }
  rewrite Z.geb_leb in E1, E2. apply Z.leb_gt in E1, E2.
  destruct (assessed_score s <? 60)%Z; [cbn; intuition lia|].
  destruct (assessed_score s <? 75)%Z; [cbn; intuition lia|].
  destruct (assessed_score s <? 85)%Z; cbn; intuition lia.
Qed.

(** The strategy the decision node records when it leaves the workflow
    open. *)
Lemma assess_strategy (s : QualityWorkflowState) :
  (assessed_score s < target_quality_score s)%Z ->
  (current_attempt s < max_attempts s)%Z ->
  optimization_strategy (assess_quality_and_decide s) =
    if (assessed_score s <? 60)%Z then py "critical_optimization"
    else if (assessed_score s <? 75)%Z then py "structure_optimization"
    else if (assessed_score s <? 85)%Z then py "style_optimization"
    else py "fine_tuning".
Proof.
  intros H1 H2. unfold assess_quality_and_decide. cbn [target_quality_score
    current_attempt max_attempts set_current_quality_score].
  destruct (assessed_score s >=? target_quality_score s)%Z eqn:E1;
    [apply Z.geb_le in E1; lia|].
  destruct (current_attempt s >=? max_attempts s)%Z eqn:E2;
    [apply Z.geb_le in E2; lia|].
  destruct (assessed_score s <? 60)%Z; [reflexivity|].
  destruct (assessed_score s <? 75)%Z; [reflexivity|].
  destruct (assessed_score s <? 85)%Z; reflexivity.
Qed.

(** Where [route_optimization] goes for an open workflow, strategy by
    strategy. *)
Lemma route_by_strategy (s : QualityWorkflowState) :
  workflow_completed s = false ->
  (optimization_strategy s = py "critical_optimization" ->
   route_optimization s = Some optimize_critical) /\
  (optimization_strategy s = py "structure_optimization" ->
   route_optimization s = Some optimize_structure) /\
  (optimization_strategy s = py "style_optimization" ->
   route_optimization s = Some optimize_style) /\
  (optimization_strategy s = py "fine_tuning" ->
   route_optimization s = Some optimize_fine_tuning).
Proof.
  intros H. unfold route_optimization. rewrite H.
  repeat split; intros ->; reflexivity.
Qed.

(** An optimization node on a state that holds a prompt string. *)
Lemma optimize_with_on_string (api_key : option pystr)
    (chat_completion : nat -> pystr -> pyval -> option pystr) (call : nat)
    (message strategy_name failure : pystr) (s : QualityWorkflowState)
    (p : pystr) :
  current_prompt s = PStr p ->
  let s' := optimize_with api_key chat_completion call message strategy_name
              failure s in
  current_attempt s' = (current_attempt s + 1)%Z /\
  max_attempts s' = max_attempts s /\
  target_quality_score s' = target_quality_score s /\
  workflow_completed s' = workflow_completed s /\
  current_prompt s' =
    GptUtils.optimize_prompt_with_gpt4 api_key (chat_completion call) (PStr p)
      (Some message) /\
  exists p', current_prompt s' = PStr p'.
Proof.
  intros Hp s'. subst s'. unfold optimize_with. rewrite Hp.
  destruct (optimize_prompt_returns_string api_key (chat_completion call) p
              (Some message)) as [r Hr].
  rewrite Hr. cbn. repeat split; try reflexivity. exists r; reflexivity.
Qed.

(** Without a key and without a prompt the log line of an optimization
    node raises, and the handler returns the counter as it was.  (The
    workflow never routes such a state to an optimization node.) *)
Lemma optimize_without_prompt_keeps_counter
    (chat_completion : nat -> pystr -> pyval -> option pystr) (call : nat)
    (message strategy_name failure : pystr) (s : QualityWorkflowState) :
  current_prompt s = PNone ->
  current_attempt
    (optimize_with None chat_completion call message strategy_name failure s)
  = current_attempt s.
Proof. intros Hp. unfold optimize_with. rewrite Hp. reflexivity. Qed.

(** The function behind an optimization node is [optimize_with]. *)
Lemma optimization_node_function (api_key : option pystr)
    (chat_completion : nat -> pystr -> pyval -> option pystr)
    (process_streamlit_input : pydict -> bool -> option FinalizedPrompts)
    (call : nat) (n : node) :
  is_optimization n = true ->
  next_node n = (fun _ => Some reassess_quality_node) /\
  exists message strategy_name failure,
    node_function api_key chat_completion process_streamlit_input call n =
    optimize_with api_key chat_completion call message strategy_name failure.
Proof.
  destruct n; try discriminate; intros _; (split; [reflexivity|]);
    do 3 eexists; reflexivity.
Qed.

(** The reassessment leaves counter, bounds, flag and prompt alone. *)
Lemma reassess_fields (s : QualityWorkflowState) :
  current_attempt (reassess_quality s) = current_attempt s /\
  max_attempts (reassess_quality s) = max_attempts s /\
  target_quality_score (reassess_quality s) = target_quality_score s /\
  workflow_completed (reassess_quality s) = workflow_completed s /\
  current_prompt (reassess_quality s) = current_prompt s.
Proof.
  unfold reassess_quality.
  cbn [current_prompt set_current_quality_score].
  destruct (py_len (current_prompt s)); cbn; auto.
Qed.

(** After the initial generation the state holds a prompt string, or the
    workflow is marked completed. *)
Lemma generate_initial_fields
    (process_streamlit_input : pydict -> bool -> option FinalizedPrompts)
    (s : QualityWorkflowState) :
  let s' := generate_initial_prompt process_streamlit_input s in
  current_attempt s' = current_attempt s /\
  max_attempts s' = max_attempts s /\
  target_quality_score s' = target_quality_score s /\
  (workflow_completed s' = true \/ exists p, current_prompt s' = PStr p).
Proof.
  intros s'. subst s'. unfold generate_initial_prompt.
  destruct (process_streamlit_input _ _) as [result|]; cbn.
  - repeat split; try reflexivity. right. eexists; reflexivity.
  - repeat split; try reflexivity. left. reflexivity.
Qed.

(** ** C1: the retry loop terminates *)

(** From the decision node on: with [r] bounding the attempts that remain,
    [3 * r + 1] nodes suffice to reach [END], and at most [r + 1]
    assessments are made. *)
Lemma invoke_from_assess (api_key : option pystr)
    (chat_completion : nat -> pystr -> pyval -> option pystr)
    (process_streamlit_input : pydict -> bool -> option FinalizedPrompts)
    (r : nat) :
  forall (fuel call : nat) (s : QualityWorkflowState),
    (3 * r + 1 <= fuel)%nat ->
    prompt_ready s ->
    (max_attempts s - current_attempt s <= Z.of_nat r)%Z ->
    exists trace,
      invoke api_key chat_completion process_streamlit_input fuel call
        assess_quality s = Some trace /\
      (assessment_rounds trace <= r + 1)%nat /\
      attempts_incremented trace.
Proof.
  induction r as [|r IH]; intros fuel call s Hfuel Hready Hrem.
  - destruct fuel as [|fuel]; [lia|]. cbn [invoke node_function next_node].
    destruct (workflow_completed (assess_quality_and_decide s)) eqn:E.
    + unfold route_optimization. rewrite E. eexists. split; [reflexivity|].
      split; [cbn; lia|]. constructor; [cbn; discriminate | constructor].
    + apply assess_open_iff in E. lia.
  - destruct fuel as [|fuel]; [lia|]. cbn [invoke node_function next_node].
    destruct (workflow_completed (assess_quality_and_decide s)) eqn:E.
    + unfold route_optimization. rewrite E. eexists. split; [reflexivity|].
      split; [cbn; lia|]. constructor; [cbn; discriminate | constructor].
    + pose proof E as Hopen. apply assess_open_iff in Hopen.
      destruct Hopen as (Hc & Hscore & Hatt).
      destruct (assess_fields s) as (Fm & Ft & Fa & Fp & _).
      assert (Hroute : exists n, route_optimization (assess_quality_and_decide s)
                                 = Some n /\ is_optimization n = true).
      { destruct (route_by_strategy _ E) as (R1 & R2 & R3 & R4).
        rewrite (assess_strategy s Hscore Hatt) in R1, R2, R3, R4.
        destruct (assessed_score s <? 60)%Z;
          [eexists; split; [apply R1; reflexivity | reflexivity]|].
        destruct (assessed_score s <? 75)%Z;
          [eexists; split; [apply R2; reflexivity | reflexivity]|].
        destruct (assessed_score s <? 85)%Z;
          [eexists; split; [apply R3; reflexivity | reflexivity]|].
        eexists; split; [apply R4; reflexivity | reflexivity]. }
      destruct Hroute as (n & -> & Hn).
      destruct fuel as [|fuel]; [lia|]. cbn [invoke].
      destruct (optimization_node_function api_key chat_completion
                  process_streamlit_input (S call) n Hn)
        as (-> & message & strategy_name & failure & ->).
      destruct Hready as [Hready | [p Hp]]; [congruence|].
      rewrite <- Fp in Hp.
      destruct (optimize_with_on_string api_key chat_completion (S call) message
                  strategy_name failure _ p Hp)
        as (Oa & Om & Ot & Oc & _ & p' & Op).
      set (s1 := assess_quality_and_decide s) in *.
      set (s2 := optimize_with api_key chat_completion (S call) message
                   strategy_name failure s1) in *.
      destruct fuel as [|fuel]; [lia|]. cbn [invoke node_function next_node].
      destruct (reassess_fields s2) as (Ra & Rm & Rt & Rc & Rp).
      destruct (IH fuel (S (S (S call))) (reassess_quality s2)) as (rest & Hrest & Hrounds & Hinc).
      * lia.
      * right. exists p'. congruence.
      * rewrite Ra, Rm, Oa, Om, Fm, Fa. lia.
      * rewrite Hrest. eexists. split; [reflexivity|]. split.
        -- unfold assessment_rounds in *. cbn [filter step_node length].
           destruct n; try discriminate; cbn [length]; lia.
        -- constructor; [cbn; discriminate|].
           constructor; [cbn; intros _; exact Oa|].
           constructor; [cbn; discriminate | exact Hinc].
Qed.

(** The decision node completes the workflow once the score reaches the
    target or the attempts are used up. *)
Lemma assess_completes (s : QualityWorkflowState) (sc : Z) :
  current_quality_score s = Some sc ->
  (sc >= target_quality_score s \/ current_attempt s >= max_attempts s)%Z ->
  workflow_completed (assess_quality_and_decide s) = true.
Proof.
  intros Hsc H.
  destruct (workflow_completed (assess_quality_and_decide s)) eqn:E;
    [reflexivity|].
  apply assess_open_iff in E. destruct E as (_ & E1 & E2).
  unfold assessed_score in E1. rewrite Hsc in E1.
  destruct (sc =? 0)%Z eqn:E0; [apply Z.eqb_eq in E0|]; lia.
Qed.

(** Whatever the score in the state is (a number or [None]), the decision
    node completes the workflow once the score it assesses reaches the
    target or the attempts are used up. *)
Lemma assess_completes_any (s : QualityWorkflowState) :
  (assessed_score s >= target_quality_score s \/
   current_attempt s >= max_attempts s)%Z ->
  workflow_completed (assess_quality_and_decide s) = true.
Proof.
  intros H.
  destruct (workflow_completed (assess_quality_and_decide s)) eqn:E;
    [reflexivity|].
  apply assess_open_iff in E. lia.
Qed.

(** The result of a run whose walk reached [END]. *)
Lemma run_of_walk (api_key : option pystr)
    (chat_completion : nat -> pystr -> pyval -> option pystr)
    (process_streamlit_input : pydict -> bool -> option FinalizedPrompts)
    (recursion_limit : nat) (input : pydict) (text_rendering : bool)
    (target max : Z) (trace : list step) :
  invoke api_key chat_completion process_streamlit_input recursion_limit 0
    generate_initial (initial_state input text_rendering target max)
  = Some trace ->
  run_quality_workflow api_key chat_completion process_streamlit_input
    recursion_limit input text_rendering target max
  = workflow_result
      (final_state (initial_state input text_rendering target max) trace).
Proof.
  intros H. unfold run_quality_workflow. cbv zeta. rewrite H. reflexivity.
Qed.

(** More fuel does not change a walk that reached [END]. *)
Lemma invoke_more_fuel (api_key : option pystr)
    (chat_completion : nat -> pystr -> pyval -> option pystr)
    (process_streamlit_input : pydict -> bool -> option FinalizedPrompts) :
  forall (fuel fuel' call : nat) (n : node) (s : QualityWorkflowState)
         (trace : list step),
    invoke api_key chat_completion process_streamlit_input fuel call n s
      = Some trace ->
    (fuel <= fuel')%nat ->
    invoke api_key chat_completion process_streamlit_input fuel' call n s
      = Some trace.
Proof.
  induction fuel as [|fuel IH]; intros fuel' call n s trace H Hle;
    [discriminate|].
  destruct fuel' as [|fuel']; [lia|]. cbn [invoke] in *.
  destruct (next_node n _) as [n'|]; [|exact H].
  destruct (invoke _ _ _ fuel (S call) n' _) as [rest|] eqn:E;
    [|discriminate].
  rewrite (IH fuel' (S call) n' _ rest E ltac:(lia)). exact H.
Qed.

(** A walk that starts at the decision node counts that assessment. *)
Lemma assessment_comes_first (api_key : option pystr)
    (chat_completion : nat -> pystr -> pyval -> option pystr)
    (process_streamlit_input : pydict -> bool -> option FinalizedPrompts)
    (fuel call : nat) (s : QualityWorkflowState) (trace : list step) :
  invoke api_key chat_completion process_streamlit_input fuel call
    assess_quality s = Some trace ->
  (1 <= assessment_rounds trace)%nat.
Proof.
  destruct fuel as [|fuel]; [discriminate|]. cbn [invoke].
  destruct (next_node assess_quality _) as [n'|].
  - destruct (invoke _ _ _ fuel (S call) n' _) as [rest|]; [|discriminate].
    intros H; inversion H; subst trace. unfold assessment_rounds.
    cbn [filter step_node length]. lia.
  - intros H; inversion H; subst trace. unfold assessment_rounds.
    cbn [filter step_node length]. lia.
Qed.

(** C1 (as amended).  The quality workflow terminates for every input and
    every behaviour of the pipeline and of GPT-4: the decision node marks the
    workflow completed as soon as the score is at least the target or the
    attempt counter is at least [max_attempts] (with a score of [None] or 0
    read as 87); every optimization node that is executed adds exactly one
    to the attempt counter; and the walk of the graph reaches [END] within
    [3 * (max_attempts - 1) + 2] nodes, after at least one and at most
    [max 1 max_attempts] assessment rounds.  With a recursion limit that
    leaves room for these nodes, [run_quality_workflow] returns the
    dictionary of the state the walk ends in. *)
Theorem quality_workflow_terminates (api_key : option pystr)
    (chat_completion : nat -> pystr -> pyval -> option pystr)
    (process_streamlit_input : pydict -> bool -> option FinalizedPrompts)
    (input : pydict) (text_rendering : bool) (target max : Z) :
  (forall s sc,
     current_quality_score s = Some sc ->
     (sc >= target_quality_score s \/ current_attempt s >= max_attempts s)%Z ->
     workflow_completed (assess_quality_and_decide s) = true) /\
  (forall s,
     (assessed_score s >= target_quality_score s \/
      current_attempt s >= max_attempts s)%Z ->
     workflow_completed (assess_quality_and_decide s) = true) /\
  exists trace,
    invoke api_key chat_completion process_streamlit_input
      (3 * Z.to_nat (max - 1) + 2) 0 generate_initial
      (initial_state input text_rendering target max)
      = Some trace /\
    attempts_incremented trace /\
    (1 <= assessment_rounds trace)%nat /\
    (Z.of_nat (assessment_rounds trace) <= Z.max 1 max)%Z /\
    forall recursion_limit,
      (3 * Z.to_nat (max - 1) + 2 <= recursion_limit)%nat ->
      run_quality_workflow api_key chat_completion process_streamlit_input
        recursion_limit input text_rendering target max
      = workflow_result
          (final_state (initial_state input text_rendering target max)
             trace).
Proof.
  split; [exact assess_completes|]. split; [exact assess_completes_any|].
  assert (Hwalk : exists trace,
    invoke api_key chat_completion process_streamlit_input
      (3 * Z.to_nat (max - 1) + 2) 0 generate_initial
      (initial_state input text_rendering target max)
      = Some trace /\
    attempts_incremented trace /\
    (1 <= assessment_rounds trace)%nat /\
    (Z.of_nat (assessment_rounds trace) <= Z.max 1 max)%Z);
    [|destruct Hwalk as (trace & Hrun & Hinc & Hone & Hmax); exists trace;
      repeat (split; [assumption|]); intros recursion_limit Hlimit;
      apply run_of_walk;
      apply (invoke_more_fuel _ _ _ _ _ _ _ _ _ Hrun Hlimit)].
  replace (3 * Z.to_nat (max - 1) + 2)%nat
    with (S (3 * Z.to_nat (max - 1) + 1)) by lia.
  cbn [invoke node_function next_node].
  set (s0 := initial_state input text_rendering target max).
  destruct (generate_initial_fields process_streamlit_input s0)
    as (Ga & Gm & Gt & Gready).
  destruct (invoke_from_assess api_key chat_completion process_streamlit_input
              (Z.to_nat (max - 1)) (3 * Z.to_nat (max - 1) + 1) 1
              (generate_initial_prompt process_streamlit_input s0))
    as (rest & Hrest & Hrounds & Hinc).
  - lia.
  - exact Gready.
  - rewrite Ga, Gm. cbn. lia.
  - rewrite Hrest. eexists. split; [reflexivity|]. split.
    + constructor; [cbn; discriminate | exact Hinc].
    + pose proof (assessment_comes_first _ _ _ _ _ _ _ Hrest) as Hfirst.
      unfold assessment_rounds in *. cbn [filter step_node]. lia.
Qed.

(** C1 as stated fails for [max_attempts = 0]: the run still makes one
    assessment round. *)
Lemma one_assessment_round_with_zero_max_attempts :
  exists trace,
    invoke None sample_chat sample_pipeline 5 0 generate_initial
      (initial_state sample_streamlit_input false 85 0) = Some trace /\
    ~ (Z.of_nat (assessment_rounds trace) <= 0)%Z.
Proof.
  eexists. split; [vm_compute; reflexivity|].
  vm_compute. intros H. apply H. reflexivity.
Qed.

(** ** C2: the strategy is chosen by the bracket of the assessed score *)

(** Each optimization node sends the prompt under its own message. *)
Lemma optimization_nodes_call_gpt4 (api_key : option pystr)
    (chat_completion : nat -> pystr -> pyval -> option pystr)
    (process_streamlit_input : pydict -> bool -> option FinalizedPrompts) :
  calls_gpt4_with api_key chat_completion process_streamlit_input
    optimize_critical system_message_critical /\
  calls_gpt4_with api_key chat_completion process_streamlit_input
    optimize_structure system_message_structure /\
  calls_gpt4_with api_key chat_completion process_streamlit_input
    optimize_style system_message_style /\
  calls_gpt4_with api_key chat_completion process_streamlit_input
    optimize_fine_tuning system_message_fine_tuning.
Proof.
  repeat split; intros call state p Hp; cbn [node_function];
    unfold optimize_prompt_critical, optimize_prompt_structure,
      optimize_prompt_style, optimize_prompt_fine_tuning;
    apply (optimize_with_on_string api_key chat_completion call _ _ _ state p Hp).
Qed.

(** The four canned messages differ from one another. *)
Lemma system_messages_distinct :
  NoDup [system_message_critical; system_message_structure;
         system_message_style; system_message_fine_tuning].
Proof.
  assert (H : forall a b : pystr, str_eqb a b = false -> a <> b).
  { intros a b E ->. rewrite str_eqb_refl in E. discriminate. }
  repeat constructor; cbn [In]; intuition;
    match goal with
    | E : _ = _ |- _ => revert E; apply H; vm_compute; reflexivity
    end.
Qed.

(** C2 (as amended).  Whenever [assess_quality_and_decide] leaves the
    workflow uncompleted, the score it assessed (the current score, a
    missing or zero score being replaced by 87 first) is below the target,
    the attempts are below [max_attempts], and the strategy is the one of
    the bracket of that assessed score: [critical_optimization] below 60,
    [structure_optimization] from 60 to below 75, [style_optimization] from
    75 to below 85, [fine_tuning] from 85 on; [route_optimization] then
    goes to the node that calls GPT-4 with the system message of that
    strategy, and the four messages differ. *)
Theorem strategy_by_score_bracket (api_key : option pystr)
    (chat_completion : nat -> pystr -> pyval -> option pystr)
    (process_streamlit_input : pydict -> bool -> option FinalizedPrompts)
    (s : QualityWorkflowState) :
  workflow_completed (assess_quality_and_decide s) = false ->
  (assessed_score s < target_quality_score s)%Z /\
  (current_attempt s < max_attempts s)%Z /\
  current_quality_score (assess_quality_and_decide s)
    = Some (assessed_score s) /\
  (((assessed_score s < 60)%Z /\
    optimization_strategy (assess_quality_and_decide s)
      = py "critical_optimization" /\
    route_optimization (assess_quality_and_decide s) = Some optimize_critical /\
    calls_gpt4_with api_key chat_completion process_streamlit_input
      optimize_critical system_message_critical) \/
   ((60 <= assessed_score s < 75)%Z /\
    optimization_strategy (assess_quality_and_decide s)
      = py "structure_optimization" /\
    route_optimization (assess_quality_and_decide s) = Some optimize_structure /\
    calls_gpt4_with api_key chat_completion process_streamlit_input
      optimize_structure system_message_structure) \/
   ((75 <= assessed_score s < 85)%Z /\
    optimization_strategy (assess_quality_and_decide s)
      = py "style_optimization" /\
    route_optimization (assess_quality_and_decide s) = Some optimize_style /\
    calls_gpt4_with api_key chat_completion process_streamlit_input
      optimize_style system_message_style) \/
   ((85 <= assessed_score s)%Z /\
    optimization_strategy (assess_quality_and_decide s) = py "fine_tuning" /\
    route_optimization (assess_quality_and_decide s)
      = Some optimize_fine_tuning /\
    calls_gpt4_with api_key chat_completion process_streamlit_input
      optimize_fine_tuning system_message_fine_tuning)) /\
  NoDup [system_message_critical; system_message_structure;
         system_message_style; system_message_fine_tuning].
Proof.
  intros E. pose proof E as Hopen. apply assess_open_iff in Hopen.
  destruct Hopen as (_ & Hscore & Hatt).
  destruct (assess_fields s) as (_ & _ & _ & _ & Fs).
  destruct (route_by_strategy _ E) as (R1 & R2 & R3 & R4).
  destruct (optimization_nodes_call_gpt4 api_key chat_completion
              process_streamlit_input) as (G1 & G2 & G3 & G4).
  pose proof (assess_strategy s Hscore Hatt) as Hs.
  repeat (split; [assumption|]).
  split; [|exact system_messages_distinct].
  destruct (assessed_score s <? 60)%Z eqn:B1.
  { apply Z.ltb_lt in B1. left. auto. }
  apply Z.ltb_ge in B1.
  destruct (assessed_score s <? 75)%Z eqn:B2.
  { apply Z.ltb_lt in B2. right; left. repeat split; auto. }
  apply Z.ltb_ge in B2.
  destruct (assessed_score s <? 85)%Z eqn:B3.
  { apply Z.ltb_lt in B3. right; right; left. repeat split; auto. }
  apply Z.ltb_ge in B3. right; right; right. repeat split; auto.
Qed.

(** The sample state, assessed at 60 against the target 85. *)
Lemma strategy_by_score_bracket_witness :
  workflow_completed (assess_quality_and_decide sample_state) = false /\
  (assessed_score sample_state < target_quality_score sample_state)%Z.
Proof.
  split; [vm_compute; reflexivity|].
  apply (strategy_by_score_bracket None sample_chat sample_pipeline sample_state).
  vm_compute; reflexivity.
Defined.

(** C2 as stated fails on a current score of 0: it is below 60, below the
    target 90, the attempts are below [max_attempts] and the workflow is
    left uncompleted, yet the strategy is [fine_tuning], for the fallback
    score 87. *)
Lemma zero_score_selects_fine_tuning :
  let s := initial_state sample_streamlit_input false 90 3 in
  current_quality_score s = Some 0%Z /\
  (0 < 60)%Z /\
  (0 < target_quality_score s)%Z /\
  (current_attempt s < max_attempts s)%Z /\
  workflow_completed (assess_quality_and_decide s) = false /\
  optimization_strategy (assess_quality_and_decide s) = py "fine_tuning" /\
  optimization_strategy (assess_quality_and_decide s)
    <> py "critical_optimization" /\
  route_optimization (assess_quality_and_decide s) = Some optimize_fine_tuning.
Proof.
  cbv zeta. repeat split; try (vm_compute; reflexivity).
  vm_compute. discriminate.
Qed.

(** ** C6: the placeholders are resolved *)

(** *** Occurrences of a pattern after [replace] *)

Lemma str_contains_cons (p : pystr) (c : char) (s : pystr) :
  str_contains p (c :: s) = str_startswith p (c :: s) || str_contains p s.
Proof. reflexivity. Qed.

Lemma str_contains_nil (p0 : char) (p : pystr) :
  str_contains (p0 :: p) [] = false.
Proof. reflexivity. Qed.

(** A pattern that starts with a character foreign to [a] does not begin
    inside [a]. *)
Lemma str_contains_app_foreign (p0 : char) (p a r : pystr) :
  ~ In p0 a ->
  str_contains (p0 :: p) r = false ->
  str_contains (p0 :: p) (a ++ r) = false.
Proof.
  intros Hnot Hr. induction a as [|x a IH]; [exact Hr|].
  cbn [app]. rewrite str_contains_cons. rewrite IH.
  - rewrite orb_false_r. cbn [str_startswith].
    destruct (p0 =? x)%N eqn:E; [|reflexivity].
    apply N.eqb_eq in E. exfalso. apply Hnot. left. symmetry; exact E.
  - intros H. apply Hnot. right; exact H.
Qed.

(** A prefix of the scanned text that holds no first character of [new]
    was a prefix of the original text. *)
Lemma startswith_replace_scan (old : pystr) (n0 : char) (new q : pystr) :
  ~ In n0 q ->
  forall s,
    str_startswith q (replace_scan old (n0 :: new) 0 s) = true ->
    str_startswith q s = true.
Proof.
  induction q as [|q0 q IH]; intros Hnot s H; [reflexivity|].
  destruct s as [|c s]; [cbn in H; discriminate|].
  cbn [replace_scan] in H.
  destruct (str_startswith old (c :: s)).
  - cbn [app str_startswith] in H. apply andb_true_iff in H. destruct H as [H _].
    apply N.eqb_eq in H. exfalso. apply Hnot. left. exact H.
  - cbn [str_startswith] in H |- *. apply andb_true_iff in H.
    destruct H as [H1 H2]. rewrite H1. cbn [andb].
    apply IH; [|exact H2]. intros Hin. apply Hnot. right; exact Hin.
Qed.

(** The scan leaves no occurrence of a pattern [p] behind, provided every
    place where [p] begins in the original text is a place where [old]
    begins, [new] does not hold the first character of [p], and [p] does not
    hold the first character of [new]. *)
Lemma replace_scan_leaves_none (old : pystr) (n0 : char) (new : pystr)
    (p0 : char) (p : pystr) :
  ~ In p0 (n0 :: new) ->
  ~ In n0 (p0 :: p) ->
  forall s skip,
    (forall before rest, s = before ++ rest ->
                         str_startswith (p0 :: p) rest = true ->
                         str_startswith old rest = true) ->
    str_contains (p0 :: p) (replace_scan old (n0 :: new) skip s) = false.
Proof.
  intros Hp Hn. induction s as [|c s IH]; intros skip Hocc; [reflexivity|].
  assert (Hocc' : forall before rest, s = before ++ rest ->
                    str_startswith (p0 :: p) rest = true ->
                    str_startswith old rest = true).
  { intros before rest -> Hr. apply (Hocc (c :: before) rest); auto. }
  cbn [replace_scan]. destruct skip as [|skip]; [|apply IH; exact Hocc'].
  destruct (str_startswith old (c :: s)) eqn:E.
  - apply str_contains_app_foreign; [exact Hp | apply IH; exact Hocc'].
  - rewrite str_contains_cons, (IH 0%nat Hocc'), orb_false_r.
    destruct (str_startswith (p0 :: p) (c :: replace_scan old (n0 :: new) 0 s))
      eqn:F; [|reflexivity].
    assert (G : str_startswith (p0 :: p) (c :: s) = true).
    { cbn [str_startswith] in F |- *. apply andb_true_iff in F.
      destruct F as [F1 F2]. rewrite F1. cbn [andb].
      apply (startswith_replace_scan old n0 new p); [|exact F2].
      intros Hin. apply Hn. right; exact Hin. }
    rewrite (Hocc [] (c :: s) eq_refl G) in E. discriminate.
Qed.

Lemma str_contains_false_suffix (p before rest : pystr) :
  str_contains p (before ++ rest) = false -> str_startswith p rest = false.
Proof.
  induction before as [|c before IH]; cbn [app].
  - destruct rest; cbn [str_contains]; intros H;
      apply orb_false_iff in H; tauto.
  - rewrite str_contains_cons. intros H. apply orb_false_iff in H.
    apply IH. tauto.
Qed.

(** [replace] does not create an occurrence of [p]. *)
Lemma str_replace_creates_none (o0 : char) (old : pystr) (n0 : char)
    (new : pystr) (p0 : char) (p s : pystr) :
  ~ In p0 (n0 :: new) ->
  ~ In n0 (p0 :: p) ->
  str_contains (p0 :: p) s = false ->
  str_contains (p0 :: p) (str_replace (o0 :: old) (n0 :: new) s) = false.
Proof.
  intros Hp Hn Hs. cbn [str_replace].
  apply replace_scan_leaves_none; [exact Hp | exact Hn|].
  intros before rest -> Hr.
  rewrite (str_contains_false_suffix _ _ _ Hs) in Hr. discriminate.
Qed.

(** [replace] removes every occurrence of [old]. *)
Lemma str_replace_removes (p0 : char) (p : pystr) (n0 : char) (new s : pystr) :
  ~ In p0 (n0 :: new) ->
  ~ In n0 (p0 :: p) ->
  str_contains (p0 :: p) (str_replace (p0 :: p) (n0 :: new) s) = false.
Proof.
  intros Hp Hn. cbn [str_replace].
  apply replace_scan_leaves_none; [exact Hp | exact Hn|].
  intros before rest _ Hr. exact Hr.
Qed.

(** *** The placeholders and the colors *)

Lemma placeholder_shape (ph : pystr) :
  In ph placeholders -> exists rest, ph = 123%N :: rest /\ ~ In 35%N ph.
Proof.
  unfold placeholders. cbn [In].
  intros [<- | [<- | [<- | [<- | []]]]]; eexists; (split; [reflexivity|]);
    vm_compute; intuition discriminate.
Qed.

Lemma color_like_shape (c : pystr) :
  color_like c -> exists rest, c = 35%N :: rest /\ ~ In 123%N c.
Proof.
  intros [Hstart Hno]. destruct c as [|c0 c]; [discriminate|].
  change (py "#") with [35%N] in Hstart. cbn [str_startswith] in Hstart.
  rewrite andb_true_r in Hstart. apply N.eqb_eq in Hstart. subst c0.
  exists c. split; [reflexivity | exact Hno].
Qed.

Lemma has_placeholder_false (s : pystr) :
  has_placeholder s = false <->
  forall ph, In ph placeholders -> str_contains ph s = false.
Proof.
  unfold has_placeholder. split.
  - intros H ph Hin. destruct (str_contains ph s) eqn:E; [|reflexivity].
    assert (existsb (fun ph => str_contains ph s) placeholders = true)
      by (apply existsb_exists; exists ph; auto).
    congruence.
  - intros H. destruct (existsb _ placeholders) eqn:E; [|reflexivity].
    apply existsb_exists in E. destruct E as (ph & Hin & Hc).
    rewrite (H ph Hin) in Hc. discriminate.
Qed.

(** A conditional replacement by a color creates no placeholder. *)
Lemma replace_if_in_keeps (old new s ph : pystr) :
  old <> [] -> color_like new -> In ph placeholders ->
  str_contains ph s = false ->
  str_contains ph (replace_if_in old new s) = false.
Proof.
  intros Hold Hnew Hph Hs. unfold replace_if_in.
  destruct (str_contains old s); [|exact Hs].
  destruct old as [|o0 old]; [congruence|].
  destruct (placeholder_shape ph Hph) as (prest & -> & Hhash).
  destruct (color_like_shape new Hnew) as (nrest & -> & Hbrace).
  apply str_replace_creates_none; assumption.
Qed.

(** The conditional replacement of a placeholder by a color removes it. *)
Lemma replace_if_in_removes (new s ph : pystr) :
  color_like new -> In ph placeholders ->
  str_contains ph (replace_if_in ph new s) = false.
Proof.
  intros Hnew Hph. unfold replace_if_in.
  destruct (str_contains ph s) eqn:E; [|exact E].
  destruct (placeholder_shape ph Hph) as (prest & -> & Hhash).
  destruct (color_like_shape new Hnew) as (nrest & -> & Hbrace).
  apply str_replace_removes; assumption.
Qed.

(** The string branch of [replace_colors] leaves no placeholder, whatever
    string goes in. *)
Lemma replace_str_resolved (primary secondary accent background s : pystr) :
  color_like primary -> color_like secondary -> color_like accent ->
  color_like background ->
  has_placeholder (replace_str primary secondary accent background s) = false.
Proof.
  intros Hp Hs Ha Hb. apply has_placeholder_false. unfold replace_str.
  set (s1 := replace_if_in ph_primary primary s).
  set (s2 := replace_if_in ph_secondary secondary s1).
  set (s3 := replace_if_in ph_accent accent s2).
  set (s4 := replace_if_in ph_background background s3).
  assert (H4 : forall ph, In ph placeholders -> str_contains ph s4 = false).
  { assert (I1 : In ph_primary placeholders) by (cbn; tauto).
    assert (I2 : In ph_secondary placeholders) by (cbn; tauto).
    assert (I3 : In ph_accent placeholders) by (cbn; tauto).
    assert (I4 : In ph_background placeholders) by (cbn; tauto).
    assert (N : forall ph, In ph placeholders -> ph <> []).
    { intros ph Hin. destruct (placeholder_shape ph Hin) as (r & -> & _).
      discriminate. }
    intros ph [<- | [<- | [<- | [<- | []]]]]; subst s4 s3 s2 s1;
      repeat first
        [ apply replace_if_in_removes; [assumption | assumption]
        | apply replace_if_in_keeps;
          [apply N; assumption | assumption | assumption |] ]. }
  clearbody s4. clear s1 s2 s3.
  assert (Hmap : Forall (fun entry => fst entry <> [] /\ color_like (snd entry))
                   (color_mapping primary secondary accent)).
  { unfold color_mapping.
    repeat (apply Forall_cons; [split; [discriminate | assumption]|]).
    apply Forall_nil. }
  revert s4 H4. induction Hmap as [|entry mapping [Hne Hc] _ IH];
    intros s4 H4; cbn [fold_left]; [exact H4|].
  apply IH. intros ph Hin. apply replace_if_in_keeps; auto.
Qed.

(** *** The nested structure *)

Lemma replace_colors_resolved (primary secondary accent background : pystr) :
  color_like primary -> color_like secondary -> color_like accent ->
  color_like background ->
  forall v,
    fully_resolved (replace_colors primary secondary accent background v).
Proof.
  intros Hp Hs Ha Hb. unfold fully_resolved.
  fix IH 1. intros v.
  destruct v as [ | b | z | s | l | d | id t]; try exact I.
  - cbn [replace_colors all_strings]. apply replace_str_resolved; assumption.
  - cbn [replace_colors all_strings].
    induction l as [|x l IHl]; cbn [map]; [exact I|].
    split; [apply IH | exact IHl].
  - cbn [replace_colors all_strings].
    induction d as [|[key x] d IHd]; cbn [map]; [exact I|].
    pose proof (IH x) as Hx.
    destruct x as [ | b | z | s | l | d' | id t];
      try (split; [exact Hx | exact IHd]).
    destruct (key_is key (py "background_color"));
      (split; [cbn [all_strings]; apply replace_str_resolved; assumption
              | exact IHd]).
Qed.

Lemma color_get_color_like (ci_colors : list (pystr * pystr))
    (name default : pystr) :
  Forall (fun entry => color_like (snd entry)) ci_colors ->
  color_like default ->
  color_like (color_get ci_colors name default).
Proof.
  intros H Hd. induction H as [|[k v] rest Hv _ IH]; cbn [color_get];
    [exact Hd|].
  destruct (str_eqb k name); [exact Hv | exact IH].
Qed.

Lemma default_color_like :
  color_like (py "#005EA5") /\ color_like (py "#B4D9F7") /\
  color_like (py "#FFC20E") /\ color_like (py "#FFFFFF").
Proof.
  repeat split; try reflexivity; vm_compute; intuition discriminate.
Qed.

(** C6 (as amended).  Let every CI color start with [#] and hold no [{],
    as every hex color does.  After [_convert_banner_colors_to_generic] and
    [_resolve_layout_colors], no string value of the resulting structure
    (a value of a dictionary, an element of a list or a plain string, at any
    depth) contains one of the placeholders [{primary_color}],
    [{secondary_color}], [{accent_color}], [{background_color}]. *)
Theorem layout_colors_fully_resolved (layout_def : pyval)
    (ci_colors : list (pystr * pystr)) :
  Forall (fun entry => color_like (snd entry)) ci_colors ->
  fully_resolved
    (_resolve_layout_colors (_convert_banner_colors_to_generic layout_def)
       ci_colors).
Proof.
  intros H. unfold _resolve_layout_colors.
  destruct default_color_like as (D1 & D2 & D3 & D4).
  apply replace_colors_resolved; apply color_get_color_like; assumption.
Qed.

(** The sample layout under the default palette. *)
Lemma layout_colors_fully_resolved_witness :
  Forall (fun entry => color_like (snd entry)) (_extract_ci_colors []) /\
  fully_resolved
    (_resolve_layout_colors
       (_convert_banner_colors_to_generic sample_color_layout)
       (_extract_ci_colors [])).
Proof.
  assert (H : Forall (fun entry => color_like (snd entry))
                (_extract_ci_colors [])).
  { change (_extract_ci_colors []) with default_colors.
    unfold default_colors.
    repeat (apply Forall_cons;
            [split; [reflexivity | vm_compute; intuition discriminate]|]).
    apply Forall_nil. }
  split; [exact H|].
  apply (layout_colors_fully_resolved sample_color_layout
           (_extract_ci_colors []) H).
Defined.

(** C6 as stated fails: the color [#{pr] passes the validation of
    [_extract_ci_colors], and resolving [{secondary_color}] with it in the
    note [{secondary_color}imary_color}] leaves [#{primary_color}]. *)
Lemma placeholder_survives_validated_color :
  valid_color (PStr (py "#{pr")) = true /\
  _resolve_layout_colors (_convert_banner_colors_to_generic odd_layout)
    (_extract_ci_colors odd_palette)
  = PDict [ (KStr (py "zones"),
             PDict [ (KStr (py "note"), PStr (py "#{primary_color}")) ]) ] /\
  ~ fully_resolved
      (_resolve_layout_colors (_convert_banner_colors_to_generic odd_layout)
         (_extract_ci_colors odd_palette)).
Proof.
  split; [reflexivity|]. split; [vm_compute; reflexivity|].
  unfold fully_resolved. intros H. vm_compute in H.
  destruct H as [[H _] _]. discriminate.
Qed.


(* ================================================================== *)
(** * Part III.  Further properties of the code                         *)
(* ================================================================== *)

(** ** White space at the ends of a string *)

Lemma lstrip_nonspace (c : char) (s : pystr) :
  is_space c = false -> str_lstrip (c :: s) = c :: s.
Proof. intros H. cbn [str_lstrip]. rewrite H. reflexivity. Qed.

Lemma lstrip_head (s : pystr) (c : char) (r : pystr) :
  str_lstrip s = c :: r -> is_space c = false.
Proof.
  induction s as [|x s IH]; cbn [str_lstrip]; [discriminate|].
  destruct (is_space x) eqn:E; [exact IH|].
  intros H; inversion H; subst; exact E.
Qed.

Lemma lstrip_idempotent (s : pystr) :
  str_lstrip (str_lstrip s) = str_lstrip s.
Proof.
  induction s as [|x s IH]; [reflexivity|]. cbn [str_lstrip].
  destruct (is_space x) eqn:E; [exact IH | apply lstrip_nonspace; exact E].
Qed.

Lemma lstrip_snoc (x : pystr) (c : char) :
  is_space c = false -> exists u, str_lstrip (x ++ [c]) = u ++ [c].
Proof.
  intros Hc. induction x as [|a x IH]; cbn [app str_lstrip].
  - rewrite Hc. exists []. reflexivity.
  - destruct (is_space a); [exact IH | exists (a :: x); reflexivity].
Qed.

Lemma strip_of_stripped (t : pystr) : stripped t -> str_strip t = t.
Proof.
  intros [H1 H2]. unfold str_strip, str_rstrip.
  rewrite H1, H2. apply rev_involutive.
Qed.

Lemma strip_is_stripped (s : pystr) : stripped (str_strip s).
Proof.
  unfold stripped, str_strip, str_rstrip. split.
  - destruct (str_lstrip s) as [|c r] eqn:E; [reflexivity|].
    pose proof (lstrip_head s c r E) as Hc.
    cbn [rev]. destruct (lstrip_snoc (rev r) c Hc) as [u ->].
    rewrite rev_app_distr. cbn [rev app]. apply lstrip_nonspace. exact Hc.
  - rewrite rev_involutive. apply lstrip_idempotent.
Qed.

Lemma stripped_cut (t : pystr) (k : nat) :
  stripped t -> stripped (firstn k t ++ py "...").
Proof.
  intros [H1 _]. change (py "...") with [46%N; 46%N; 46%N]. split.
  - destruct k as [|k]; [reflexivity|].
    destruct t as [|c t]; [reflexivity|].
    cbn [firstn app]. apply lstrip_nonspace. apply (lstrip_head _ _ _ H1).
  - rewrite rev_app_distr. reflexivity.
Qed.

(** ** [InputProcessor]: what the normalised fields look like *)

(** Whatever goes in, [_normalize_text] hands back a string without white
    space at its ends. *)
Lemma normalize_text_stripped (text : pyval) (max_length : Z) :
  stripped (_normalize_text text max_length).
Proof.
  unfold _normalize_text.
  destruct (negb (truthy text) || negb (isinstance_str text));
    [split; reflexivity|].
  destruct text; try (split; reflexivity).
  destruct (len (str_strip s) >? max_length)%Z; [|apply strip_is_stripped].
  unfold slice_to.
  destruct (0 <=? max_length - 3)%Z; apply stripped_cut, strip_is_stripped.
Qed.

(** X1.  [_normalize_text] is idempotent from [max_length] 3 on, and its
    result never has white space at either end: normalising a normalised
    field again changes nothing. *)
Theorem normalize_text_idempotent (text : pyval) (max_length : Z) :
  (3 <= max_length)%Z ->
  _normalize_text (PStr (_normalize_text text max_length)) max_length
    = _normalize_text text max_length /\
  str_strip (_normalize_text text max_length) = _normalize_text text max_length.
Proof.
  intros Hmax.
  pose proof (strip_of_stripped _ (normalize_text_stripped text max_length)) as Hs.
  split; [|exact Hs].
  rewrite normalize_text_fit; [exact Hs|].
  rewrite Hs. apply normalize_text_len_le. exact Hmax.
Qed.

Lemma normalize_text_idempotent_witness :
  (3 <= 10)%Z /\
  _normalize_text
    (PStr (_normalize_text (PStr (py "  Werden Sie Teil unseres Teams!  ")) 10))
    10
  = _normalize_text (PStr (py "  Werden Sie Teil unseres Teams!  ")) 10.
Proof.
  split; [lia|].
  apply (normalize_text_idempotent
           (PStr (py "  Werden Sie Teil unseres Teams!  ")) 10).
  lia.
Defined.

Lemma flat_map_length_le {A B : Type} (f : A -> list B) (l : list A) :
  (forall x, (length (f x) <= 1)%nat) ->
  (length (flat_map f l) <= length l)%nat.
Proof.
  intros H. induction l as [|x l IH]; cbn [flat_map length]; [lia|].
  rewrite length_app. specialize (H x). lia.
Qed.

(** What [_normalize_benefits] returns, for a non-negative [max_items]
    and a [max_length_per_item] of at least 3. *)
Lemma normalize_benefits_spec (benefits : pyval)
    (max_items max_length_per_item : Z) :
  (0 <= max_items)%Z -> (3 <= max_length_per_item)%Z ->
  (len (_normalize_benefits benefits max_items max_length_per_item)
   <= max_items)%Z /\
  Forall (fun b => (1 <= len b <= max_length_per_item)%Z /\ str_strip b = b)
    (_normalize_benefits benefits max_items max_length_per_item).
Proof.
  intros Hitems Hlen. unfold _normalize_benefits.
  destruct (negb (truthy benefits) || negb (isinstance_list benefits));
    [split; [unfold len; cbn; lia | constructor]|].
  destruct benefits; try (split; [unfold len; cbn; lia | constructor]).
  set (f := fun benefit : pyval => _).
  split.
  - unfold len.
    assert (H : (length (flat_map f (slice_to max_items l))
                 <= length (slice_to max_items l))%nat).
    { apply flat_map_length_le. intros x. subst f. cbn beta.
      destruct x; try (cbn [length]; lia).
      destruct (truthy (PStr s)); [|cbn [length]; lia].
      cbv zeta. destruct (truthy (PStr (_normalize_text _ _)));
        cbn [length]; lia. }
    assert (H' : (length (slice_to max_items l) <= Z.to_nat max_items)%nat).
    { unfold slice_to. destruct (0 <=? max_items)%Z eqn:E;
        [|apply Z.leb_gt in E; lia].
      rewrite length_firstn. lia. }
    lia.
  - apply Forall_flat_map. apply Forall_forall. intros x _. subst f. cbn beta.
    destruct x; try constructor.
    destruct (truthy (PStr s)); [|constructor].
    destruct (_normalize_text (PStr (str_strip s)) max_length_per_item)
      as [|c r] eqn:E; [constructor|].
    cbn [truthy]. constructor; [|constructor]. rewrite <- E. split.
    + split; [rewrite E; unfold len; cbn [length]; lia |
              apply normalize_text_len_le; exact Hlen].
    + apply strip_of_stripped, normalize_text_stripped.
Qed.

(** X2.  For a non-negative [max_items] and a [max_length_per_item] of at
    least 3, [_normalize_benefits] returns at most [max_items] benefits,
    none of them empty, none longer than [max_length_per_item], none with
    white space at its ends; values that are no strings are dropped. *)
Theorem normalize_benefits_bounds (benefits : pyval)
    (max_items max_length_per_item : Z) :
  (0 <= max_items)%Z -> (3 <= max_length_per_item)%Z ->
  (len (_normalize_benefits benefits max_items max_length_per_item)
   <= max_items)%Z /\
  Forall (fun b => (1 <= len b <= max_length_per_item)%Z /\ str_strip b = b)
    (_normalize_benefits benefits max_items max_length_per_item).
Proof. exact (normalize_benefits_spec benefits max_items max_length_per_item). Qed.

Lemma normalize_benefits_bounds_witness :
  (0 <= 5)%Z /\ (3 <= 35)%Z /\
  (len (_normalize_benefits
          (PList [ PStr (py "Innovative Projekte"); PInt 7; PStr (py "   ");
                   PStr (py "Remote-Work") ]) 5 35) <= 5)%Z.
Proof.
  split; [lia|]. split; [lia|].
  apply (normalize_benefits_bounds
           (PList [ PStr (py "Innovative Projekte"); PInt 7; PStr (py "   ");
                    PStr (py "Remote-Work") ]) 5 35); lia.
Defined.

(** ** [InputProcessor.process]: what every structured input satisfies *)

Lemma process_fields (streamlit_input : pydict)
    (structured_input : StructuredInput) :
  process streamlit_input = Some structured_input ->
  exists colors,
    _extract_ci_colors_from_streamlit streamlit_input = Some colors /\
    ci_colors structured_input = colors /\
    headline structured_input = text_field streamlit_input "headline" [] 50 /\
    subline structured_input = text_field streamlit_input "subline" [] 60 /\
    company structured_input = text_field streamlit_input "company" [] 30 /\
    location structured_input = text_field streamlit_input "location" [] 25 /\
    stellentitel structured_input
      = text_field streamlit_input "stellentitel" [] 50 /\
    position_long structured_input
      = text_field streamlit_input "position_long" [] 40 /\
    cta structured_input
      = text_field streamlit_input "cta" (py "Jetzt bewerben!") 25 /\
    motiv_prompt structured_input
      = text_field streamlit_input "motiv_prompt" [] 200 /\
    logo_placeholder structured_input
      = text_field streamlit_input "logo_placeholder" (py "[FIRMENLOGO]") 30 /\
    benefits structured_input
      = _normalize_benefits (field streamlit_input "benefits" (PList [])) 5 35.
Proof.
  unfold process, bind.
  destruct (_extract_ci_colors_from_streamlit streamlit_input) as [colors|];
    [|discriminate].
  intros H; inversion H; subst structured_input. exists colors.
  cbn [ci_colors headline subline company location stellentitel position_long
       cta motiv_prompt logo_placeholder benefits].
  repeat split; reflexivity.
Qed.

(** The caps of the fields of a processed input. *)
Lemma process_field_caps (streamlit_input : pydict)
    (structured_input : StructuredInput) :
  process streamlit_input = Some structured_input ->
  (len (headline structured_input) <= 50 /\
   len (subline structured_input) <= 60 /\
   len (company structured_input) <= 30 /\
   len (location structured_input) <= 25 /\
   len (stellentitel structured_input) <= 50 /\
   len (position_long structured_input) <= 40 /\
   len (cta structured_input) <= 25 /\
   len (motiv_prompt structured_input) <= 200 /\
   len (logo_placeholder structured_input) <= 30 /\
   len (benefits structured_input) <= 5)%Z /\
  Forall (fun b => (1 <= len b <= 35)%Z) (benefits structured_input).
Proof.
  intros H. destruct (process_fields _ _ H)
    as (colors & _ & _ & -> & -> & -> & -> & -> & -> & -> & -> & -> & ->).
  unfold text_field.
  destruct (normalize_benefits_spec (field streamlit_input "benefits" (PList []))
              5 35 ltac:(lia) ltac:(lia)) as [Hb Hf].
  repeat split; try (apply normalize_text_len_le; lia); try exact Hb.
  eapply Forall_impl; [|exact Hf]. cbn beta. intros b [Hb' _]. exact Hb'.
Qed.

(** X3.  Every text field of a [StructuredInput] that
    [InputProcessor.process] returns is within its cap: headline and
    stellentitel 50, subline 60, company and logo placeholder 30, location
    and call to action 25, long position 40, motiv prompt 200 characters;
    there are at most 5 benefits, each of 1 to 35 characters. *)
Theorem process_caps_every_field (streamlit_input : pydict)
    (structured_input : StructuredInput) :
  process streamlit_input = Some structured_input ->
  (len (headline structured_input) <= 50 /\
   len (subline structured_input) <= 60 /\
   len (company structured_input) <= 30 /\
   len (location structured_input) <= 25 /\
   len (stellentitel structured_input) <= 50 /\
   len (position_long structured_input) <= 40 /\
   len (cta structured_input) <= 25 /\
   len (motiv_prompt structured_input) <= 200 /\
   len (logo_placeholder structured_input) <= 30 /\
   len (benefits structured_input) <= 5)%Z /\
  Forall (fun b => (1 <= len b <= 35)%Z) (benefits structured_input).
Proof. exact (process_field_caps streamlit_input structured_input). Qed.

Lemma process_caps_every_field_witness :
  process sample_streamlit_input = Some sample_structured_input /\
  (len (headline sample_structured_input) <= 50)%Z.
Proof.
  split; [vm_compute; reflexivity|].
  apply (process_caps_every_field sample_streamlit_input
           sample_structured_input).
  vm_compute; reflexivity.
Defined.

(** The keys of the validated palette. *)
Lemma extract_ci_colors_keys (colors : pydict) :
  map fst (_extract_ci_colors colors) = map fst default_colors.
Proof.
  unfold _extract_ci_colors. rewrite map_map.
  apply map_ext. intros [key default]. cbn beta iota.
  destruct (dict_get_default colors key (PStr default)) as [| | |v| | |];
    try reflexivity.
  destruct (valid_color (PStr v)); reflexivity.
Qed.

(** Every color of the validated palette passes the validation. *)
Lemma extract_ci_colors_valid (colors : pydict) :
  Forall (fun entry => hex_like (snd entry)) (_extract_ci_colors colors).
Proof.
  assert (Hd : Forall (fun entry => hex_like (snd entry)) default_colors).
  { unfold default_colors.
    repeat (apply Forall_cons; [split; [reflexivity | vm_compute; auto]|]).
    apply Forall_nil. }
  unfold _extract_ci_colors. apply Forall_map.
  eapply Forall_impl; [|exact Hd]. intros [key default] Hdef. cbn [snd] in Hdef.
  destruct (extract_entry_spec colors key default Hdef) as (v & -> & Hv).
  cbn [snd]. destruct Hv as [(c & _ & Hc & ->) | (_ & ->)]; assumption.
Qed.

Lemma extract_from_streamlit_source (streamlit_input : pydict)
    (colors : list (pystr * pystr)) :
  _extract_ci_colors_from_streamlit streamlit_input = Some colors ->
  exists source, colors = _extract_ci_colors source.
Proof.
  unfold _extract_ci_colors_from_streamlit.
  destruct (dict_get streamlit_input (py "ci_colors_palette")) as [[| | | | |palette|]|];
    try (intros H; inversion H; eexists; reflexivity);
    (destruct (truthy (PDict _));
     [intros H; inversion H; eexists; reflexivity|];
     destruct (truthy _);
     [destruct (dict_get_default streamlit_input (py "corporate_colors") (PDict []));
      try discriminate|];
     intros H; inversion H; eexists; reflexivity).
Qed.

(** The keys and the validation of the CI colors of a processed input. *)
Lemma process_colors_spec (streamlit_input : pydict)
    (structured_input : StructuredInput) :
  process streamlit_input = Some structured_input ->
  map fst (ci_colors structured_input) =
    [py "primary"; py "secondary"; py "accent"; py "background"; py "text"] /\
  Forall (fun entry => hex_like (snd entry)) (ci_colors structured_input).
Proof.
  intros H. destruct (process_fields _ _ H) as (colors & Hc & -> & _).
  destruct (extract_from_streamlit_source _ _ Hc) as [source ->].
  split; [rewrite extract_ci_colors_keys; reflexivity |
          apply extract_ci_colors_valid].
Qed.

(** X4.  The CI colors of every [StructuredInput] that
    [InputProcessor.process] returns have exactly the five keys primary,
    secondary, accent, background and text, and each color starts with [#]
    and has 4 or 7 characters, whichever of the three sources of the UI
    (palette, single fields, corporate colors) it came from. *)
Theorem process_colors_are_validated (streamlit_input : pydict)
    (structured_input : StructuredInput) :
  process streamlit_input = Some structured_input ->
  map fst (ci_colors structured_input) =
    [py "primary"; py "secondary"; py "accent"; py "background"; py "text"] /\
  Forall (fun entry => hex_like (snd entry)) (ci_colors structured_input).
Proof. exact (process_colors_spec streamlit_input structured_input). Qed.

Lemma process_colors_are_validated_witness :
  process colorful_streamlit_input = Some colorful_structured_input /\
  ci_colors colorful_structured_input =
    [ (py "primary", py "#C8102E"); (py "secondary", py "#B4D9F7");
      (py "accent", py "#FC0"); (py "background", py "#FFFFFF");
      (py "text", py "#000000") ] /\
  map fst (ci_colors colorful_structured_input) =
    [py "primary"; py "secondary"; py "accent"; py "background"; py "text"] /\
  Forall (fun entry => hex_like (snd entry))
    (ci_colors colorful_structured_input).
Proof.
  split; [vm_compute; reflexivity|]. split; [vm_compute; reflexivity|].
  apply (process_colors_are_validated colorful_streamlit_input
           colorful_structured_input).
  vm_compute; reflexivity.
Defined.

Lemma flat_map_nil_iff {A B : Type} (g : A -> list B) (l : list A) :
  flat_map g l = [] <-> Forall (fun e => g e = []) l.
Proof.
  induction l as [|x l IH]; cbn [flat_map].
  - split; [constructor | reflexivity].
  - split.
    + intros H. apply app_eq_nil in H. destruct H as [H1 H2].
      constructor; [exact H1 | apply IH; exact H2].
    + intros H. inversion H; subst. rewrite H2. apply IH. assumption.
Qed.

(** X5.  [InputProcessor.process] raises in exactly one situation: the UI
    gave no palette dictionary and none of the five single color fields,
    and its [corporate_colors] is a truthy value that is no dictionary (a
    non-empty list or string, say).  Every other input is processed. *)
Theorem process_raises_iff (streamlit_input : pydict) :
  process streamlit_input = None <->
  (forall palette,
     dict_get streamlit_input (py "ci_colors_palette") <> Some (PDict palette)) /\
  Forall (fun name => dict_get_default streamlit_input name PNone = PNone)
    color_field_names /\
  exists v,
    dict_get streamlit_input (py "corporate_colors") = Some v /\
    truthy v = true /\ isinstance_dict v = false.
Proof.
  assert (Hp : process streamlit_input = None <->
               _extract_ci_colors_from_streamlit streamlit_input = None).
  { unfold process, bind.
    destruct (_extract_ci_colors_from_streamlit streamlit_input);
      split; intros H; try reflexivity; discriminate. }
  rewrite Hp. clear Hp. unfold _extract_ci_colors_from_streamlit.
  set (g := fun entry : pystr * pystr => _).
  set (entries := [ (py "primary", py "primary_color"); _; _; _; _ ]).
  assert (Hfields : truthy (PDict (flat_map g entries)) = false <->
            Forall (fun name => dict_get_default streamlit_input name PNone = PNone)
              color_field_names).
  { assert (E : flat_map g entries = [] <->
              Forall (fun name =>
                        dict_get_default streamlit_input name PNone = PNone)
                color_field_names).
    { rewrite flat_map_nil_iff.
      change color_field_names with (map snd entries).
      rewrite Forall_map.
      split; apply Forall_impl; intros [k name]; subst g; cbn [snd];
        destruct (dict_get_default streamlit_input name PNone);
        intros H; try reflexivity; discriminate. }
    cbn [truthy]. destruct (flat_map g entries);
      [split; [intros _; apply E; reflexivity | reflexivity]|].
    split; [discriminate|]. intros H. apply E in H. discriminate. }
  destruct (truthy (PDict (flat_map g entries))) eqn:Et.
  - split.
    + destruct (dict_get streamlit_input (py "ci_colors_palette"))
        as [[| | | | | |]|]; discriminate.
    + intros (_ & Hf & _). apply Hfields in Hf. discriminate.
  - assert (Hf : Forall (fun name =>
                   dict_get_default streamlit_input name PNone = PNone)
                   color_field_names) by (apply Hfields; reflexivity).
    unfold dict_get_default. cbv zeta.
    destruct (dict_get streamlit_input (py "ci_colors_palette")) as [pv|] eqn:Ep.
    + destruct pv;
        try (split; [discriminate | intros (Hn & _); exfalso; eapply Hn; reflexivity]);
        (destruct (dict_get streamlit_input (py "corporate_colors")) as [v|] eqn:Ec;
         [|split; [discriminate | intros (_ & _ & v & Hv & _); discriminate]];
         destruct (truthy v) eqn:Tv;
         [|split; [discriminate |
                   intros (_ & _ & v' & Hv & Tv' & _); inversion Hv; subst;
                   congruence]];
         destruct v; cbn [isinstance_dict];
         try (split; [discriminate |
                      intros (_ & _ & v' & Hv & _ & Iv); inversion Hv; subst;
                      discriminate]);
         (split; [intros _; split; [intros palette; discriminate|];
                  split; [exact Hf|]; eexists; repeat split; eauto |
                  reflexivity])).
    + destruct (dict_get streamlit_input (py "corporate_colors")) as [v|] eqn:Ec;
        [|split; [discriminate | intros (_ & _ & v & Hv & _); discriminate]].
      destruct (truthy v) eqn:Tv;
        [|split; [discriminate |
                  intros (_ & _ & v' & Hv & Tv' & _); inversion Hv; subst;
                  congruence]].
      destruct v; cbn [isinstance_dict];
        try (split; [discriminate |
                     intros (_ & _ & v' & Hv & _ & Iv); inversion Hv; subst;
                     discriminate]);
        (split; [intros _; split; [intros palette; discriminate|];
                 split; [exact Hf|]; eexists; repeat split; eauto |
                 reflexivity]).
Qed.

(** X6.  [InputProcessor.process] keeps at most 5 benefits, so with a
    layout whose [many_benefits] rule uses the default trigger ['count > 5']
    no [many_benefits] adjustment is among those [_apply_adaptive_rules]
    returns, however many benefits the UI handed over. *)
Theorem default_many_benefits_rule_never_fires (int_other : pystr -> option Z)
    (streamlit_input : pydict)
    (structured_input : StructuredInput) (layout_def : pydict)
    (adjustments : list pydict) :
  process streamlit_input = Some structured_input ->
  (forall rule, contains_rule layout_def "many_benefits" rule ->
                uses_default_count rule) ->
  _apply_adaptive_rules int_other layout_def structured_input = Some adjustments ->
  ~ (exists a, In a adjustments /\ names_rule a "many_benefits").
Proof.
  intros Hp Hdef Ha.
  destruct (process_field_caps _ _ Hp) as [(_ & _ & _ & _ & _ & _ & _ & _ & _ & Hlen) _].
  destruct (apply_adaptive_rules_spec _ _ _ _ Ha)
    as (first & second & -> & _ & E2 & N1 & _).
  intros [a [Hi Hn]].
  apply in_app_or in Hi. destruct Hi as [Hi|Hi].
  - assert (py "many_benefits" = py "long_headline")
      by (apply (names_rule_functional a); auto).
    discriminate.
  - apply check_rule_spec in E2.
    destruct E2 as [[_ E] | [Hin (rule & t & action & Hget & Ht & _ & Hcase)]].
    + rewrite <- (app_nil_r first) in E at 2. apply app_inv_head in E.
      subst second. destruct Hi.
    + destruct Hcase as [[Hgt _] | [_ E]].
      * specialize (Hdef rule (conj Hin Hget)).
        unfold uses_default_count in Hdef. unfold rule_trigger, bind in Ht.
        rewrite Hdef in Ht. vm_compute in Ht. inversion Ht; subst t. lia.
      * rewrite <- (app_nil_r first) in E at 2. apply app_inv_head in E.
        subst second. destruct Hi.
Qed.

Lemma default_many_benefits_rule_never_fires_witness :
  process busy_streamlit_input = Some busy_structured_input /\
  _apply_adaptive_rules ascii_only_int sample_layout busy_structured_input
    = Some busy_adjustments /\
  ~ (exists a, In a busy_adjustments /\ names_rule a "many_benefits").
Proof.
  split; [vm_compute; reflexivity|]. split; [vm_compute; reflexivity|].
  apply (default_many_benefits_rule_never_fires ascii_only_int
           busy_streamlit_input
           busy_structured_input sample_layout busy_adjustments).
  - vm_compute; reflexivity.
  - intros rule [_ Hget]. vm_compute in Hget. inversion Hget; subst rule.
    vm_compute. reflexivity.
  - vm_compute; reflexivity.
Defined.

(** ** [LayoutIntegrator]: what the color passes keep *)

Lemma shape_convert_colors (v : pyval) :
  shape (convert_colors v) = shape v.
Proof.
  revert v. fix IH 1. intros v.
  destruct v as [ | b | z | s | l | d | id t]; try reflexivity.
  - cbn [convert_colors shape]. f_equal.
    induction l as [|x l IHl]; cbn [map]; [reflexivity|].
    f_equal; [apply IH | exact IHl].
  - cbn [convert_colors shape]. f_equal.
    induction d as [|[key x] d IHd]; cbn [map]; [reflexivity|].
    f_equal; [|exact IHd].
    pose proof (IH x) as Hx.
    destruct x as [ | b | z | s | l | d' | id t];
      try (f_equal; exact Hx).
    destruct (key_is key (py "background_color")); [|reflexivity].
    destruct (str_contains ph_secondary s); [reflexivity|].
    destruct (str_contains ph_primary s); [reflexivity|].
    destruct (str_contains ph_accent s); reflexivity.
Qed.

Lemma shape_replace_colors (primary secondary accent background : pystr)
    (v : pyval) :
  shape (replace_colors primary secondary accent background v) = shape v.
Proof.
  revert v. fix IH 1. intros v.
  destruct v as [ | b | z | s | l | d | id t]; try reflexivity.
  - cbn [replace_colors shape]. f_equal.
    induction l as [|x l IHl]; cbn [map]; [reflexivity|].
    f_equal; [apply IH | exact IHl].
  - cbn [replace_colors shape]. f_equal.
    induction d as [|[key x] d IHd]; cbn [map]; [reflexivity|].
    f_equal; [|exact IHd].
    pose proof (IH x) as Hx.
    destruct x as [ | b | z | s | l | d' | id t];
      try (f_equal; exact Hx).
    destruct (key_is key (py "background_color")); reflexivity.
Qed.

(** X7.  The two color passes only touch the text of strings: the
    structure that comes out of [_convert_banner_colors_to_generic] and
    [_resolve_layout_colors] has the keys of the layout definition in their
    order, lists of the same lengths and the same numbers, booleans and
    other scalars, whatever the CI colors are. *)
Theorem color_passes_keep_the_shape (layout_def : pyval)
    (ci_colors : list (pystr * pystr)) :
  shape (_resolve_layout_colors (_convert_banner_colors_to_generic layout_def)
           ci_colors)
  = shape layout_def.
Proof.
  unfold _resolve_layout_colors, _convert_banner_colors_to_generic.
  rewrite shape_replace_colors. apply shape_convert_colors.
Qed.

(** [replace] leaves a string without the pattern as it is. *)
Lemma str_replace_absent (old new s : pystr) :
  str_contains old s = false -> str_replace old new s = s.
Proof.
  destruct old as [|o0 old].
  - destruct s; discriminate.
  - cbn [str_replace]. induction s as [|c s IH]; [reflexivity|].
    rewrite str_contains_cons. intros H. apply orb_false_iff in H.
    destruct H as [H1 H2]. cbn [replace_scan]. rewrite H1.
    f_equal. apply IH. exact H2.
Qed.

Lemma convert_str_plain (s : pystr) :
  has_placeholder s = false -> convert_str s = s.
Proof.
  intros H. pose proof (proj1 (has_placeholder_false s) H) as Hp.
  unfold convert_str. destruct (str_contains (py "background_color") s);
    [|reflexivity].
  rewrite (str_replace_absent ph_secondary) by (apply Hp; cbn; tauto).
  rewrite (str_replace_absent ph_primary) by (apply Hp; cbn; tauto).
  apply str_replace_absent. apply Hp; cbn; tauto.
Qed.

Lemma standard_colors_of_mapping (primary secondary accent : pystr) :
  map fst (color_mapping primary secondary accent) = standard_colors.
Proof. reflexivity. Qed.

Lemma replace_str_color_free (primary secondary accent background s : pystr) :
  color_free s -> replace_str primary secondary accent background s = s.
Proof.
  intros [Hp Hc]. pose proof (proj1 (has_placeholder_false s) Hp) as Hph.
  unfold replace_str, replace_if_in.
  rewrite (Hph ph_primary) by (cbn; tauto).
  rewrite (Hph ph_secondary) by (cbn; tauto).
  rewrite (Hph ph_accent) by (cbn; tauto).
  rewrite (Hph ph_background) by (cbn; tauto).
  assert (H : forall mapping : list (pystr * pystr),
            (forall c, In c (map fst mapping) -> str_contains c s = false) ->
            fold_left
              (fun obj entry =>
                 if str_contains (fst entry) obj
                 then str_replace (fst entry) (snd entry) obj else obj)
              mapping s = s).
  { induction mapping as [|e mapping IH]; intros Hm; [reflexivity|].
    cbn [fold_left]. rewrite (Hm (fst e)) by (left; reflexivity).
    apply IH. intros c Hin. apply Hm. right; exact Hin. }
  apply H. rewrite standard_colors_of_mapping. exact Hc.
Qed.

Lemma replace_background_color_free (primary secondary accent background s : pystr) :
  color_free s ->
  replace_background primary secondary accent background s = s.
Proof.
  intros [Hp Hc]. pose proof (proj1 (has_placeholder_false s) Hp) as Hph.
  unfold replace_background.
  rewrite (Hph ph_primary) by (cbn; tauto).
  rewrite (Hph ph_secondary) by (cbn; tauto).
  rewrite (Hph ph_accent) by (cbn; tauto).
  rewrite (Hph ph_background) by (cbn; tauto).
  assert (H : forall (mapping : list (pystr * pystr)) (stored : pystr),
            (forall c, In c (map fst mapping) -> str_contains c s = false) ->
            fold_left
              (fun stored entry =>
                 if str_contains (fst entry) s
                 then str_replace (fst entry) (snd entry) s else stored)
              mapping stored = stored).
  { induction mapping as [|e mapping IH]; intros stored Hm; [reflexivity|].
    cbn [fold_left]. rewrite (Hm (fst e)) by (left; reflexivity).
    apply IH. intros c Hin. apply Hm. right; exact Hin. }
  apply H. rewrite standard_colors_of_mapping. exact Hc.
Qed.

(** X8.  A layout definition whose strings hold no placeholder and none of
    the ten standard colors passes through
    [_convert_banner_colors_to_generic] and [_resolve_layout_colors]
    unchanged, whatever the CI colors are. *)
Theorem color_free_layout_is_unchanged (layout_def : pyval)
    (ci_colors : list (pystr * pystr)) :
  all_strings color_free layout_def ->
  _resolve_layout_colors (_convert_banner_colors_to_generic layout_def)
    ci_colors
  = layout_def.
Proof.
  unfold _resolve_layout_colors, _convert_banner_colors_to_generic.
  set (p := color_get ci_colors (py "primary") _).
  set (s := color_get ci_colors (py "secondary") _).
  set (a := color_get ci_colors (py "accent") _).
  set (b := color_get ci_colors (py "background") _).
  clearbody p s a b. revert layout_def. fix IH 1. intros v.
  destruct v as [ | b0 | z | str | l | d | id t]; try reflexivity.
  - cbn [all_strings convert_colors replace_colors]. intros H.
    rewrite convert_str_plain by apply H.
    rewrite replace_str_color_free by exact H. reflexivity.
  - cbn [all_strings convert_colors replace_colors]. intros H. f_equal.
    induction l as [|x l IHl]; cbn [map]; [reflexivity|].
    destruct H as [Hx Hl]. f_equal; [apply IH; exact Hx | apply IHl; exact Hl].
  - cbn [all_strings convert_colors replace_colors]. intros H. f_equal.
    induction d as [|[key x] d IHd]; cbn [map]; [reflexivity|].
    destruct H as [Hx Hd]. f_equal; [|apply IHd; exact Hd].
    pose proof (IH x Hx) as Hr.
    destruct x as [ | b0 | z | str | l | d' | id t];
      try reflexivity; try (exact (f_equal (pair key) Hr)).
    cbn [all_strings] in Hx.
    pose proof (proj1 (has_placeholder_false str) (proj1 Hx)) as Hph.
    cbv beta iota.
    destruct (key_is key (py "background_color")) eqn:Ek; cbv beta iota.
    + rewrite (Hph ph_secondary) by (cbn; tauto).
      rewrite (Hph ph_primary) by (cbn; tauto).
      rewrite (Hph ph_accent) by (cbn; tauto).
      cbv beta iota. rewrite Ek.
      rewrite convert_str_plain by apply Hx.
      rewrite replace_background_color_free by exact Hx.
      rewrite replace_str_color_free by exact Hx. reflexivity.
    + rewrite Ek. rewrite convert_str_plain by apply Hx.
      rewrite replace_str_color_free by exact Hx. reflexivity.
Qed.

Lemma color_free_layout_is_unchanged_witness :
  all_strings color_free (PDict sample_default_layout) /\
  _resolve_layout_colors
    (_convert_banner_colors_to_generic (PDict sample_default_layout))
    (_extract_ci_colors [])
  = PDict sample_default_layout.
Proof.
  assert (H : all_strings color_free (PDict sample_default_layout)).
  { cbn [all_strings sample_default_layout]. repeat split; try reflexivity.
    intros c Hin. cbn [standard_colors In] in Hin.
    repeat (destruct Hin as [<- | Hin]; [reflexivity|]). destruct Hin. }
  split; [exact H|].
  apply (color_free_layout_is_unchanged (PDict sample_default_layout)
           (_extract_ci_colors []) H).
Defined.

(** What the two passes leave under the first [background_color] key of a
    dictionary. *)
Lemma banner_lookup (primary secondary accent background : pystr)
    (d : pydict) (v : pystr) :
  dict_get d (py "background_color") = Some (PStr v) ->
  exists d',
    replace_colors primary secondary accent background (convert_colors (PDict d))
      = PDict d' /\
    dict_get d' (py "background_color") =
      Some (PStr
        (replace_str primary secondary accent background
           (replace_background primary secondary accent background
              (if str_contains ph_secondary v
               then py "professional dark background"
               else if str_contains ph_primary v
               then py "professional light background"
               else if str_contains ph_accent v
               then py "highlighted accent area"
               else convert_str v)))).
Proof.
  intros H.
  assert (E : exists (F G : pykey * pyval -> pykey * pyval),
            (forall d0, replace_colors primary secondary accent background
                          (convert_colors (PDict d0))
                        = PDict (map G (map F d0))) /\
            (forall k x, fst (G (F (k, x))) = k) /\
            (forall k w, key_is k (py "background_color") = true ->
               snd (G (F (k, PStr w))) =
               PStr
                 (replace_str primary secondary accent background
                    (replace_background primary secondary accent background
                       (if str_contains ph_secondary w
                        then py "professional dark background"
                        else if str_contains ph_primary w
                        then py "professional light background"
                        else if str_contains ph_accent w
                        then py "highlighted accent area"
                        else convert_str w))))).
  { eexists. eexists. split; [intros d0; cbn [convert_colors replace_colors];
                              reflexivity|].
    split.
    - intros k x. destruct x; try reflexivity.
      destruct (key_is k (py "background_color")) eqn:Ek; cbv beta iota;
        rewrite ?Ek;
        [destruct (str_contains ph_secondary s);
         [|destruct (str_contains ph_primary s);
           [|destruct (str_contains ph_accent s)]]|];
        cbv beta iota; rewrite ?Ek; reflexivity.
    - intros k w Ek. cbv beta iota. rewrite Ek.
      destruct (str_contains ph_secondary w);
        [|destruct (str_contains ph_primary w);
          [|destruct (str_contains ph_accent w)]];
        cbv beta iota; rewrite Ek; reflexivity. }
  destruct E as (F & G & Hmap & Hkey & Hval).
  exists (map G (map F d)). split; [apply Hmap|].
  clear Hmap. induction d as [|[key x] d IH]; [discriminate|].
  cbn [dict_get] in H. cbn [map].
  specialize (Hkey key x). specialize (Hval key).
  destruct (G (F (key, x))) as [key' x'] eqn:Eg. cbn [fst] in Hkey. subst key'.
  cbn [dict_get].
  destruct (key_is key (py "background_color")) eqn:Ek.
  - inversion H; subst x. specialize (Hval v eq_refl).
    rewrite Eg in Hval. cbn [snd] in Hval. rewrite Hval. reflexivity.
  - apply IH. exact H.
Qed.

(** X9.  A banner background never receives a CI color: when the string
    under the [background_color] key of a dictionary names
    [{secondary_color}], the two passes leave the generic text
    [professional dark background] there; when it names [{primary_color}]
    (and not the secondary one), [professional light background]; when it
    names only [{accent_color}], [highlighted accent area]; in each case
    whatever the CI colors are. *)
Theorem banner_background_becomes_generic (d : pydict) (v : pystr)
    (ci_colors : list (pystr * pystr)) :
  dict_get d (py "background_color") = Some (PStr v) ->
  exists d',
    _resolve_layout_colors (_convert_banner_colors_to_generic (PDict d))
      ci_colors = PDict d' /\
    (str_contains ph_secondary v = true ->
     dict_get d' (py "background_color")
       = Some (PStr (py "professional dark background"))) /\
    (str_contains ph_secondary v = false ->
     str_contains ph_primary v = true ->
     dict_get d' (py "background_color")
       = Some (PStr (py "professional light background"))) /\
    (str_contains ph_secondary v = false ->
     str_contains ph_primary v = false ->
     str_contains ph_accent v = true ->
     dict_get d' (py "background_color")
       = Some (PStr (py "highlighted accent area"))).
Proof.
  intros H. unfold _resolve_layout_colors, _convert_banner_colors_to_generic.
  set (p := color_get ci_colors (py "primary") _).
  set (s := color_get ci_colors (py "secondary") _).
  set (a := color_get ci_colors (py "accent") _).
  set (b := color_get ci_colors (py "background") _).
  destruct (banner_lookup p s a b d v H) as (d' & Hd & Hl).
  exists d'. split; [exact Hd|]. rewrite Hl.
  split; [|split].
  - intros ->. reflexivity.
  - intros -> ->. reflexivity.
  - intros -> -> ->. reflexivity.
Qed.

Lemma banner_background_becomes_generic_witness :
  dict_get [ (KStr (py "background_color"), PStr (py "solid {primary_color}")) ]
    (py "background_color") = Some (PStr (py "solid {primary_color}")) /\
  exists d',
    _resolve_layout_colors
      (_convert_banner_colors_to_generic
         (PDict [ (KStr (py "background_color"),
                   PStr (py "solid {primary_color}")) ]))
      (_extract_ci_colors [])
    = PDict d' /\
    (str_contains ph_secondary (py "solid {primary_color}") = true ->
     dict_get d' (py "background_color")
       = Some (PStr (py "professional dark background"))) /\
    (str_contains ph_secondary (py "solid {primary_color}") = false ->
     str_contains ph_primary (py "solid {primary_color}") = true ->
     dict_get d' (py "background_color")
       = Some (PStr (py "professional light background"))) /\
    (str_contains ph_secondary (py "solid {primary_color}") = false ->
     str_contains ph_primary (py "solid {primary_color}") = false ->
     str_contains ph_accent (py "solid {primary_color}") = true ->
     dict_get d' (py "background_color")
       = Some (PStr (py "highlighted accent area"))).
Proof.
  split; [reflexivity|].
  apply (banner_background_becomes_generic
           [ (KStr (py "background_color"), PStr (py "solid {primary_color}")) ]
           (py "solid {primary_color}") (_extract_ci_colors [])).
  reflexivity.
Defined.

(** ** [_apply_adaptive_rules]: when it raises *)




(** The trigger [length > ٥٠]: an interpreter whose [int] reads the
    Arabic-Indic digits parses it to 50 and the rule does not fire on a
    headline of 50 characters; one whose [int] rejects them raises. *)
Example arabic_indic_trigger :
  _apply_adaptive_rules arabic_indic_int arabic_indic_layout
    sample_structured_input = Some [] /\
  _apply_adaptive_rules ascii_only_int arabic_indic_layout
    sample_structured_input = None.
Proof. split; vm_compute; reflexivity. Qed.

(** ** [_determine_motiv_treatment]: the prompt is never lost *)

Lemma str_startswith_prefix (p t : pystr) : str_startswith p (p ++ t) = true.
Proof. apply str_startswith_app. exists t. reflexivity. Qed.

Lemma enhance_motiv_description_prefix (repr_of : pyval -> pystr)
    (original_prompt : pystr) (integration_rules : pyval) (r : pystr) :
  _enhance_motiv_description repr_of original_prompt integration_rules = Some r ->
  str_startswith original_prompt r = true /\
  (truthy integration_rules = false -> r = original_prompt).
Proof.
  unfold _enhance_motiv_description.
  destruct (truthy integration_rules) eqn:T; cbn [negb].
  - destruct integration_rules; try discriminate.
    destruct (truthy (PList _)); intros H; inversion H; subst r;
      (split; [|discriminate]).
    + apply str_startswith_prefix.
    + rewrite <- (app_nil_r original_prompt) at 2. apply str_startswith_prefix.
  - intros H; inversion H; subst r. split; [|reflexivity].
    rewrite <- (app_nil_r original_prompt) at 2. apply str_startswith_prefix.
Qed.

(** X11.  Whenever [_determine_motiv_treatment] returns, the motiv prompt
    of the input is kept verbatim under [original_prompt], and the
    [enhanced_description] begins with it: layout rules only append to the
    prompt.  Without integration rules the enhanced description is the
    prompt itself. *)
Theorem motiv_treatment_keeps_the_prompt (repr_of : pyval -> pystr)
    (layout_def : pydict) (structured_input : StructuredInput)
    (treatment : pydict) :
  _determine_motiv_treatment repr_of layout_def structured_input
    = Some treatment ->
  dict_get treatment (py "original_prompt")
    = Some (PStr (motiv_prompt structured_input)) /\
  exists enhanced,
    dict_get treatment (py "enhanced_description") = Some (PStr enhanced) /\
    str_startswith (motiv_prompt structured_input) enhanced = true /\
    (forall motiv_integration,
       dict_get_default layout_def (py "motiv_integration") (PDict [])
         = PDict motiv_integration ->
       truthy (dict_get_default motiv_integration
                 (py "motiv_description_integration") (PDict [])) = false ->
       enhanced = motiv_prompt structured_input).
Proof.
  unfold _determine_motiv_treatment.
  destruct (dict_get_default layout_def (py "motiv_integration") (PDict []))
    as [| | | | |mi|] eqn:Em; try discriminate.
  unfold bind.
  destruct (_enhance_motiv_description repr_of (motiv_prompt structured_input) _)
    as [enhanced|] eqn:Ee; [|discriminate].
  intros H; inversion H; subst treatment. split; [reflexivity|].
  exists enhanced. split; [reflexivity|].
  destruct (enhance_motiv_description_prefix _ _ _ _ Ee) as [Hp Hn].
  split; [exact Hp|].
  intros mi' Hmi Ht. inversion Hmi; subst mi'. apply Hn. exact Ht.
Qed.

Lemma motiv_treatment_keeps_the_prompt_witness :
  _determine_motiv_treatment (fun _ => []) motiv_layout
    colorful_structured_input = Some sample_motiv_treatment /\
  motiv_prompt colorful_structured_input
    = py "Pflegekraft im Gespräch mit einer Patientin" /\
  dict_get sample_motiv_treatment (py "enhanced_description")
    = Some (PStr (py "Pflegekraft im Gespräch mit einer Patientin. Komposition: linke Bildhälfte, Beleuchtung: weiches Tageslicht")) /\
  dict_get sample_motiv_treatment (py "original_prompt")
    = Some (PStr (motiv_prompt colorful_structured_input)) /\
  exists enhanced,
    dict_get sample_motiv_treatment (py "enhanced_description")
      = Some (PStr enhanced) /\
    str_startswith (motiv_prompt colorful_structured_input) enhanced = true.
Proof.
  split; [vm_compute; reflexivity|]. split; [vm_compute; reflexivity|].
  split; [vm_compute; reflexivity|].
  destruct (motiv_treatment_keeps_the_prompt (fun _ => []) motiv_layout
              colorful_structured_input sample_motiv_treatment
              ltac:(vm_compute; reflexivity))
    as (Horiginal & enhanced & Henhanced & Hstarts & _).
  split; [exact Horiginal|]. exists enhanced. split; assumption.
Defined.

(** ** [_calculate_layout_metrics] on a processed input *)

Lemma total_length_le (c : Z) (items : list pystr) :
  Forall (fun b => (len b <= c)%Z) items ->
  (0 <= total_length items <= c * len items)%Z.
Proof.
  unfold total_length.
  assert (H : forall acc, Forall (fun b => (len b <= c)%Z) items ->
            (acc <= fold_left Z.add (map (fun b => len b) items) acc
             <= acc + c * len items)%Z).
  { induction items as [|b items IH]; intros acc Hf; cbn [map fold_left].
    - unfold len; cbn; lia.
    - inversion Hf; subst. specialize (IH (acc + len b)%Z H2).
      assert (0 <= len b)%Z by (unfold len; lia).
      unfold len in *. cbn [length]. lia. }
  intros Hf. specialize (H 0%Z Hf). lia.
Qed.

(** X12.  For a structured input that [InputProcessor.process] returned,
    the metrics of [_calculate_layout_metrics] stay within fixed bounds:
    at most 3 text elements, at most 5 benefits, exactly 5 CI colors, and a
    total content length of at most 295 characters (50 + 30 + 40 for
    headline, company and position, 5 times 35 for the benefits). *)
Theorem layout_metrics_are_bounded (streamlit_input layout_def : pydict)
    (structured_input : StructuredInput) (metrics : pydict) :
  process streamlit_input = Some structured_input ->
  _calculate_layout_metrics layout_def structured_input = Some metrics ->
  exists elements count total,
    dict_get metrics (py "text_elements_count") = Some (PInt elements) /\
    dict_get metrics (py "benefits_count") = Some (PInt count) /\
    dict_get metrics (py "total_content_length") = Some (PInt total) /\
    dict_get metrics (py "ci_colors_count") = Some (PInt 5) /\
    (0 <= elements <= 3)%Z /\ (0 <= count <= 5)%Z /\ (0 <= total <= 295)%Z.
Proof.
  intros Hp Hm.
  destruct (process_field_caps _ _ Hp)
    as [(Hh & _ & Hc & _ & _ & Hl & _ & _ & _ & Hb) Hf].
  destruct (process_colors_spec _ _ Hp) as [Hk _].
  assert (H5 : len (ci_colors structured_input) = 5%Z).
  { unfold len. rewrite <- (length_map fst), Hk. reflexivity. }
  assert (Ht : (0 <= total_length (benefits structured_input)
                <= 35 * len (benefits structured_input))%Z).
  { apply total_length_le. eapply Forall_impl; [|exact Hf].
    cbn beta. intros b Hb'. lia. }
  unfold _calculate_layout_metrics, bind in Hm.
  destruct (value_len _) as [zones_count|]; [|discriminate].
  inversion Hm; subst metrics. clear Hm.
  do 3 eexists.
  split; [reflexivity|]. split; [reflexivity|]. split; [reflexivity|].
  split; [cbn [dict_get]; rewrite H5; reflexivity|].
  assert (H0 : forall s : pystr, (0 <= len s)%Z) by (intros; unfold len; lia).
  pose proof (H0 (headline structured_input)).
  pose proof (H0 (company structured_input)).
  pose proof (H0 (position_long structured_input)).
  split; [|split].
  - clear. unfold len.
    destruct (headline structured_input), (company structured_input),
      (position_long structured_input); cbn [filter truthy length]; lia.
  - unfold len in *. lia.
  - cbn [fold_left]. lia.
Qed.

Lemma layout_metrics_are_bounded_witness :
  process sample_streamlit_input = Some sample_structured_input /\
  exists metrics,
    _calculate_layout_metrics sample_layout sample_structured_input
      = Some metrics /\
    exists elements count total,
      dict_get metrics (py "text_elements_count") = Some (PInt elements) /\
      dict_get metrics (py "benefits_count") = Some (PInt count) /\
      dict_get metrics (py "total_content_length") = Some (PInt total) /\
      dict_get metrics (py "ci_colors_count") = Some (PInt 5) /\
      (0 <= elements <= 3)%Z /\ (0 <= count <= 5)%Z /\ (0 <= total <= 295)%Z.
Proof.
  split; [vm_compute; reflexivity|].
  eexists. split; [vm_compute; reflexivity|].
  apply (layout_metrics_are_bounded sample_streamlit_input sample_layout
           sample_structured_input).
  - vm_compute; reflexivity.
  - vm_compute; reflexivity.
Defined.

(** ** [PromptFinalizer]: metrics, recommendations and the validation *)

(** X13.  The prompt metrics and the quality assessment agree:
    [_analyze_prompt_quality] flags the Midjourney prompt as
    [optimal_length] exactly when [_assess_overall_quality] gives it the
    Midjourney score 90 (otherwise 70), and flags the DALL-E prompt as
    [compatible] exactly when the DALL-E score is 95 (otherwise 50). *)
Theorem metrics_agree_with_scores (layout_data : LayoutIntegratedData)
    (mj_prompt dalle_prompt : pystr) :
  exists optimal compatible : bool,
    dict_get (_analyze_prompt_quality mj_prompt (py "midjourney"))
      (py "optimal_length") = Some (PBool optimal) /\
    dict_get (_analyze_prompt_quality dalle_prompt (py "dalle"))
      (py "compatible") = Some (PBool compatible) /\
    midjourney_score
      (_assess_overall_quality layout_data mj_prompt dalle_prompt)
      = (if optimal then 90 else 70)%Z /\
    dalle_score (_assess_overall_quality layout_data mj_prompt dalle_prompt)
      = (if compatible then 95 else 50)%Z.
Proof.
  do 2 eexists. repeat split; reflexivity.
Qed.

Lemma words_scan_count (cur s : pystr) :
  (2 * length (words_scan cur s)
   <= length s + 1 + match cur with [] => 0 | _ :: _ => 1 end)%nat.
Proof.
  revert cur. induction s as [|c s IH]; intros cur; cbn [words_scan].
  - destruct cur; cbn [length]; lia.
  - destruct (is_space c).
    + destruct cur; [specialize (IH []); cbn [length] in *; lia|].
      specialize (IH []). cbn [length] in *. lia.
    + specialize (IH (c :: cur)). cbn [length] in *. lia.
Qed.

(** X14.  Whatever the prompt type, the metrics of
    [_analyze_prompt_quality] give the length of the prompt and a word
    count of at most half the length, rounded up; an unknown prompt type
    gives these and the type, and nothing else. *)
Theorem prompt_metrics_length_and_words (prompt prompt_type : pystr) :
  exists words,
    dict_get (_analyze_prompt_quality prompt prompt_type) (py "length")
      = Some (PInt (len prompt)) /\
    dict_get (_analyze_prompt_quality prompt prompt_type) (py "word_count")
      = Some (PInt words) /\
    (0 <= 2 * words <= len prompt + 1)%Z /\
    (prompt_type <> py "midjourney" -> prompt_type <> py "dalle" ->
     map fst (_analyze_prompt_quality prompt prompt_type)
     = [KStr (py "length"); KStr (py "word_count"); KStr (py "prompt_type")]).
Proof.
  exists (len (str_words prompt)).
  assert (Hw : (0 <= 2 * len (str_words prompt) <= len prompt + 1)%Z).
  { pose proof (words_scan_count [] prompt) as H. unfold str_words, len.
    cbn [length] in H. lia. }
  unfold _analyze_prompt_quality.
  destruct (str_eqb prompt_type (py "midjourney")) eqn:E1;
    [repeat split; try reflexivity; try exact (proj1 Hw); try exact (proj2 Hw);
     intros Hn; apply str_eqb_eq in E1; congruence|].
  destruct (str_eqb prompt_type (py "dalle")) eqn:E2;
    [repeat split; try reflexivity; try exact (proj1 Hw); try exact (proj2 Hw);
     intros _ Hn; apply str_eqb_eq in E2; congruence|].
  repeat split; try reflexivity; try exact (proj1 Hw); exact (proj2 Hw).
Qed.

(** X15.  In the assessment [_assess_overall_quality] returns, the
    recommendation [Exzellente Prompt-Qualität erreicht!] appears only
    together with a score of at least 90 and at least 4 text placements; it
    is never accompanied by the advice to improve the layout integration
    or to place more text elements.  There are at most three
    recommendations. *)
Theorem excellent_excludes_improvement_advice
    (layout_data : LayoutIntegratedData) (mj_prompt dalle_prompt : pystr) :
  let q := _assess_overall_quality layout_data mj_prompt dalle_prompt in
  (In (py "Exzellente Prompt-Qualität erreicht!") (recommendations q) ->
   (90 <= overall_score q)%Z /\
   (4 <= len (text_placements layout_data))%Z /\
   ~ In (py "Layout-Integration könnte verbessert werden") (recommendations q) /\
   ~ In (py "Mehr Text-Elemente könnten platziert werden") (recommendations q)) /\
  (length (recommendations q) <= 3)%nat.
Proof.
  intros q.
  destruct (assess_overall_quality_subscores layout_data mj_prompt dalle_prompt)
    as (Hl & _ & Hm & Hd & Ha & Ho).
  fold q in Hl, Hm, Hd, Ha, Ho.
  assert (Ht : text_mapping_score q
               = Z.min 100 (len (text_placements layout_data) * 20))
    by reflexivity.
  assert (Hr : recommendations q
               = _generate_recommendations layout_data (overall_score q))
    by reflexivity.
  rewrite Hr. unfold _generate_recommendations.
  set (score := overall_score q) in *.
  set (n := len (text_placements layout_data)) in *.
  assert (Hscore : (90 <= score)%Z -> (4 <= n)%Z).
  { intros H90. rewrite Ho in H90.
    assert (450 <= layout_integration_score q + text_mapping_score q +
                   midjourney_score q + dalle_score q + adaptive_score q)%Z.
    { destruct (Z_lt_ge_dec
                  (layout_integration_score q + text_mapping_score q +
                   midjourney_score q + dalle_score q + adaptive_score q) 450)
        as [Hlt|Hge]; [|lia].
      apply (Z.div_lt_upper_bound _ 5 90) in Hlt; lia. }
    rewrite Ht in H. lia. }
  split.
  - intros Hin.
    assert (H90 : (90 <= score)%Z).
    { destruct (score >=? 90)%Z eqn:E; [apply Z.geb_le in E; exact E|].
      exfalso. rewrite app_nil_r in Hin.
      repeat (apply in_app_or in Hin; destruct Hin as [Hin|Hin]);
        repeat match goal with
        | H : In _ (if ?c then _ else _) |- _ => destruct c
        end;
        cbn [In] in Hin; try tauto;
        destruct Hin as [Hin|[]]; vm_compute in Hin; discriminate. }
    pose proof (Hscore H90) as H4.
    split; [exact H90|]. split; [exact H4|].
    assert (E1 : (score <? 80)%Z = false) by (apply Z.ltb_ge; lia).
    assert (E2 : (n <? 3)%Z = false) by (apply Z.ltb_ge; lia).
    rewrite E1, E2. cbn [app].
    split; intros Hbad;
      (apply in_app_or in Hbad; destruct Hbad as [Hbad|Hbad];
       [destruct (negb _); cbn [In] in Hbad; [|tauto]|
        destruct (score >=? 90)%Z; cbn [In] in Hbad; [|tauto]];
       destruct Hbad as [Hbad|[]]; vm_compute in Hbad; discriminate).
  - destruct (score <? 80)%Z eqn:E1; destruct (score >=? 90)%Z eqn:E2;
      destruct (n <? 3)%Z; destruct (negb _); cbn [app length]; try lia.
    all: apply Z.ltb_lt in E1; apply Z.geb_le in E2; lia.
Qed.

(** ** [_validate_prompt] and [_translate_to_english] *)

Lemma replace_scan_erase_le (old s : pystr) (skip : nat) :
  (length (replace_scan old [] skip s) <= length s)%nat.
Proof.
  revert skip. induction s as [|c s IH]; intros skip; cbn [replace_scan];
    [reflexivity|].
  destruct skip as [|skip]; [|specialize (IH skip); cbn [length]; lia].
  destruct (str_startswith old (c :: s)); cbn [app length].
  - specialize (IH (length old - 1)%nat). lia.
  - specialize (IH 0%nat). lia.
Qed.

Lemma replace_scan_erase_lt (old s : pystr) :
  old <> [] -> str_contains old s = true ->
  (length (replace_scan old [] 0 s) < length s)%nat.
Proof.
  intros Hold. induction s as [|c s IH].
  - destruct old; [congruence | discriminate].
  - rewrite str_contains_cons. intros H. cbn [replace_scan].
    destruct (str_startswith old (c :: s)); cbn [app length].
    + pose proof (replace_scan_erase_le old s (length old - 1)). lia.
    + cbn [orb] in H. specialize (IH H). lia.
Qed.

Lemma str_replace_erase_le (old s : pystr) :
  old <> [] -> (length (str_replace old [] s) <= length s)%nat.
Proof.
  intros Hold. destruct old; [congruence|]. apply replace_scan_erase_le.
Qed.

Lemma erase_all_le (found : list pystr) (s : pystr) :
  Forall (fun f => f <> []) found ->
  (length (fold_left (fun prompt forbidden => str_replace forbidden [] prompt)
             found s) <= length s)%nat.
Proof.
  intros H. revert s. induction H as [|f found Hf _ IH]; intros s;
    cbn [fold_left]; [reflexivity|].
  etransitivity; [apply IH|]. apply str_replace_erase_le. exact Hf.
Qed.

(** X16.  [_validate_prompt] never makes a prompt longer; it returns the
    prompt unchanged exactly when none of the four forbidden indicators
    occurs in it, and a strictly shorter one otherwise. *)
Theorem validate_prompt_shortens (prompt : pystr) :
  (len (_validate_prompt prompt) <= len prompt)%Z /\
  (_validate_prompt prompt = prompt <->
   forall f, In f forbidden_indicators -> str_contains f prompt = false) /\
  ((exists f, In f forbidden_indicators /\ str_contains f prompt = true) ->
   (len (_validate_prompt prompt) < len prompt)%Z).
Proof.
  assert (Hne : Forall (fun f : pystr => f <> []) forbidden_indicators).
  { unfold forbidden_indicators. repeat constructor; discriminate. }
  assert (Hfound : Forall (fun f : pystr => f <> [])
                     (filter (fun f => str_contains f prompt)
                        forbidden_indicators)).
  { apply Forall_forall. intros f Hin. apply filter_In in Hin.
    rewrite Forall_forall in Hne. apply Hne. tauto. }
  assert (Hstrict : (exists f, In f forbidden_indicators /\
                               str_contains f prompt = true) ->
                    (length (_validate_prompt prompt) < length prompt)%nat).
  { intros (f & Hin & Hc). unfold _validate_prompt.
    assert (Hf : In f (filter (fun f => str_contains f prompt)
                         forbidden_indicators))
      by (apply filter_In; auto).
    destruct (filter (fun f => str_contains f prompt) forbidden_indicators)
      as [|g found] eqn:E; [destruct Hf|].
    assert (Hg : In g forbidden_indicators /\ str_contains g prompt = true).
    { apply (proj1 (filter_In (fun f => str_contains f prompt) g
                      forbidden_indicators)).
      rewrite E. left; reflexivity. }
    cbn [fold_left]. inversion Hfound; subst.
    eapply Nat.le_lt_trans; [apply erase_all_le; assumption|].
    destruct g as [|g0 g]; [congruence|]. cbn [str_replace].
    apply replace_scan_erase_lt; [discriminate | tauto]. }
  split; [|split].
  - unfold len, _validate_prompt. pose proof (erase_all_le _ prompt Hfound). lia.
  - split.
    + intros Heq f Hin. destruct (str_contains f prompt) eqn:E; [|reflexivity].
      assert (length (_validate_prompt prompt) < length prompt)%nat
        by (apply Hstrict; exists f; auto).
      rewrite Heq in H. lia.
    + intros Hnone. unfold _validate_prompt.
      assert (E : filter (fun f => str_contains f prompt) forbidden_indicators
                  = []).
      { destruct (filter _ _) as [|g found] eqn:E; [reflexivity|].
        assert (Hg : In g forbidden_indicators /\ str_contains g prompt = true).
        { apply (proj1 (filter_In (fun f => str_contains f prompt) g
                          forbidden_indicators)).
          rewrite E. left; reflexivity. }
        rewrite (Hnone g) in Hg by tauto. destruct Hg; discriminate. }
      rewrite E. reflexivity.
  - intros H. unfold len. apply Hstrict in H. lia.
Qed.

(** X17.  [_translate_to_english] only rewrites its ten German phrases: a
    text in which none of them occurs is returned unchanged. *)
Theorem translate_keeps_text_without_phrases (german_text : pystr) :
  (forall entry, In entry translations ->
                 str_contains (fst entry) german_text = false) ->
  _translate_to_english german_text = german_text.
Proof.
  unfold _translate_to_english. generalize translations.
  intros table. induction table as [|e table IH]; intros H; [reflexivity|].
  cbn [fold_left]. rewrite str_replace_absent by (apply H; left; reflexivity).
  apply IH. intros entry Hin. apply H. right; exact Hin.
Qed.

Lemma translate_keeps_text_without_phrases_witness :
  (forall entry, In entry translations ->
                 str_contains (fst entry) (py "nurse in a modern clinic") = false) /\
  _translate_to_english (py "nurse in a modern clinic")
    = py "nurse in a modern clinic".
Proof.
  assert (H : forall entry, In entry translations ->
                str_contains (fst entry) (py "nurse in a modern clinic") = false).
  { intros entry Hin. unfold translations in Hin. cbn [In] in Hin.
    repeat (destruct Hin as [<- | Hin]; [reflexivity|]). destruct Hin. }
  split; [exact H|].
  apply (translate_keeps_text_without_phrases (py "nurse in a modern clinic") H).
Defined.

(** ** The quality workflow: what every run ends with *)

Lemma last_cons {A : Type} (a : A) (l : list A) (d : A) :
  last (a :: l) d = last l a.
Proof.
  revert a d. induction l as [|b l IH]; intros a d; [reflexivity|].
  change (last (a :: b :: l) d) with (last (b :: l) d).
  rewrite !IH. reflexivity.
Qed.

(** An invariant that every edge of the graph preserves holds, in the form
    of its consequence at [END], of the final state of every run. *)
Lemma invoke_invariant (api_key : option pystr)
    (chat_completion : nat -> pystr -> pyval -> option pystr)
    (process_streamlit_input : pydict -> bool -> option FinalizedPrompts)
    (Inv : node -> QualityWorkflowState -> Prop)
    (Post : QualityWorkflowState -> Prop) :
  (forall call n s n',
     Inv n s ->
     next_node n (node_function api_key chat_completion
                    process_streamlit_input call n s) = Some n' ->
     Inv n' (node_function api_key chat_completion process_streamlit_input
               call n s)) ->
  (forall call n s,
     Inv n s ->
     next_node n (node_function api_key chat_completion
                    process_streamlit_input call n s) = None ->
     Post (node_function api_key chat_completion process_streamlit_input
             call n s)) ->
  forall (fuel call : nat) (n : node) (s : QualityWorkflowState) trace,
    invoke api_key chat_completion process_streamlit_input fuel call n s
      = Some trace ->
    Inv n s -> Post (final_state s trace).
Proof.
  intros Hedge Hend. induction fuel as [|fuel IH]; intros call n s trace;
    [discriminate|].
  cbn [invoke]. intros Hrun Hinv.
  destruct (next_node n _) as [n'|] eqn:En.
  - destruct (invoke _ _ _ fuel (S call) n' _) as [rest|] eqn:Er;
      [|discriminate].
    inversion Hrun; subst trace. unfold final_state.
    cbn [map step_after]. rewrite last_cons.
    apply (IH (S call) n' _ rest Er). apply Hedge; assumption.
  - inversion Hrun; subst trace. unfold final_state. cbn.
    apply Hend; assumption.
Qed.

(** What the nodes do to the success flag and to the attempt counter. *)
Lemma assess_success (s : QualityWorkflowState) :
  success s = false ->
  success (assess_quality_and_decide s)
  = (assessed_score s >=? target_quality_score s)%Z.
Proof.
  intros H. unfold assess_quality_and_decide. cbn [target_quality_score
    current_attempt max_attempts set_current_quality_score].
  destruct (assessed_score s >=? target_quality_score s)%Z; [reflexivity|].
  destruct (current_attempt s >=? max_attempts s)%Z; [reflexivity|].
  destruct (assessed_score s <? 60)%Z; [exact H|].
  destruct (assessed_score s <? 75)%Z; [exact H|].
  destruct (assessed_score s <? 85)%Z; exact H.
Qed.

Lemma assessed_score_nonzero (s : QualityWorkflowState) :
  assessed_score s <> 0%Z.
Proof.
  unfold assessed_score. destruct (current_quality_score s) as [z|]; [|lia].
  destruct (z =? 0)%Z eqn:E; [lia | apply Z.eqb_neq in E; exact E].
Qed.

Lemma assessed_score_of_score (s : QualityWorkflowState) (z : Z) :
  current_quality_score s = Some z -> z <> 0%Z -> assessed_score s = z.
Proof.
  intros H Hz. unfold assessed_score. rewrite H.
  apply Z.eqb_neq in Hz. rewrite Hz. reflexivity.
Qed.

Lemma route_optimization_some (s : QualityWorkflowState) (n : node) :
  route_optimization s = Some n ->
  workflow_completed s = false /\ is_optimization n = true.
Proof.
  unfold route_optimization. destruct (workflow_completed s); [discriminate|].
  generalize (optimization_strategy s). intros strategy_name.
  generalize (py "critical_optimization"), (py "structure_optimization"),
    (py "style_optimization"), (py "fine_tuning").
  intros a b c d.
  destruct (str_eqb strategy_name a);
    [intros H; inversion H; split; reflexivity|].
  destruct (str_eqb strategy_name b);
    [intros H; inversion H; split; reflexivity|].
  destruct (str_eqb strategy_name c);
    [intros H; inversion H; split; reflexivity|].
  destruct (str_eqb strategy_name d);
    [intros H; inversion H; split; reflexivity|].
  discriminate.
Qed.

Lemma route_optimization_none (s : QualityWorkflowState) :
  route_optimization (assess_quality_and_decide s) = None ->
  workflow_completed (assess_quality_and_decide s) = true.
Proof.
  intros Hr. destruct (workflow_completed (assess_quality_and_decide s)) eqn:E;
    [reflexivity|].
  pose proof E as Hopen. apply assess_open_iff in Hopen.
  destruct Hopen as (_ & Hscore & Hatt).
  destruct (route_by_strategy _ E) as (R1 & R2 & R3 & R4).
  rewrite (assess_strategy s Hscore Hatt) in R1, R2, R3, R4.
  destruct (assessed_score s <? 60)%Z; [rewrite R1 in Hr; congruence|].
  destruct (assessed_score s <? 75)%Z; [rewrite R2 in Hr; congruence|].
  destruct (assessed_score s <? 85)%Z; [rewrite R3 in Hr; congruence|].
  rewrite R4 in Hr; congruence.
Qed.

Lemma optimize_with_fields (api_key : option pystr)
    (chat_completion : nat -> pystr -> pyval -> option pystr) (call : nat)
    (message strategy_name failure : pystr) (s : QualityWorkflowState) :
  let s' := optimize_with api_key chat_completion call message strategy_name
              failure s in
  success s' = success s /\
  workflow_completed s' = workflow_completed s /\
  max_attempts s' = max_attempts s /\
  target_quality_score s' = target_quality_score s /\
  current_quality_score s' = current_quality_score s /\
  original_prompt s' = original_prompt s /\
  final_result s' = final_result s /\
  (current_attempt s' = current_attempt s \/
   current_attempt s' = (current_attempt s + 1)%Z).
Proof.
  intros s'. subst s'. unfold optimize_with.
  destruct (py_len _); cbn; repeat split; auto.
Qed.

(** The function behind an optimization node, for a state whatever its
    prompt is. *)
Lemma optimization_node_fields (api_key : option pystr)
    (chat_completion : nat -> pystr -> pyval -> option pystr)
    (process_streamlit_input : pydict -> bool -> option FinalizedPrompts)
    (call : nat) (n : node) (s : QualityWorkflowState) :
  is_optimization n = true ->
  let s' := node_function api_key chat_completion process_streamlit_input
              call n s in
  next_node n s' = Some reassess_quality_node /\
  success s' = success s /\
  workflow_completed s' = workflow_completed s /\
  max_attempts s' = max_attempts s /\
  target_quality_score s' = target_quality_score s /\
  current_quality_score s' = current_quality_score s /\
  original_prompt s' = original_prompt s /\
  final_result s' = final_result s /\
  (current_attempt s' = current_attempt s \/
   current_attempt s' = (current_attempt s + 1)%Z).
Proof.
  intros Hn.
  destruct (optimization_node_function api_key chat_completion
              process_streamlit_input call n Hn)
    as (-> & message & strategy_name & failure & ->).
  cbv zeta. split; [reflexivity|]. apply optimize_with_fields.
Qed.

Lemma reassess_more_fields (s : QualityWorkflowState) :
  success (reassess_quality s) = success s /\
  original_prompt (reassess_quality s) = original_prompt s /\
  final_result (reassess_quality s) = final_result s /\
  (current_quality_score (reassess_quality s) = current_quality_score s \/
   current_quality_score (reassess_quality s)
   = Some (Z.min 100 (87 + strategy_bonus (optimization_strategy s)))).
Proof.
  unfold reassess_quality.
  cbn [current_prompt set_current_quality_score].
  destruct (py_len (current_prompt s));
    [|cbn; repeat split; try reflexivity; left; reflexivity].
  destruct (final_result s) eqn:E; cbn; rewrite ?E;
    (repeat split; try reflexivity; right; reflexivity).
Qed.

Lemma strategy_bonus_range (strategy_name : pystr) :
  (0 <= strategy_bonus strategy_name <= 5)%Z.
Proof.
  unfold strategy_bonus.
  generalize (py "critical_optimization"), (py "structure_optimization"),
    (py "style_optimization"), (py "fine_tuning").
  intros a b c d.
  destruct (str_eqb strategy_name a); [lia|].
  destruct (str_eqb strategy_name b); [lia|].
  destruct (str_eqb strategy_name c); [lia|].
  destruct (str_eqb strategy_name d); lia.
Qed.

Lemma generate_initial_more_fields
    (process_streamlit_input : pydict -> bool -> option FinalizedPrompts)
    (s : QualityWorkflowState) :
  let s' := generate_initial_prompt process_streamlit_input s in
  (success s = false -> success s' = false) /\
  (current_prompt s = original_prompt s ->
   current_prompt s' = original_prompt s').
Proof.
  intros s'. subst s'. unfold generate_initial_prompt.
  destruct (process_streamlit_input _ _) as [result|]; cbn; auto.
Qed.

(** The walk of the graph reaches [END] once the fuel covers the
    attempts, for any pipeline. *)
Lemma walk_returns (api_key : option pystr)
    (chat_completion : nat -> pystr -> pyval -> option pystr)
    (process_streamlit_input : pydict -> bool -> option FinalizedPrompts)
    (input : pydict) (text_rendering : bool) (target max : Z) (fuel : nat) :
  (3 * Z.to_nat (max - 1) + 2 <= fuel)%nat ->
  exists trace,
    invoke api_key chat_completion process_streamlit_input fuel 0
      generate_initial (initial_state input text_rendering target max)
    = Some trace.
Proof.
  intros Hfuel. destruct fuel as [|fuel]; [lia|].
  cbn [invoke node_function next_node].
  set (s0 := initial_state input text_rendering target max).
  destruct (generate_initial_fields process_streamlit_input s0)
    as (Ga & Gm & Gt & Gready).
  destruct (invoke_from_assess api_key chat_completion process_streamlit_input
              (Z.to_nat (max - 1)) fuel 1
              (generate_initial_prompt process_streamlit_input s0))
    as (rest & Hrest & _).
  - lia.
  - exact Gready.
  - rewrite Ga, Gm. cbn. lia.
  - rewrite Hrest. eexists. reflexivity.
Qed.

(** A measure that every edge of the graph lowers bounds the length of
    the walk: fuel of that measure reaches [END]. *)
Lemma invoke_measure (api_key : option pystr)
    (chat_completion : nat -> pystr -> pyval -> option pystr)
    (process_streamlit_input : pydict -> bool -> option FinalizedPrompts)
    (Inv : node -> QualityWorkflowState -> Prop)
    (measure : node -> QualityWorkflowState -> nat) :
  (forall call n s n',
     Inv n s ->
     next_node n (node_function api_key chat_completion
                    process_streamlit_input call n s) = Some n' ->
     Inv n' (node_function api_key chat_completion process_streamlit_input
               call n s) /\
     (measure n' (node_function api_key chat_completion
                    process_streamlit_input call n s) < measure n s)%nat) ->
  (forall n s, (1 <= measure n s)%nat) ->
  forall (fuel call : nat) (n : node) (s : QualityWorkflowState),
    Inv n s -> (measure n s <= fuel)%nat ->
    exists trace,
      invoke api_key chat_completion process_streamlit_input fuel call n s
      = Some trace.
Proof.
  intros Hedge Hpos. induction fuel as [|fuel IH]; intros call n s Hinv Hm.
  - specialize (Hpos n s). lia.
  - cbn [invoke]. destruct (next_node n _) as [n'|] eqn:En;
      [|eexists; reflexivity].
    destruct (Hedge call n s n' Hinv En) as [Hinv' Hlt].
    destruct (IH (S call) n' _ Hinv' ltac:(lia)) as [rest ->].
    eexists; reflexivity.
Qed.

(** X18.  Whatever the recursion limit, [run_quality_workflow] returns
    one of two dictionaries.  Either the one of a finished run: it is
    marked completed and holds a score other than 0, it reports success
    exactly when that score is at least the target, the attempts it
    reports lie between 1 and [max 1 max_attempts], and target and
    [max_attempts] are the ones the run was started with.  Or the error
    dictionary (success False, completed True, no score, attempts or
    prompt), and that only when the recursion limit is below
    [3 * (max_attempts - 1) + 2] nodes.  This holds for every input and
    every behaviour of the pipeline and of GPT-4. *)
Theorem run_result_is_consistent (api_key : option pystr)
    (chat_completion : nat -> pystr -> pyval -> option pystr)
    (process_streamlit_input : pydict -> bool -> option FinalizedPrompts)
    (recursion_limit : nat) (input : pydict) (text_rendering : bool)
    (target max : Z) :
  match run_quality_workflow api_key chat_completion process_streamlit_input
          recursion_limit input text_rendering target max with
  | workflow_result final =>
      workflow_completed final = true /\
      (exists final_score,
         current_quality_score final = Some final_score /\
         final_score <> 0%Z /\
         (success final = true <-> (target <= final_score)%Z)) /\
      (1 <= current_attempt final <= Z.max 1 max)%Z /\
      target_quality_score final = target /\
      max_attempts final = max
  | workflow_error => (recursion_limit < 3 * Z.to_nat (max - 1) + 2)%nat
  end.
Proof.
  unfold run_quality_workflow. cbv zeta.
  destruct (invoke api_key chat_completion process_streamlit_input
              recursion_limit 0 generate_initial
              (initial_state input text_rendering target max))
    as [trace|] eqn:Hrun.
  2:{ destruct (le_lt_dec (3 * Z.to_nat (max - 1) + 2) recursion_limit)
        as [Hle|Hlt]; [|exact Hlt].
      destruct (walk_returns api_key chat_completion process_streamlit_input
                  input text_rendering target max recursion_limit Hle)
        as [trace Hwalk].
      congruence. }
  change (last (map step_after trace)
            (initial_state input text_rendering target max))
    with (final_state (initial_state input text_rendering target max) trace).
  set (Inv := fun (n : node) (s : QualityWorkflowState) =>
    success s = false /\ target_quality_score s = target /\
    max_attempts s = max /\ (1 <= current_attempt s)%Z /\
    (if is_optimization n then (current_attempt s < max)%Z
     else (current_attempt s <= Z.max 1 max)%Z)).
  set (Post := fun final : QualityWorkflowState =>
    workflow_completed final = true /\
    (exists final_score,
       current_quality_score final = Some final_score /\
       final_score <> 0%Z /\
       (success final = true <-> (target <= final_score)%Z)) /\
    (1 <= current_attempt final <= Z.max 1 max)%Z /\
    target_quality_score final = target /\
    max_attempts final = max).
  refine (invoke_invariant api_key chat_completion process_streamlit_input
            Inv Post _ _ _ _ _ _ _ Hrun _).
  - (* the edges *)
    intros call n s n' (Hs & Ht & Hm & H1 & Ha) Hn. unfold Inv.
    destruct (is_optimization n) eqn:Eopt.
    { destruct (optimization_node_fields api_key chat_completion
                  process_streamlit_input call n s Eopt)
        as (On & Os & _ & Om & Ot & _ & _ & _ & Oa).
      rewrite On in Hn. inversion Hn; subst n'. cbn [is_optimization].
      rewrite Os, Om, Ot. repeat split; try assumption; lia. }
    destruct n; try discriminate; cbn [node_function next_node] in *.
    + (* generate_initial *)
      inversion Hn; subst n'. cbn [is_optimization].
      destruct (generate_initial_fields process_streamlit_input s)
        as (Ga & Gm & Gt & _).
      destruct (generate_initial_more_fields process_streamlit_input s)
        as (Gs & _).
      rewrite Ga, Gm, Gt. auto.
    + (* assess_quality *)
      apply route_optimization_some in Hn. destruct Hn as [Hopen Hn'].
      rewrite Hn'. apply assess_open_iff in Hopen.
      destruct Hopen as (_ & Hscore & Hatt).
      destruct (assess_fields s) as (Fm & Ft & Fa & _).
      rewrite assess_success by exact Hs. rewrite Fm, Ft, Fa.
      repeat split; try assumption; try lia.
    + (* reassess_quality *)
      inversion Hn; subst n'. cbn [is_optimization].
      destruct (reassess_fields s) as (Ra & Rm & Rt & _).
      destruct (reassess_more_fields s) as (Rs & _).
      rewrite Rs, Ra, Rm, Rt. auto.
  - (* the end *)
    intros call n s (Hs & Ht & Hm & H1 & Ha) Hn. unfold Post.
    destruct n; cbn [node_function next_node is_optimization] in *;
      try discriminate.
    apply route_optimization_none in Hn.
    destruct (assess_fields s) as (Fm & Ft & Fa & _ & Fs).
    rewrite Fm, Ft, Fa. split; [exact Hn|]. split.
    + exists (assessed_score s). split; [exact Fs|].
      split; [apply assessed_score_nonzero|].
      rewrite assess_success by exact Hs. rewrite Ht, Z.geb_le. tauto.
    + repeat split; try assumption; lia.
  - (* the initial state *)
    unfold Inv. cbn. repeat split; try reflexivity; lia.
Qed.

(** X19.  When the pipeline raises in the initial generation, the run
    consists of the generation and one assessment, and GPT-4 is never
    called; with a recursion limit of at least 2 [run_quality_workflow]
    returns the dictionary of that final state, which has no prompt and no
    result, carries an error message and the fallback score 87, and
    reports success exactly when the target is at most 87. *)
Theorem failed_generation_is_scored_87 (api_key : option pystr)
    (chat_completion : nat -> pystr -> pyval -> option pystr)
    (process_streamlit_input : pydict -> bool -> option FinalizedPrompts)
    (input : pydict) (text_rendering : bool) (target max : Z) (fuel : nat) :
  process_streamlit_input input text_rendering = None ->
  exists trace,
    invoke api_key chat_completion process_streamlit_input (S (S fuel)) 0
      generate_initial (initial_state input text_rendering target max)
    = Some trace /\
    map step_node trace = [generate_initial; assess_quality] /\
    run_quality_workflow api_key chat_completion process_streamlit_input
      (S (S fuel)) input text_rendering target max
    = workflow_result
        (final_state (initial_state input text_rendering target max) trace) /\
    let final := final_state (initial_state input text_rendering target max)
                   trace in
    current_prompt final = PNone /\
    final_result final = None /\
    error_message final <> None /\
    current_quality_score final = Some 87%Z /\
    (success final = true <-> (target <= 87)%Z) /\
    workflow_completed final = true /\
    current_attempt final = 1%Z.
Proof.
  intros Hfail.
  assert (Hwalk : exists trace,
    invoke api_key chat_completion process_streamlit_input (S (S fuel)) 0
      generate_initial (initial_state input text_rendering target max)
    = Some trace /\
    map step_node trace = [generate_initial; assess_quality] /\
    let final := final_state (initial_state input text_rendering target max)
                   trace in
    current_prompt final = PNone /\
    final_result final = None /\
    error_message final <> None /\
    current_quality_score final = Some 87%Z /\
    (success final = true <-> (target <= 87)%Z) /\
    workflow_completed final = true /\
    current_attempt final = 1%Z);
    [|destruct Hwalk as (trace & Hrun & Hnodes & Hfinal); exists trace;
      split; [exact Hrun|]; split; [exact Hnodes|];
      split; [apply run_of_walk; exact Hrun | exact Hfinal]].
  cbn [invoke node_function next_node].
  unfold generate_initial_prompt.
  cbn [streamlit_input enable_text_rendering initial_state].
  rewrite Hfail. cbv zeta.
  set (s1 := set_workflow_completed _ true).
  assert (Hc : workflow_completed (assess_quality_and_decide s1) = true).
  { destruct (workflow_completed (assess_quality_and_decide s1)) eqn:E;
      [reflexivity|]. apply assess_open_iff in E. destruct E as [E _].
    discriminate. }
  unfold route_optimization. rewrite Hc.
  eexists. split; [reflexivity|]. split; [reflexivity|].
  unfold final_state. cbn [map step_after last].
  destruct (assess_fields s1) as (_ & _ & Fa & Fp & Fs).
  assert (Hs : success (assess_quality_and_decide s1)
               = (assessed_score s1 >=? target_quality_score s1)%Z)
    by (apply assess_success; reflexivity).
  rewrite Fa, Fp, Fs, Hs, Hc.
  change (assessed_score s1) with 87%Z.
  change (target_quality_score s1) with target.
  repeat split; try reflexivity.
  - unfold assess_quality_and_decide. subst s1.
    cbn [target_quality_score current_attempt max_attempts
         set_current_quality_score set_workflow_completed set_success
         set_error_message initial_state].
    change (assessed_score _) with 87%Z.
    destruct (87 >=? target)%Z; [reflexivity|].
    destruct (1 >=? max)%Z; [reflexivity|]. reflexivity.
  - unfold assess_quality_and_decide. subst s1.
    cbn [target_quality_score current_attempt max_attempts
         set_current_quality_score set_workflow_completed set_success
         set_error_message initial_state].
    change (assessed_score _) with 87%Z.
    destruct (87 >=? target)%Z; [cbn; discriminate|].
    destruct (1 >=? max)%Z; cbn; discriminate.
  - rewrite Z.geb_le. tauto.
  - rewrite Z.geb_le. tauto.
Qed.

Lemma failed_generation_is_scored_87_witness :
  failing_pipeline sample_streamlit_input false = None /\
  result_success
    (run_quality_workflow (Some (py "sk-test")) sample_chat failing_pipeline
       25 sample_streamlit_input false 85 3) = true.
Proof.
  split; [reflexivity|].
  destruct (failed_generation_is_scored_87 (Some (py "sk-test")) sample_chat
              failing_pipeline sample_streamlit_input false 85 3 23
              eq_refl)
    as (trace & _ & _ & Hresult & _ & _ & _ & _ & Hs & _).
  rewrite Hresult. apply Hs. lia.
Defined.

(** ** The quality workflow: which targets the loop can reach *)

Lemma assess_more_fields (s : QualityWorkflowState) :
  original_prompt (assess_quality_and_decide s) = original_prompt s /\
  final_result (assess_quality_and_decide s) = final_result s /\
  error_message (assess_quality_and_decide s) = error_message s.
Proof.
  unfold assess_quality_and_decide.
  destruct (assessed_score s >=? target_quality_score _)%Z; [cbn; auto|].
  destruct (current_attempt _ >=? max_attempts _)%Z; [cbn; auto|].
  destruct (assessed_score s <? 60)%Z; [cbn; auto|].
  destruct (assessed_score s <? 75)%Z; [cbn; auto|].
  destruct (assessed_score s <? 85)%Z; cbn; auto.
Qed.

(** An optimization node on a prompt string: the counter goes up by one,
    the prompt stays a string, and the strategy the node records is one
    with a bonus. *)
Lemma optimization_node_on_string (api_key : option pystr)
    (chat_completion : nat -> pystr -> pyval -> option pystr)
    (process_streamlit_input : pydict -> bool -> option FinalizedPrompts)
    (call : nat) (n : node) (s : QualityWorkflowState) (p : pystr) :
  is_optimization n = true ->
  current_prompt s = PStr p ->
  let s' := node_function api_key chat_completion process_streamlit_input
              call n s in
  current_attempt s' = (current_attempt s + 1)%Z /\
  (exists p', current_prompt s' = PStr p') /\
  (1 <= strategy_bonus (optimization_strategy s'))%Z.
Proof.
  intros Hn Hp.
  destruct n; try discriminate; cbn [node_function];
    unfold optimize_prompt_critical, optimize_prompt_structure,
      optimize_prompt_style, optimize_prompt_fine_tuning;
    cbv zeta; unfold optimize_with; rewrite Hp;
    destruct (optimize_prompt_returns_string api_key (chat_completion call) p
                (Some system_message_critical)) as [r1 Hr1];
    destruct (optimize_prompt_returns_string api_key (chat_completion call) p
                (Some system_message_structure)) as [r2 Hr2];
    destruct (optimize_prompt_returns_string api_key (chat_completion call) p
                (Some system_message_style)) as [r3 Hr3];
    destruct (optimize_prompt_returns_string api_key (chat_completion call) p
                (Some system_message_fine_tuning)) as [r4 Hr4];
    rewrite ?Hr1, ?Hr2, ?Hr3, ?Hr4;
    cbn [py_len current_attempt current_prompt optimization_strategy
         set_current_prompt set_current_attempt set_optimization_strategy];
    (split; [reflexivity|]); (split; [eexists; reflexivity|]);
    vm_compute; discriminate.
Qed.

(** When the endpoint cannot answer, an optimization node leaves the
    prompt as it is. *)
Lemma optimization_node_keeps_prompt (api_key : option pystr)
    (chat_completion : nat -> pystr -> pyval -> option pystr)
    (process_streamlit_input : pydict -> bool -> option FinalizedPrompts)
    (call : nat) (n : node) (s : QualityWorkflowState) :
  api_key = None \/
  (forall call system_message prompt,
     chat_completion call system_message prompt = None) ->
  is_optimization n = true ->
  current_prompt (node_function api_key chat_completion
                    process_streamlit_input call n s) = current_prompt s.
Proof.
  intros Hgpt Hn.
  destruct (optimization_node_function api_key chat_completion
              process_streamlit_input call n Hn)
    as (_ & message & strategy_name & failure & ->).
  unfold optimize_with.
  assert (E : GptUtils.optimize_prompt_with_gpt4 api_key (chat_completion call)
                (current_prompt s) (Some message) = current_prompt s).
  { unfold GptUtils.optimize_prompt_with_gpt4.
    destruct api_key as [key|]; [|reflexivity].
    destruct (negb (truthy (PStr key))); [reflexivity|].
    destruct Hgpt as [Hgpt|Hgpt]; [discriminate|].
    rewrite Hgpt. reflexivity. }
  rewrite E. destruct (py_len (current_prompt s)); reflexivity.
Qed.

(** The score after an optimization of a prompt string: 87 and the bonus
    of the strategy, whatever the prompt has become. *)
Lemma reassess_score_on_string (s : QualityWorkflowState) (p : pystr) :
  current_prompt s = PStr p ->
  current_quality_score (reassess_quality s)
  = Some (Z.min 100 (87 + strategy_bonus (optimization_strategy s))).
Proof.
  intros Hp. unfold reassess_quality.
  cbn [current_prompt set_current_quality_score]. rewrite Hp.
  cbn [py_len]. destruct (final_result s); reflexivity.
Qed.

(** The state after a successful initial generation. *)
Lemma generate_initial_success
    (process_streamlit_input : pydict -> bool -> option FinalizedPrompts)
    (input : pydict) (text_rendering : bool) (target max : Z)
    (result : FinalizedPrompts) :
  process_streamlit_input input text_rendering = Some result ->
  let s' := generate_initial_prompt process_streamlit_input
              (initial_state input text_rendering target max) in
  success s' = false /\ workflow_completed s' = false /\
  target_quality_score s' = target /\ max_attempts s' = max /\
  current_attempt s' = 1%Z /\
  current_prompt s' = PStr (dalle_prompt result) /\
  original_prompt s' = PStr (dalle_prompt result).
Proof.
  intros H. cbv zeta. unfold generate_initial_prompt.
  cbn [streamlit_input enable_text_rendering initial_state].
  rewrite H. cbn. repeat split; reflexivity.
Qed.

(** X20.  When the pipeline produces its prompts, the target is at most 88
    and [max_attempts] at least 2, every run ends in success after at most
    one optimization, whatever GPT-4 answers and whether or not it can be
    reached: the score after an optimization is 87 plus the bonus of the
    strategy, not a measurement of the optimized prompt.  The walk has at
    most 5 nodes, so with a recursion limit of at least 5
    [run_quality_workflow] returns the dictionary of that final state. *)
Theorem target_up_to_88_is_always_reached (api_key : option pystr)
    (chat_completion : nat -> pystr -> pyval -> option pystr)
    (process_streamlit_input : pydict -> bool -> option FinalizedPrompts)
    (recursion_limit : nat) (input : pydict) (text_rendering : bool)
    (target max : Z) (result : FinalizedPrompts) :
  process_streamlit_input input text_rendering = Some result ->
  (target <= 88)%Z -> (2 <= max)%Z -> (5 <= recursion_limit)%nat ->
  exists trace,
    invoke api_key chat_completion process_streamlit_input recursion_limit 0
      generate_initial (initial_state input text_rendering target max)
    = Some trace /\
    run_quality_workflow api_key chat_completion process_streamlit_input
      recursion_limit input text_rendering target max
    = workflow_result
        (final_state (initial_state input text_rendering target max) trace) /\
    let final := final_state (initial_state input text_rendering target max)
                   trace in
    success final = true /\
    workflow_completed final = true /\
    (1 <= current_attempt final <= 2)%Z.
Proof.
  intros Hresult Htarget Hmax Hlimit.
  set (Inv := fun (n : node) (s : QualityWorkflowState) =>
    match n with
    | generate_initial => s = initial_state input text_rendering target max
    | assess_quality =>
        success s = false /\ workflow_completed s = false /\
        target_quality_score s = target /\ max_attempts s = max /\
        ((current_attempt s = 1%Z /\ exists p, current_prompt s = PStr p) \/
         (current_attempt s = 2%Z /\
          exists z, current_quality_score s = Some z /\ (88 <= z)%Z))
    | reassess_quality_node =>
        success s = false /\ workflow_completed s = false /\
        target_quality_score s = target /\ max_attempts s = max /\
        current_attempt s = 2%Z /\ (exists p, current_prompt s = PStr p) /\
        (1 <= strategy_bonus (optimization_strategy s))%Z
    | _ =>
        success s = false /\ workflow_completed s = false /\
        target_quality_score s = target /\ max_attempts s = max /\
        current_attempt s = 1%Z /\ exists p, current_prompt s = PStr p
    end).
  set (Post := fun final : QualityWorkflowState =>
    success final = true /\ workflow_completed final = true /\
    (1 <= current_attempt final <= 2)%Z).
  set (measure := fun (n : node) (s : QualityWorkflowState) =>
    match n with
    | generate_initial => 5%nat
    | assess_quality => if (current_attempt s =? 1)%Z then 4%nat else 1%nat
    | reassess_quality_node => 2%nat
    | _ => 3%nat
    end).
  assert (Hedge : forall call n s n',
            Inv n s ->
            next_node n (node_function api_key chat_completion
                           process_streamlit_input call n s) = Some n' ->
            Inv n' (node_function api_key chat_completion
                      process_streamlit_input call n s) /\
            (measure n' (node_function api_key chat_completion
                           process_streamlit_input call n s)
             < measure n s)%nat).
  { intros call n s n' Hinv Hn.
    destruct (is_optimization n) eqn:Eopt.
    { assert (Hs : success s = false /\ workflow_completed s = false /\
                   target_quality_score s = target /\ max_attempts s = max /\
                   current_attempt s = 1%Z /\
                   exists p, current_prompt s = PStr p)
        by (destruct n; try discriminate; exact Hinv).
      destruct Hs as (Hs & Hc & Ht & Hm & Ha & p & Hp).
      destruct (optimization_node_fields api_key chat_completion
                  process_streamlit_input call n s Eopt)
        as (On & Os & Oc & Om & Ot & _).
      destruct (optimization_node_on_string api_key chat_completion
                  process_streamlit_input call n s p Eopt Hp)
        as (Oa & Op & Ob).
      rewrite On in Hn. inversion Hn; subst n'. split.
      - unfold Inv. rewrite Os, Oc, Om, Ot, Oa, Ha. repeat split; assumption.
      - destruct n; try discriminate; cbn; lia. }
    destruct n; try discriminate; cbn [node_function next_node] in *.
    + (* generate_initial *)
      inversion Hn; subst n'. unfold Inv in Hinv. subst s.
      destruct (generate_initial_success process_streamlit_input input
                  text_rendering target max result Hresult)
        as (Gs & Gc & Gt & Gm & Ga & Gp & _).
      split.
      * unfold Inv. repeat split; try assumption.
        left. split; [exact Ga | eexists; exact Gp].
      * unfold measure. rewrite Ga. cbn. lia.
    + (* assess_quality *)
      destruct Hinv as (Hs & Hc & Ht & Hm & Hcase).
      apply route_optimization_some in Hn. destruct Hn as [Hopen Hn'].
      pose proof Hopen as Hopen'. apply assess_open_iff in Hopen'.
      destruct Hopen' as (_ & Hscore & Hatt).
      destruct (assess_fields s) as (Fm & Ft & Fa & Fp & _).
      destruct Hcase as [[Ha [p Hp]] | [Ha (z & Hz & Hz88)]].
      * assert (Hinv' : success (assess_quality_and_decide s) = false /\
                        workflow_completed (assess_quality_and_decide s) = false /\
                        target_quality_score (assess_quality_and_decide s) = target /\
                        max_attempts (assess_quality_and_decide s) = max /\
                        current_attempt (assess_quality_and_decide s) = 1%Z /\
                        exists p, current_prompt (assess_quality_and_decide s) = PStr p).
        { rewrite assess_success by exact Hs. rewrite Fm, Ft, Fa, Fp.
          repeat split; try assumption; try lia. exists p; exact Hp. }
        split; [destruct n'; try discriminate; exact Hinv'|].
        unfold measure. rewrite Ha.
        destruct n'; try discriminate; cbn; lia.
      * rewrite (assessed_score_of_score s z Hz) in Hscore by lia. lia.
    + (* reassess_quality *)
      inversion Hn; subst n'.
      destruct Hinv as (Hs & Hc & Ht & Hm & Ha & [p Hp] & Hb).
      destruct (reassess_fields s) as (Ra & Rm & Rt & Rc & _).
      destruct (reassess_more_fields s) as (Rs & _).
      split.
      * unfold Inv. rewrite Rs, Rc, Rt, Rm, Ra.
        repeat split; try assumption. right. split; [exact Ha|].
        eexists. split; [apply (reassess_score_on_string s p Hp)|].
        pose proof (strategy_bonus_range (optimization_strategy s)). lia.
      * unfold measure. rewrite Ra, Ha. cbn. lia. }
  assert (Hpos : forall n s, (1 <= measure n s)%nat).
  { intros n s. unfold measure.
    destruct n; try lia. destruct (current_attempt s =? 1)%Z; lia. }
  destruct (invoke_measure api_key chat_completion process_streamlit_input
              Inv measure Hedge Hpos recursion_limit 0 generate_initial
              (initial_state input text_rendering target max) eq_refl Hlimit)
    as [trace Hrun].
  exists trace. split; [exact Hrun|].
  split; [apply run_of_walk; exact Hrun|]. cbv zeta.
  refine (invoke_invariant api_key chat_completion process_streamlit_input
            Inv Post (fun call n s n' Hinv Hn => proj1 (Hedge call n s n' Hinv Hn))
            _ _ _ _ _ _ Hrun _).
  - (* the end *)
    intros call n s Hinv Hn.
    destruct n; cbn [node_function next_node] in *; try discriminate.
    destruct Hinv as (Hs & Hc & Ht & Hm & Hcase).
    apply route_optimization_none in Hn.
    destruct (assess_fields s) as (Fm & Ft & Fa & _).
    unfold Post. rewrite assess_success by exact Hs. rewrite Fa, Ht.
    split; [|split; [exact Hn | destruct Hcase as [[-> _]|[-> _]]; lia]].
    apply Z.geb_le.
    destruct Hcase as [[Ha _] | [_ (z & Hz & Hz88)]].
    + destruct (Z_lt_ge_dec (assessed_score s) target) as [Hlt|Hge]; [|lia].
      exfalso.
      assert (Hopen : workflow_completed (assess_quality_and_decide s) = false)
        by (apply assess_open_iff; repeat split; [exact Hc | lia | lia]).
      congruence.
    + rewrite (assessed_score_of_score s z Hz) by lia. lia.
  - (* the initial state *)
    reflexivity.
Qed.

(** With no key at all, and an endpoint that would answer. *)
Lemma target_up_to_88_is_always_reached_witness :
  sample_pipeline sample_streamlit_input false
  = Some {| dalle_prompt := py "Pflegekraft in moderner Klinik";
            midjourney_prompt := py "nurse in a modern clinic --ar 1:1";
            quality_assessment := None |} /\
  result_success
    (run_quality_workflow None sample_chat sample_pipeline 25
       sample_streamlit_input false 85 3) = true.
Proof.
  split; [reflexivity|].
  destruct (target_up_to_88_is_always_reached None sample_chat sample_pipeline
              25 sample_streamlit_input false 85 3 _ eq_refl
              ltac:(lia) ltac:(lia) ltac:(lia))
    as (trace & _ & Hresult & Hs & _).
  rewrite Hresult. exact Hs.
Defined.

(** X21.  A target above 92 is out of reach of the optimization loop: when
    the pipeline produces its prompts and the initial prompt is assessed
    below such a target, [run_quality_workflow] never reports success,
    whatever GPT-4 answers and whatever the recursion limit is; and when
    the recursion limit leaves room for [3 * (max_attempts - 1) + 2] nodes,
    the run uses up its attempts and returns a final score below the
    target. *)
Theorem target_above_92_is_never_reached (api_key : option pystr)
    (chat_completion : nat -> pystr -> pyval -> option pystr)
    (process_streamlit_input : pydict -> bool -> option FinalizedPrompts)
    (recursion_limit : nat) (input : pydict) (text_rendering : bool)
    (target max : Z) (result : FinalizedPrompts) :
  process_streamlit_input input text_rendering = Some result ->
  (92 < target)%Z ->
  (assessed_score
     (generate_initial_prompt process_streamlit_input
        (initial_state input text_rendering target max)) < target)%Z ->
  result_success
    (run_quality_workflow api_key chat_completion process_streamlit_input
       recursion_limit input text_rendering target max) = false /\
  ((3 * Z.to_nat (max - 1) + 2 <= recursion_limit)%nat ->
   exists final,
     run_quality_workflow api_key chat_completion process_streamlit_input
       recursion_limit input text_rendering target max
     = workflow_result final /\
     success final = false /\
     workflow_completed final = true /\
     current_attempt final = Z.max 1 max /\
     exists final_score,
       current_quality_score final = Some final_score /\
       (final_score < target)%Z).
Proof.
  intros Hresult Htarget Hinitial.
  set (Inv := fun (n : node) (s : QualityWorkflowState) =>
    match n with
    | generate_initial => s = initial_state input text_rendering target max
    | _ =>
        success s = false /\ workflow_completed s = false /\
        target_quality_score s = target /\ max_attempts s = max /\
        (assessed_score s < target)%Z /\
        (1 <= current_attempt s)%Z /\
        (if is_optimization n then (current_attempt s < max)%Z
         else (current_attempt s <= Z.max 1 max)%Z)
    end).
  set (Post := fun final : QualityWorkflowState =>
    success final = false /\ workflow_completed final = true /\
    current_attempt final = Z.max 1 max /\
    exists final_score,
      current_quality_score final = Some final_score /\
      (final_score < target)%Z).
  assert (Hscore_eq : forall s s' : QualityWorkflowState,
            current_quality_score s' = current_quality_score s ->
            assessed_score s' = assessed_score s).
  { intros s s' E. unfold assessed_score. rewrite E. reflexivity. }
  assert (Hpost : forall trace,
            invoke api_key chat_completion process_streamlit_input
              recursion_limit 0 generate_initial
              (initial_state input text_rendering target max) = Some trace ->
            Post (final_state (initial_state input text_rendering target max)
                    trace)).
  { intros trace Hrun.
  refine (invoke_invariant api_key chat_completion process_streamlit_input
            Inv Post _ _ _ _ _ _ _ Hrun _).
  - (* the edges *)
    intros call n s n' Hinv Hn.
    destruct (is_optimization n) eqn:Eopt.
    { assert (Hs : success s = false /\ workflow_completed s = false /\
                   target_quality_score s = target /\ max_attempts s = max /\
                   (assessed_score s < target)%Z /\
                   (1 <= current_attempt s)%Z /\ (current_attempt s < max)%Z)
        by (destruct n; try discriminate; exact Hinv).
      destruct Hs as (Hs & Hc & Ht & Hm & Hsc & H1 & Ha).
      destruct (optimization_node_fields api_key chat_completion
                  process_streamlit_input call n s Eopt)
        as (On & Os & Oc & Om & Ot & Oq & _ & _ & Oa).
      rewrite On in Hn. inversion Hn; subst n'. unfold Inv.
      cbn [is_optimization].
      rewrite Os, Oc, Om, Ot, (Hscore_eq _ _ Oq).
      repeat split; try assumption; lia. }
    destruct n; try discriminate; cbn [node_function next_node] in *.
    + (* generate_initial *)
      inversion Hn; subst n'. unfold Inv in Hinv. subst s.
      destruct (generate_initial_success process_streamlit_input input
                  text_rendering target max result Hresult)
        as (Gs & Gc & Gt & Gm & Ga & _).
      unfold Inv. cbn [is_optimization]. rewrite Ga.
      repeat split; try assumption; lia.
    + (* assess_quality *)
      destruct Hinv as (Hs & Hc & Ht & Hm & Hsc & H1 & Ha).
      apply route_optimization_some in Hn. destruct Hn as [Hopen Hn'].
      pose proof Hopen as Hopen'. apply assess_open_iff in Hopen'.
      destruct Hopen' as (_ & _ & Hatt).
      destruct (assess_fields s) as (Fm & Ft & Fa & _ & Fq).
      assert (Hinv' : success (assess_quality_and_decide s) = false /\
                workflow_completed (assess_quality_and_decide s) = false /\
                target_quality_score (assess_quality_and_decide s) = target /\
                max_attempts (assess_quality_and_decide s) = max /\
                (assessed_score (assess_quality_and_decide s) < target)%Z /\
                (1 <= current_attempt (assess_quality_and_decide s))%Z /\
                (current_attempt (assess_quality_and_decide s) < max)%Z).
      { rewrite assess_success by exact Hs.
        rewrite (assessed_score_of_score _ _ Fq (assessed_score_nonzero s)).
        rewrite Fm, Ft, Fa. repeat split; try assumption; lia. }
      unfold Inv. rewrite Hn'. destruct n'; try discriminate; exact Hinv'.
    + (* reassess_quality *)
      inversion Hn; subst n'.
      destruct Hinv as (Hs & Hc & Ht & Hm & Hsc & H1 & Ha).
      cbn [is_optimization] in Ha.
      destruct (reassess_fields s) as (Ra & Rm & Rt & Rc & _).
      destruct (reassess_more_fields s) as (Rs & _ & _ & Rq).
      unfold Inv. cbn [is_optimization]. rewrite Rs, Rc, Rt, Rm, Ra.
      repeat split; try assumption.
      destruct Rq as [Rq|Rq]; [rewrite (Hscore_eq _ _ Rq); exact Hsc|].
      pose proof (strategy_bonus_range (optimization_strategy s)).
      rewrite (assessed_score_of_score _ _ Rq) by lia. lia.
  - (* the end *)
    intros call n s Hinv Hn.
    destruct n; cbn [node_function next_node] in *; try discriminate.
    destruct Hinv as (Hs & Hc & Ht & Hm & Hsc & H1 & Ha).
    cbn [is_optimization] in Ha.
    apply route_optimization_none in Hn.
    destruct (assess_fields s) as (Fm & Ft & Fa & _ & Fq).
    unfold Post. rewrite assess_success by exact Hs. rewrite Fa, Ht.
    split; [lia|]. split; [exact Hn|]. split.
    + destruct (Z_lt_ge_dec (current_attempt s) max) as [Hlt|Hge]; [|lia].
      exfalso.
      assert (Hopen : workflow_completed (assess_quality_and_decide s) = false)
        by (apply assess_open_iff; repeat split; [exact Hc | lia | lia]).
      congruence.
    + exists (assessed_score s). split; [exact Fq | exact Hsc].
  - (* the initial state *)
    reflexivity. }
  unfold run_quality_workflow. cbv zeta.
  destruct (invoke api_key chat_completion process_streamlit_input
              recursion_limit 0 generate_initial
              (initial_state input text_rendering target max))
    as [trace|] eqn:Hrun.
  - pose proof (Hpost trace eq_refl) as H. unfold Post, final_state in H.
    destruct H as (Hs & Hc & Ha & Hq).
    split; [exact Hs|]. intros _. eexists. split; [reflexivity|].
    repeat split; assumption.
  - split; [reflexivity|]. intros Hle.
    destruct (walk_returns api_key chat_completion process_streamlit_input
                input text_rendering target max recursion_limit Hle)
      as [trace Hwalk].
    congruence.
Qed.

(** The sample pipeline (fallback score 60) against the target 95. *)
Lemma target_above_92_is_never_reached_witness :
  sample_pipeline sample_streamlit_input false
  = Some {| dalle_prompt := py "Pflegekraft in moderner Klinik";
            midjourney_prompt := py "nurse in a modern clinic --ar 1:1";
            quality_assessment := None |} /\
  result_success
    (run_quality_workflow (Some (py "sk-test")) sample_chat sample_pipeline 25
       sample_streamlit_input false 95 3) = false /\
  exists final,
    run_quality_workflow (Some (py "sk-test")) sample_chat sample_pipeline 25
      sample_streamlit_input false 95 3 = workflow_result final /\
    current_attempt final = 3%Z.
Proof.
  split; [reflexivity|].
  destruct (target_above_92_is_never_reached (Some (py "sk-test")) sample_chat
              sample_pipeline 25 sample_streamlit_input false 95 3 _ eq_refl
              ltac:(lia) ltac:(vm_compute; reflexivity))
    as [Hs Hfinal].
  split; [exact Hs|].
  destruct (Hfinal ltac:(apply Nat.leb_le; vm_compute; reflexivity))
    as (final & Hresult & _ & _ & Ha & _).
  exists final. split; [exact Hresult | exact Ha].
Defined.

(** X22.  When [OPENAI_API_KEY] is unset, or every chat completion raises,
    the prompt a finished run returns is the original prompt: the one the
    pipeline rendered, if it rendered one.  (The score is raised by the
    strategy bonus all the same.)  The run is finished whenever the
    recursion limit leaves room for [3 * (max_attempts - 1) + 2] nodes;
    otherwise the error dictionary, which has no prompt, may come back. *)
Theorem unreachable_gpt4_returns_original_prompt (api_key : option pystr)
    (chat_completion : nat -> pystr -> pyval -> option pystr)
    (process_streamlit_input : pydict -> bool -> option FinalizedPrompts)
    (recursion_limit : nat) (input : pydict) (text_rendering : bool)
    (target max : Z) :
  api_key = None \/
  (forall call system_message prompt,
     chat_completion call system_message prompt = None) ->
  (forall final,
     run_quality_workflow api_key chat_completion process_streamlit_input
       recursion_limit input text_rendering target max
     = workflow_result final ->
     current_prompt final = original_prompt final /\
     forall result,
       process_streamlit_input input text_rendering = Some result ->
       current_prompt final = PStr (dalle_prompt result)) /\
  ((3 * Z.to_nat (max - 1) + 2 <= recursion_limit)%nat ->
   exists final,
     run_quality_workflow api_key chat_completion process_streamlit_input
       recursion_limit input text_rendering target max
     = workflow_result final).
Proof.
  intros Hgpt.
  set (Inv := fun (n : node) (s : QualityWorkflowState) =>
    match n with
    | generate_initial => s = initial_state input text_rendering target max
    | _ =>
        current_prompt s = original_prompt s /\
        forall result,
          process_streamlit_input input text_rendering = Some result ->
          current_prompt s = PStr (dalle_prompt result)
    end).
  set (Post := fun final : QualityWorkflowState =>
    current_prompt final = original_prompt final /\
    forall result,
      process_streamlit_input input text_rendering = Some result ->
      current_prompt final = PStr (dalle_prompt result)).
  assert (Hpost : forall trace,
            invoke api_key chat_completion process_streamlit_input
              recursion_limit 0 generate_initial
              (initial_state input text_rendering target max) = Some trace ->
            Post (final_state (initial_state input text_rendering target max)
                    trace)).
  { intros trace Hrun.
  refine (invoke_invariant api_key chat_completion process_streamlit_input
            Inv Post _ _ _ _ _ _ _ Hrun _).
  - (* the edges *)
    intros call n s n' Hinv Hn.
    destruct (is_optimization n) eqn:Eopt.
    { assert (Hs : Post s) by (destruct n; try discriminate; exact Hinv).
      destruct (optimization_node_fields api_key chat_completion
                  process_streamlit_input call n s Eopt)
        as (On & _ & _ & _ & _ & _ & Oo & _).
      rewrite On in Hn. inversion Hn; subst n'. unfold Inv.
      rewrite Oo, (optimization_node_keeps_prompt api_key chat_completion
                     process_streamlit_input call n s Hgpt Eopt).
      exact Hs. }
    destruct n; try discriminate; cbn [node_function next_node] in *.
    + (* generate_initial *)
      inversion Hn; subst n'. unfold Inv in Hinv. subst s. unfold Inv.
      destruct (process_streamlit_input input text_rendering)
        as [result|] eqn:E.
      * destruct (generate_initial_success process_streamlit_input input
                    text_rendering target max result E)
          as (_ & _ & _ & _ & _ & Gp & Go).
        rewrite Gp, Go. split; [reflexivity|].
        intros result' H; inversion H; reflexivity.
      * split; [|discriminate].
        unfold generate_initial_prompt.
        cbn [streamlit_input enable_text_rendering initial_state].
        rewrite E. reflexivity.
    + (* assess_quality *)
      apply route_optimization_some in Hn. destruct Hn as [_ Hn'].
      destruct (assess_fields s) as (_ & _ & _ & Fp & _).
      destruct (assess_more_fields s) as (Fo & _).
      assert (Hinv' : Post (assess_quality_and_decide s))
        by (unfold Post; rewrite Fp, Fo; exact Hinv).
      destruct n'; try discriminate; exact Hinv'.
    + (* reassess_quality *)
      inversion Hn; subst n'.
      destruct (reassess_fields s) as (_ & _ & _ & _ & Rp).
      destruct (reassess_more_fields s) as (_ & Ro & _).
      unfold Inv. rewrite Rp, Ro. exact Hinv.
  - (* the end *)
    intros call n s Hinv Hn.
    destruct n; cbn [node_function next_node] in *; try discriminate.
    destruct (assess_fields s) as (_ & _ & _ & Fp & _).
    destruct (assess_more_fields s) as (Fo & _).
    unfold Post. rewrite Fp, Fo. exact Hinv.
  - (* the initial state *)
    reflexivity. }
  unfold run_quality_workflow. cbv zeta.
  destruct (invoke api_key chat_completion process_streamlit_input
              recursion_limit 0 generate_initial
              (initial_state input text_rendering target max))
    as [trace|] eqn:Hrun.
  - split.
    + intros final Hfinal. inversion Hfinal; subst final.
      apply (Hpost trace eq_refl).
    + intros _. eexists; reflexivity.
  - split; [discriminate|]. intros Hle.
    destruct (walk_returns api_key chat_completion process_streamlit_input
                input text_rendering target max recursion_limit Hle)
      as [trace Hwalk].
    congruence.
Qed.

(** A key is set, the endpoint raises on every call. *)
Lemma unreachable_gpt4_returns_original_prompt_witness :
  (Some (py "sk-test") = None \/
   (forall call system_message prompt,
      failing_chat call system_message prompt = None)) /\
  exists final,
    run_quality_workflow (Some (py "sk-test")) failing_chat sample_pipeline 25
      sample_streamlit_input false 85 3 = workflow_result final /\
    current_prompt final = original_prompt final.
Proof.
  assert (H : Some (py "sk-test") = None \/
              (forall call system_message prompt,
                 failing_chat call system_message prompt = None))
    by (right; intros; reflexivity).
  split; [exact H|].
  destruct (unreachable_gpt4_returns_original_prompt (Some (py "sk-test"))
              failing_chat sample_pipeline 25 sample_streamlit_input false
              85 3 H)
    as [Hall Hfinished].
  destruct (Hfinished ltac:(apply Nat.leb_le; vm_compute; reflexivity))
    as [final Hresult].
  exists final. split; [exact Hresult | apply (Hall final Hresult)].
Defined.
